(** * Bot-Trading: signal computation, aggregation and position gating

    A shallow embedding of the Python sources

    - [strategies/supertrend.py], [strategies/golden_cross.py],
      [strategies/bollinger_bands.py], [strategies/funding_rate.py]
    - [core/trading_bot.py]
    - [gui/main_window.py] (the bot loop and the settings form) and
      [main.py] (the default strategies)

    followed by the properties of the specification that concern them.

    Conventions of the embedding.

    - A Python [float] is a rational number or NaN: [float := option Q],
      [None] being NaN.  Arithmetic is exact; every property below is about
      the order of values and about NaN, never about rounding.
    - A pandas [DataFrame] is a list of rows, one record per row, so that all
      columns have one length.  [data['c'].iloc[i]] is [data.[c, i]];
      [data.loc[data.index[i], 'c'] = v] is [alter] at position [i].
    - A Python exception is the [Raise] case of [result].
    - [np.random] is a tape of draws with a cursor (the hidden global state
      of the generator), threaded through the calls that use it.
    - A [dict] keyed by strategy name is a [gmap string _].
    - Of pandas, [rolling(w)] is taken with its defaults: the value at a row
      is NaN until [w] rows exist ([min_periods = w]) and whenever the
      window holds a NaN; a window of no rows gives NaN and a negative
      window raises [ValueError].  The square root behind [std] is a
      parameter ([Sqrt]).
    - [pd.to_datetime] is a parameter ([ToDatetime]): it converts a column
      of integers or raises, and a converted column has the length of the
      column it was given.
    - Where a property depends on which [DataFrame] object a method writes
      to, the objects live in a store ([Store]): a heap of objects, each a
      number of rows and a map from column names to columns, and the
      methods are written operation by operation in a state monad over
      it. *)

From Stdlib Require Import QArith Qabs Qround ZArith Ascii String Lia Lqa.
From stdpp Require Import base option list strings gmap pretty.

Open Scope string_scope.
Open Scope list_scope.
Open Scope nat_scope.

(** ** Python values *)

Module Py.

(** Exceptions the modelled code can raise. *)
Inductive exn := ValueError | IndexError | KeyError | FetchError.

Inductive result (A : Type) :=
| Ok (a : A)
| Raise (e : exn).
Arguments Ok {A} a.
Arguments Raise {A} e.

Definition bind {A B} (r : result A) (k : A -> result B) : result B :=
  match r with
  | Ok a => k a
  | Raise e => Raise e
  end.

(** [float]: a rational or NaN. *)
Definition float := option Q.
Definition nan : float := None.
Definition fl (q : Q) : float := Some q.

Definition isnan (x : float) : bool :=
  match x with None => true | Some _ => false end.

(** [x] is a number. *)
Definition defined (x : float) : Prop := x ≠ nan.

Definition lift2 (op : Q -> Q -> Q) (x y : float) : float :=
  match x, y with
  | Some a, Some b => Some (op a b)
  | _, _ => None
  end.

Definition fadd := lift2 Qplus.
Definition fsub := lift2 Qminus.
Definition fmul := lift2 Qmult.

Definition fabs (x : float) : float :=
  match x with Some a => Some (Qabs a) | None => None end.

Definition Qlt_bool (a b : Q) : bool := negb (Qle_bool b a).

(** Comparisons: any comparison with NaN is [False]. *)
Definition flt (x y : float) : bool :=
  match x, y with
  | Some a, Some b => Qlt_bool a b
  | _, _ => false
  end.
Definition fle (x y : float) : bool :=
  match x, y with
  | Some a, Some b => Qle_bool a b
  | _, _ => false
  end.
Definition fgt (x y : float) : bool := flt y x.
Definition fge (x y : float) : bool := fle y x.

(** [range(a, b)] *)
Definition range (a b : nat) : list nat := seq a (b - a).

End Py.

Export Py.

#[global] Instance result_bind : MBind result := fun A B k r => Py.bind r k.
#[global] Instance result_ret : MRet result := @Py.Ok.
#[global] Instance result_fmap : FMap result :=
  fun A B f r => Py.bind r (fun a => Py.Ok (f a)).

(** ** The pandas operations the strategies use *)

Module Pandas.

(** [data['c'].iloc[i]] for [i] in range. *)
Definition cell {R A} `{Inhabited A} (col : R -> A) (data : list R) (i : nat) : A :=
  from_option col inhabitant (data !! i).

(** [series.iloc[-1]]: the last element, [IndexError] on an empty series. *)
Definition iloc_last {R A} (col : R -> A) (data : list R) : result A :=
  match last data with
  | Some r => Ok (col r)
  | None => Raise IndexError
  end.

(** [series.shift(1)] *)
Definition shift1 (xs : list float) : list float :=
  match xs with
  | [] => []
  | _ => nan :: take (length xs - 1) xs
  end.

(** Maximum of the values of a row that are not NaN
    ([DataFrame.max(axis=1)] skips NaN); NaN when there is none. *)
Definition nanmax2 (x y : float) : float :=
  match x, y with
  | Some a, Some b => Some (if Qle_bool a b then b else a)
  | Some a, None => Some a
  | None, y => y
  end.

Definition row_max (xs : list float) : float := foldr nanmax2 nan xs.

(** The values of a window when none of them is NaN. *)
Fixpoint observations (xs : list float) : option (list Q) :=
  match xs with
  | [] => Some []
  | Some q :: xs' =>
      match observations xs' with
      | Some qs => Some (q :: qs)
      | None => None
      end
  | None :: _ => None
  end.

Definition Qsum (qs : list Q) : Q := foldr Qplus 0%Q qs.

(** The window of [rolling(w)] that ends at row [i]: the [w] values up to
    and including row [i]; absent while fewer than [w] rows exist
    ([min_periods] defaults to the window size). *)
Definition window (w i : nat) (xs : list float) : option (list Q) :=
  if decide (w <= i + 1)%nat
  then observations (take w (drop (i + 1 - w) xs))
  else None.

Definition mean (qs : list Q) : float :=
  match qs with
  | [] => nan
  | _ => Some (Qsum qs / inject_Z (Z.of_nat (length qs)))%Q
  end.

(** Sample variance ([ddof=1]); NaN unless there are two observations. *)
Definition var (qs : list Q) : float :=
  match qs with
  | [] | [_] => nan
  | _ =>
      let m := (Qsum qs / inject_Z (Z.of_nat (length qs)))%Q in
      Some (Qsum (map (fun q => (q - m) * (q - m))%Q qs)
            / inject_Z (Z.of_nat (length qs - 1)))%Q
  end.

(** [series.rolling(w).agg()]: a negative window is refused. *)
Definition rolling (agg : list Q -> float) (w : Z) (xs : list float)
  : result (list float) :=
  if (w <? 0)%Z then Raise ValueError
  else Ok (map (fun i => from_option agg nan (window (Z.to_nat w) i xs))
               (seq 0 (length xs))).

Definition rolling_mean := rolling mean.

(** The square root of floating-point numbers is not a rational function:
    it is a parameter of the development. *)
Class Sqrt := fsqrt : Q -> Q.

Definition std `{Sqrt} (qs : list Q) : float :=
  match var qs with
  | Some v => Some (fsqrt v)
  | None => nan
  end.

Definition rolling_std `{Sqrt} := rolling std.

(** [pd.to_datetime(column, unit='ms')]: the instants of a column of
    integer milliseconds, or the exception the call ends with (pandas
    refuses a column with a value its clock cannot hold).  Which values the
    clock holds, and how it counts the instants, is a matter of pandas: the
    conversion is a parameter of the development.  It returns a column of
    the length of the one it is given. *)
Class ToDatetime := {
  to_datetime : list Z -> result (list Z);
  to_datetime_length (column instants : list Z) :
    to_datetime column = Ok instants -> length instants = length column
}.

End Pandas.

Export Pandas.

Notation "data .[ col , i ]" := (Pandas.cell col data i)
  (at level 1, col at level 200, i at level 200, left associativity,
   format "data .[ col ,  i ]").

(** ** Candle series *)

(** One row of the frame [fetch_data] builds:
    [timestamp, open, high, low, close, volume]. *)
Record Candle := {
  timestamp : Z;
  open : Q;
  high : Q;
  low : Q;
  close : Q;
  volume : Q
}.

Abbreviation DataFrame := (list Candle).

(** ** Signals: the strings the strategies return *)

Definition buy : string := "buy".
Definition sell : string := "sell".
Definition hold : string := "hold".

(** ** [np.random]: the global generator *)

Module NumpyRandom.

(** The hidden state of the generator: the standard-normal draws it will
    hand out, and how many it has handed out so far. *)
Record RandomState := {
  tape : nat -> Q;
  cursor : nat
}.

(** [np.random.normal(loc, scale, size)]: [size] fresh draws; the
    generator moves on by [size]. *)
Definition normal (loc scale : Q) (size : nat) (st : RandomState)
  : list float * RandomState :=
  (map (fun i => fl (loc + scale * tape st (cursor st + i))%Q) (seq 0 size),
   {| tape := tape st; cursor := cursor st + size |}).

End NumpyRandom.

Export NumpyRandom.

(** ** strategies/supertrend.py *)

Module SupertrendStrategy.

Record Self := {
  period : Z;
  multiplier : Q
}.

(** A row of the frame [calculate] returns. *)
Record Row := {
  candle : Candle;
  atr_ : float;
  upperband : float;
  lowerband : float;
  in_uptrend : bool
}.

Definition close_ (r : Row) : float := fl (close (candle r)).

Definition set_in_uptrend (v : bool) (r : Row) : Row :=
  {| candle := candle r; atr_ := atr_ r; upperband := upperband r;
     lowerband := lowerband r; in_uptrend := v |}.
Definition set_lowerband (v : float) (r : Row) : Row :=
  {| candle := candle r; atr_ := atr_ r; upperband := upperband r;
     lowerband := v; in_uptrend := in_uptrend r |}.
Definition set_upperband (v : float) (r : Row) : Row :=
  {| candle := candle r; atr_ := atr_ r; upperband := v;
     lowerband := lowerband r; in_uptrend := in_uptrend r |}.

(** [tr]: True Range.  [previous_close] is NaN on the first row, where the
    row maximum is therefore [high-low]. *)
Definition tr (data : DataFrame) : list float :=
  let previous_close := shift1 (map (fun c => fl (close c)) data) in
  let high_low := map (fun c => fabs (fsub (fl (high c)) (fl (low c)))) data in
  let high_pc := zip_with (fun c pc => fabs (fsub (fl (high c)) pc)) data previous_close in
  let low_pc := zip_with (fun c pc => fabs (fsub (fl (low c)) pc)) data previous_close in
  zip_with (fun hl p => row_max [hl; p.1; p.2]) high_low (zip high_pc low_pc).

(** [atr]: Average True Range. *)
Definition atr (data : DataFrame) (period : Z) : result (list float) :=
  rolling_mean period (tr data).

(** The body of the loop of [calculate], for one value of [current]. *)
Definition step (data : list Row) (current : nat) : list Row :=
  let previous := (current - 1)%nat in
  if fgt data.[close_, current] data.[upperband, previous] then
    alter (set_in_uptrend true) current data
  else if flt data.[close_, current] data.[lowerband, previous] then
    alter (set_in_uptrend false) current data
  else
    let data := alter (set_in_uptrend data.[in_uptrend, previous]) current data in
    let data :=
      if data.[in_uptrend, current]
         && flt data.[lowerband, current] data.[lowerband, previous]
      then alter (set_lowerband data.[lowerband, previous]) current data
      else data in
    let data :=
      if negb data.[in_uptrend, current]
         && fgt data.[upperband, current] data.[upperband, previous]
      then alter (set_upperband data.[upperband, previous]) current data
      else data in
    data.

(** The frame before the loop: [atr], the two raw bands around [hl2], and
    [in_uptrend = True] on every row. *)
Definition bands (self : Self) (data : DataFrame) (atr_col : list float)
  : list Row :=
  zip_with
    (fun c a =>
       let hl2 := fl ((high c + low c) / 2)%Q in
       {| candle := c;
          atr_ := a;
          upperband := fadd hl2 (fmul (fl (multiplier self)) a);
          lowerband := fsub hl2 (fmul (fl (multiplier self)) a);
          in_uptrend := true |})
    data atr_col.

Definition calculate (self : Self) (data : DataFrame) : result (list Row) :=
  atr_col ← atr data (period self);
  let data := bands self data atr_col in
  Ok (foldl step data (range 1 (length data))).

Definition get_signal (data : list Row) : string :=
  let last_row_index := (Z.of_nat (length data) - 1)%Z in
  let previous_row_index := (last_row_index - 1)%Z in
  if (previous_row_index <? 0)%Z then hold
  else
    let p := data.[in_uptrend, Z.to_nat previous_row_index] in
    let l := data.[in_uptrend, Z.to_nat last_row_index] in
    if negb p && l then buy
    else if p && negb l then sell
    else hold.

End SupertrendStrategy.

(** ** strategies/golden_cross.py *)

Module GoldenCrossStrategy.

Record Self := {
  short_period : Z;
  long_period : Z
}.

(** A row of the frame: [ma_short] and [ma_long] are the columns
    [MA_<short_period>] and [MA_<long_period>] (one column of the frame
    when the two periods are equal, with the same values either way). *)
Record Row := {
  candle : Candle;
  ma_short : float;
  ma_long : float;
  golden_cross : bool;
  death_cross : bool
}.

Definition set_golden_cross (v : bool) (r : Row) : Row :=
  {| candle := candle r; ma_short := ma_short r; ma_long := ma_long r;
     golden_cross := v; death_cross := death_cross r |}.
Definition set_death_cross (v : bool) (r : Row) : Row :=
  {| candle := candle r; ma_short := ma_short r; ma_long := ma_long r;
     golden_cross := golden_cross r; death_cross := v |}.

(** The body of the crossover loop, for one value of [i]. *)
Definition step (data : list Row) (i : nat) : list Row :=
  let data :=
    if fle data.[ma_short, i - 1] data.[ma_long, i - 1]
       && fgt data.[ma_short, i] data.[ma_long, i]
    then alter (set_golden_cross true) i data
    else data in
  let data :=
    if fge data.[ma_short, i - 1] data.[ma_long, i - 1]
       && flt data.[ma_short, i] data.[ma_long, i]
    then alter (set_death_cross true) i data
    else data in
  data.

Definition averages (data : DataFrame) (ma_s ma_l : list float) : list Row :=
  zip_with
    (fun c m =>
       {| candle := c; ma_short := m.1; ma_long := m.2;
          golden_cross := false; death_cross := false |})
    data (zip ma_s ma_l).

Definition calculate (self : Self) (data : DataFrame) : result (list Row) :=
  let closes := map (fun c => fl (close c)) data in
  ma_s ← rolling_mean (short_period self) closes;
  ma_l ← rolling_mean (long_period self) closes;
  let data := averages data ma_s ma_l in
  if (2 <=? length data)%nat
  then Ok (foldl step data (range 1 (length data)))
  else Ok data.

Definition get_signal (data : list Row) : result string :=
  g ← iloc_last golden_cross data;
  if g : bool then Ok buy
  else
    d ← iloc_last death_cross data;
    if d : bool then Ok sell else Ok hold.

End GoldenCrossStrategy.

(** ** strategies/bollinger_bands.py *)

Module BollingerBandsStrategy.

Record Self := {
  period : Z;
  num_std : Q
}.

Record Row := {
  candle : Candle;
  bb_middle : float;
  bb_std : float;
  bb_upper : float;
  bb_lower : float;
  above_upper : bool;
  below_lower : bool;
  bb_buy_signal : bool;
  bb_sell_signal : bool
}.

Definition set_bb_buy_signal (v : bool) (r : Row) : Row :=
  {| candle := candle r; bb_middle := bb_middle r; bb_std := bb_std r;
     bb_upper := bb_upper r; bb_lower := bb_lower r;
     above_upper := above_upper r; below_lower := below_lower r;
     bb_buy_signal := v; bb_sell_signal := bb_sell_signal r |}.
Definition set_bb_sell_signal (v : bool) (r : Row) : Row :=
  {| candle := candle r; bb_middle := bb_middle r; bb_std := bb_std r;
     bb_upper := bb_upper r; bb_lower := bb_lower r;
     above_upper := above_upper r; below_lower := below_lower r;
     bb_buy_signal := bb_buy_signal r; bb_sell_signal := v |}.

(** The body of the signal loop, for one value of [i]. *)
Definition step (data : list Row) (i : nat) : list Row :=
  let data :=
    if data.[below_lower, i - 1] && negb data.[below_lower, i]
    then alter (set_bb_buy_signal true) i data
    else data in
  let data :=
    if data.[above_upper, i - 1] && negb data.[above_upper, i]
    then alter (set_bb_sell_signal true) i data
    else data in
  data.

(** The columns computed before the loop. *)
Definition bands (self : Self) (data : DataFrame) (middle sd : list float)
  : list Row :=
  zip_with
    (fun c m =>
       let upper := fadd m.1 (fmul m.2 (fl (num_std self))) in
       let lower := fsub m.1 (fmul m.2 (fl (num_std self))) in
       {| candle := c; bb_middle := m.1; bb_std := m.2;
          bb_upper := upper; bb_lower := lower;
          above_upper := fgt (fl (close c)) upper;
          below_lower := flt (fl (close c)) lower;
          bb_buy_signal := false; bb_sell_signal := false |})
    data (zip middle sd).

Definition calculate `{Sqrt} (self : Self) (data : DataFrame)
  : result (list Row) :=
  let closes := map (fun c => fl (close c)) data in
  middle ← rolling_mean (period self) closes;
  sd ← rolling_std (period self) closes;
  let data := bands self data middle sd in
  Ok (foldl step data (range 1 (length data))).

Definition get_signal (data : list Row) : result string :=
  b ← iloc_last bb_buy_signal data;
  if b : bool then Ok buy
  else
    s ← iloc_last bb_sell_signal data;
    if s : bool then Ok sell else Ok hold.

End BollingerBandsStrategy.

(** ** strategies/funding_rate.py *)

Module FundingRateStrategy.

Record Self := {
  threshold : Q
}.

Record Row := {
  candle : Candle;
  funding_rate : float;
  fr_buy_signal : bool;
  fr_sell_signal : bool
}.

Definition signals (self : Self) (data : DataFrame) (rates : list float)
  : list Row :=
  zip_with
    (fun c r =>
       {| candle := c; funding_rate := r;
          fr_buy_signal := flt r (fl (- threshold self)%Q);
          fr_sell_signal := fgt r (fl (threshold self)) |})
    data rates.

(** [calculate] simulates the funding rates with [np.random.normal]. *)
Definition calculate (self : Self) (data : DataFrame) (rng : RandomState)
  : list Row * RandomState :=
  let '(rates, rng) := normal 0 (5 # 10000) (length data) rng in
  (signals self data rates, rng).

Definition get_signal (data : list Row) : result string :=
  b ← iloc_last fr_buy_signal data;
  if b : bool then Ok buy
  else
    s ← iloc_last fr_sell_signal data;
    if s : bool then Ok sell else Ok hold.

End FundingRateStrategy.

(** ** The strategy objects the bot holds *)

Module Strategy.

(** The four subclasses of [TradingStrategy], with their parameters. *)
Inductive Impl :=
| Supertrend (self : SupertrendStrategy.Self)
| GoldenCross (self : GoldenCrossStrategy.Self)
| BollingerBands (self : BollingerBandsStrategy.Self)
| FundingRate (self : FundingRateStrategy.Self).

(** [TradingStrategy]: [name], [is_active] and the subclass. *)
Record Self := {
  name : string;
  is_active : bool;
  impl : Impl
}.

(** Indicator frames, one shape per strategy. *)
Inductive Frame :=
| SupertrendFrame (rows : list SupertrendStrategy.Row)
| GoldenCrossFrame (rows : list GoldenCrossStrategy.Row)
| BollingerBandsFrame (rows : list BollingerBandsStrategy.Row)
| FundingRateFrame (rows : list FundingRateStrategy.Row).

(** [strategy.calculate(data)], by dynamic dispatch. *)
Definition calculate `{Sqrt} (self : Self) (data : DataFrame) (rng : RandomState)
  : result Frame * RandomState :=
  match impl self with
  | Supertrend s =>
      (SupertrendFrame <$> SupertrendStrategy.calculate s data, rng)
  | GoldenCross s =>
      (GoldenCrossFrame <$> GoldenCrossStrategy.calculate s data, rng)
  | BollingerBands s =>
      (BollingerBandsFrame <$> BollingerBandsStrategy.calculate s data, rng)
  | FundingRate s =>
      let '(rows, rng) := FundingRateStrategy.calculate s data rng in
      (Ok (FundingRateFrame rows), rng)
  end.

(** [strategy.get_signal(data)]; a frame without the columns the strategy
    reads raises [KeyError]. *)
Definition get_signal (self : Self) (data : Frame) : result string :=
  match impl self, data with
  | Supertrend _, SupertrendFrame rows => Ok (SupertrendStrategy.get_signal rows)
  | GoldenCross _, GoldenCrossFrame rows => GoldenCrossStrategy.get_signal rows
  | BollingerBands _, BollingerBandsFrame rows => BollingerBandsStrategy.get_signal rows
  | FundingRate _, FundingRateFrame rows => FundingRateStrategy.get_signal rows
  | _, _ => Raise KeyError
  end.

End Strategy.

(** ** core/trading_bot.py *)

Module TradingBot.

(** A bar as the exchange returns it:
    [[timestamp, open, high, low, close, volume]], the timestamp in
    milliseconds. *)
Definition Bar : Type := Z * Q * Q * Q * Q * Q.

(** [exchange.fetch_ohlcv(symbol, timeframe=..., limit=...)]: the answer of
    the exchange, or the exception the call ends with. *)
Definition Exchange := string -> string -> nat -> result (list Bar).

(** One row of [pd.DataFrame(bars, columns=[...])]: the timestamp is still
    the integer of the exchange. *)
Definition row_of_bar (b : Bar) : Candle :=
  let '(t, o, h, l, c, v) := b in
  {| timestamp := t; open := o; high := h; low := l; close := c; volume := v |}.

(** One row of [df['timestamp'] = ...]. *)
Definition set_timestamp (t : Z) (c : Candle) : Candle :=
  {| timestamp := t; open := open c; high := high c; low := low c;
     close := close c; volume := volume c |}.

(** An entry of the dict [run_strategies] returns:
    [{'data': strategy_data, 'signal': signal}]. *)
Record Entry := {
  entry_data : Strategy.Frame;
  entry_signal : string
}.

Record Self := {
  exchange : Exchange;
  strategies : list Strategy.Self;
  data : option DataFrame;
  in_position : bool;
  current_signals : gmap string string
}.

(** [TradingBot(exchange, strategies)] *)
Definition init (exchange : Exchange) (strategies : list Strategy.Self) : Self :=
  {| exchange := exchange; strategies := strategies; data := None;
     in_position := false; current_signals := ∅ |}.

Definition set_data (v : option DataFrame) (self : Self) : Self :=
  {| exchange := exchange self; strategies := strategies self; data := v;
     in_position := in_position self; current_signals := current_signals self |}.
Definition set_in_position (v : bool) (self : Self) : Self :=
  {| exchange := exchange self; strategies := strategies self; data := data self;
     in_position := v; current_signals := current_signals self |}.
Definition set_current_signals (v : gmap string string) (self : Self) : Self :=
  {| exchange := exchange self; strategies := strategies self; data := data self;
     in_position := in_position self; current_signals := v |}.

(** [bars[:-1]] *)
Definition all_but_last {A} (bars : list A) : list A :=
  take (length bars - 1) bars.

(** [fetch_data]: the new state of the bot and the value returned
    ([None] for Python's [None]).  The [try] block holds the call of the
    exchange and the construction of the frame: whichever raises, the
    handler returns [None] and nothing has been stored. *)
Definition fetch_data `{ToDatetime} (self : Self) (symbol timeframe : string)
    (limit : nat) : Self * option DataFrame :=
  match
    bars ← exchange self symbol timeframe limit;
    let df := map row_of_bar (all_but_last bars) in
    instants ← to_datetime (map timestamp df);
    let df := zip_with set_timestamp instants df in
    Ok df
  with
  | Ok df => (set_data (Some df) self, Some df)
  | Raise _ => (self, None)
  end.

(** The body of the loop of [run_strategies] for one strategy: the results
    so far and the state of the random generator go in and come out. *)
Definition run_strategy `{Sqrt} (data : DataFrame)
    (acc : gmap string Entry * RandomState) (strategy : Strategy.Self)
  : gmap string Entry * RandomState :=
  let '(results, rng) := acc in
  if Strategy.is_active strategy then
    let strategy_data := data in
    let '(calculated, rng) := Strategy.calculate strategy strategy_data rng in
    match
      strategy_data ← calculated;
      signal ← Strategy.get_signal strategy strategy_data;
      Ok {| entry_data := strategy_data; entry_signal := signal |}
    with
    | Ok entry => (<[Strategy.name strategy := entry]> results, rng)
    | Raise _ => (results, rng)
    end
  else (results, rng).

(** [run_strategies]: the results, and the new state of the bot and of the
    random generator. *)
Definition run_strategies `{Sqrt} (self : Self) (rng : RandomState)
  : gmap string Entry * Self * RandomState :=
  match data self with
  | None => (∅, self, rng)
  | Some data =>
      let '(results, rng) := foldl (run_strategy data) (∅, rng) (strategies self) in
      (results, set_current_signals (entry_signal <$> results) self, rng)
  end.

(** [list.count] *)
Definition count (x : string) (l : list string) : nat :=
  length (filter (λ y, y = x) l).

Definition get_combined_signal (self : Self) (mode : string) : string :=
  if bool_decide (current_signals self = ∅) then hold
  else
    let signals := (map_to_list (current_signals self)).*2 in
    if (mode =? "majority")%string then
      let buy_count := count buy signals in
      let sell_count := count sell signals in
      let hold_count := count hold signals in
      if (sell_count <? buy_count)%nat && (hold_count <? buy_count)%nat then buy
      else if (buy_count <? sell_count)%nat && (hold_count <? sell_count)%nat then sell
      else hold
    else if (mode =? "consensus")%string then
      if forallb (String.eqb buy) signals then buy
      else if forallb (String.eqb sell) signals then sell
      else hold
    else if (mode =? "any")%string then
      if bool_decide (buy ∈ signals) then buy
      else if bool_decide (sell ∈ signals) then sell
      else hold
    else hold.

(** [execute_order]: the new state of the bot and the value returned.  The
    calls that would place the order are commented out in the source;
    what remains of each branch sets the flag and returns [True]. *)
Definition execute_order (self : Self) (symbol signal : string) (quantity : Q)
  : Self * bool :=
  if (signal =? "buy")%string && negb (in_position self) then
    (set_in_position true self, true)
  else if (signal =? "sell")%string && in_position self then
    (set_in_position false self, true)
  else (self, false).

(** [add_strategy] *)
Definition add_strategy (self : Self) (strategy : Strategy.Self) : Self :=
  {| exchange := exchange self; strategies := strategies self ++ [strategy];
     data := data self; in_position := in_position self;
     current_signals := current_signals self |}.

End TradingBot.

(** ** gui/main_window.py: the loop of [run_bot] *)

Module TradingBotGUI.

Import TradingBot.

(** The window, as far as the loop calls it before it places an order.
    What is drawn is left out; a call may raise.  ([log] and [canvas.draw]
    are called after the order and touch nothing of the bot.) *)
Record Self := {
  update_charts : gmap string Entry -> result unit;
  update_signal_label : string -> string -> result unit
}.

(** [s.replace(old, new)] for one-character [old] and [new]. *)
Fixpoint replace (old new : Ascii.ascii) (s : string) : string :=
  match s with
  | EmptyString => EmptyString
  | String c s =>
      String (if Ascii.eqb c old then new else c) (replace old new s)
  end.

(** [name.replace(' ', '_').replace('/', '_')] *)
Definition safe_name (name : string) : string :=
  replace "/"%char "_"%char (replace " "%char "_"%char name).

(** One turn of the loop [while self.running] of [run_bot], up to the
    waiting: the bot and the random generator after it.  An exception
    raised on the way ends the turn (the handler only logs it). *)
Definition run_bot `{Sqrt} `{ToDatetime} (self : Self) (bot : TradingBot.Self)
    (symbol timeframe signal_mode : string) (rng : RandomState)
  : TradingBot.Self * RandomState :=
  let '(bot, data) := fetch_data bot symbol timeframe 100 in
  match data with
  | Some _ =>
      let '(strategy_results, bot, rng) := run_strategies bot rng in
      match
        _ ← update_charts self strategy_results;
        _ ← mapM (λ item : string * Entry,
                    update_signal_label self (safe_name item.1)
                      (entry_signal item.2))
                 (map_to_list strategy_results);
        let combined_signal := get_combined_signal bot signal_mode in
        _ ← update_signal_label self "Combined" combined_signal;
        Ok combined_signal
      with
      | Ok combined_signal =>
          if bool_decide (combined_signal ∈ [buy; sell]) then
            let '(bot, order_executed) :=
              execute_order bot symbol combined_signal (1 # 1000) in
            (bot, rng)
          else (bot, rng)
      | Raise _ => (bot, rng)
      end
  | None => (bot, rng)
  end.

End TradingBotGUI.

(** * The words of the specification *)

(** ** Position Gate (specification, section 4.4) *)

Module PositionGate.

Inductive Signal := Buy | Sell | Hold.

Definition to_string (s : Signal) : string :=
  match s with Buy => buy | Sell => sell | Hold => hold end.

Inductive Position := Flat | Long.

(** The state machine as the specification words it: the next state and
    whether the call reports success. *)
Definition gate (p : Position) (s : Signal) : Position * bool :=
  match p, s with
  | Flat, Buy => (Long, true)
  | Long, Sell => (Flat, true)
  | _, _ => (p, false)
  end.

Fixpoint gate_run (p : Position) (l : list Signal) : Position * list bool :=
  match l with
  | [] => (p, [])
  | s :: l =>
      let '(p, ok) := gate p s in
      let '(p, oks) := gate_run p l in
      (p, ok :: oks)
  end.

(** The position a bot is in. *)
Definition position (self : TradingBot.Self) : Position :=
  if TradingBot.in_position self then Long else Flat.

(** A sequence of [execute_order] calls on one symbol. *)
Fixpoint execute_orders (self : TradingBot.Self) (symbol : string)
    (quantity : Q) (signals : list string) : TradingBot.Self * list bool :=
  match signals with
  | [] => (self, [])
  | s :: signals =>
      let '(self, ok) := TradingBot.execute_order self symbol s quantity in
      let '(self, oks) := execute_orders self symbol quantity signals in
      (self, ok :: oks)
  end.

End PositionGate.

(** ** Signal Aggregator (specification, section 4.3) *)

Module Aggregator.

(** The signals of the mapping, as [get_combined_signal] lists them. *)
Definition signals (m : gmap string string) : list string :=
  (map_to_list m).*2.

(** How many strategies voted [x]. *)
Definition votes (m : gmap string string) (x : string) : nat :=
  TradingBot.count x (signals m).

(** [x] is one of Buy, Sell, Hold and has strictly more votes than each of
    the other two. *)
Definition strictly_greatest (m : gmap string string) (x : string) : Prop :=
  x ∈ [buy; sell; hold] ∧
  ∀ y, y ∈ [buy; sell; hold] → y ≠ x → votes m y < votes m x.

(** Some strategy voted [x]. *)
Definition voted (m : gmap string string) (x : string) : Prop :=
  ∃ name, m !! name = Some x.

Definition bot_with (m : gmap string string) : TradingBot.Self :=
  TradingBot.set_current_signals m (TradingBot.init (λ _ _ _, Raise FetchError) []).

End Aggregator.

(** ** Row-by-row loops as a forward scan (specification, section 9) *)

Module Scan.

Section Scan.

Context {R : Type}.

(** [next p c]: the row that replaces [c] when the row before it, already
    final, is [p]. *)
Variable next : R -> R -> R.

Fixpoint scan (p : R) (rows : list R) : list R :=
  match rows with
  | [] => []
  | c :: rows => let c := next p c in c :: scan c rows
  end.

(** The first row is kept; every later row is rewritten from the final
    row before it. *)
Definition forward (rows : list R) : list R :=
  match rows with
  | [] => []
  | r :: rows => r :: scan r rows
  end.

End Scan.

End Scan.

(** ** The Supertrend recurrence, bar by bar *)

Module SupertrendScan.

Import SupertrendStrategy.

(** One bar of the Supertrend recurrence: the final row of the bar before
    ([p]) and the row with the raw bands ([c]) give the final row. *)
Definition next (p c : Row) : Row :=
  if fgt (close_ c) (upperband p) then set_in_uptrend true c
  else if flt (close_ c) (lowerband p) then set_in_uptrend false c
  else
    let c := set_in_uptrend (in_uptrend p) c in
    let c :=
      if in_uptrend c && flt (lowerband c) (lowerband p)
      then set_lowerband (lowerband p) c else c in
    let c :=
      if negb (in_uptrend c) && fgt (upperband c) (upperband p)
      then set_upperband (upperband p) c else c in
    c.

(** What the loop keeps of a row: the candle, the ATR, and whether each
    band is a number. *)
Definition same_shape (c r : Row) : Prop :=
  candle r = candle c ∧ atr_ r = atr_ c ∧
  isnan (upperband r) = isnan (upperband c) ∧
  isnan (lowerband r) = isnan (lowerband c).

End SupertrendScan.

(** ** The crossover flags, bar by bar *)

Module GoldenCrossScan.

Import GoldenCrossStrategy.

(** One bar of the crossover loop: the row before ([p]) and the row itself
    ([c]) give the row with its flags. *)
Definition next (p c : Row) : Row :=
  let c :=
    if fle (ma_short p) (ma_long p) && fgt (ma_short c) (ma_long c)
    then set_golden_cross true c else c in
  let c :=
    if fge (ma_short p) (ma_long p) && flt (ma_short c) (ma_long c)
    then set_death_cross true c else c in
  c.

(** What the loop keeps of a row: the candle and the two averages. *)
Definition same_averages (c r : Row) : Prop :=
  candle r = candle c ∧ ma_short r = ma_short c ∧ ma_long r = ma_long c.

(** Both averages of a row are numbers. *)
Definition both_defined (r : Row) : Prop :=
  defined (ma_short r) ∧ defined (ma_long r).

(** One of the averages of a row is NaN. *)
Definition undefined (r : Row) : Prop :=
  ma_short r = nan ∨ ma_long r = nan.

(** The row carries no event. *)
Definition no_event (r : Row) : Prop :=
  golden_cross r = false ∧ death_cross r = false.

End GoldenCrossScan.

(** ** The Bollinger signals, bar by bar *)

Module BollingerBandsScan.

Import BollingerBandsStrategy.

(** One bar of the signal loop: the row before ([p]) and the row itself
    ([c]) give the row with its signals. *)
Definition next (p c : Row) : Row :=
  let c :=
    if below_lower p && negb (below_lower c)
    then set_bb_buy_signal true c else c in
  let c :=
    if above_upper p && negb (above_upper c)
    then set_bb_sell_signal true c else c in
  c.

(** What the loop keeps of a row: whether the close is outside the bands. *)
Definition same_outside (c r : Row) : Prop :=
  above_upper r = above_upper c ∧ below_lower r = below_lower c.

End BollingerBandsScan.

(** ** Strategy Runner (specification, section 4.2) *)

Module Runner.

Import TradingBot.

(** [calculate] then [get_signal] for one strategy on the data: the entry
    or the exception, and the state the random generator is left in. *)
Definition evaluate `{Sqrt} (strategy : Strategy.Self) (data : DataFrame)
    (rng : RandomState) : result Entry * RandomState :=
  let '(calculated, rng) := Strategy.calculate strategy data rng in
  (strategy_data ← calculated;
   signal ← Strategy.get_signal strategy strategy_data;
   Ok {| entry_data := strategy_data; entry_signal := signal |},
   rng).

(** What a strategy adds to the results: its entry when it is active and
    its evaluation does not raise, nothing otherwise. *)
Definition contribution `{Sqrt} (strategy : Strategy.Self) (data : DataFrame)
    (rng : RandomState) : option Entry :=
  if Strategy.is_active strategy then
    match (evaluate strategy data rng).1 with
    | Ok entry => Some entry
    | Raise _ => None
    end
  else None.

(** The state of the random generator once the strategies of a list have
    been run, in order. *)
Fixpoint rng_after `{Sqrt} (data : DataFrame) (strategies : list Strategy.Self)
    (rng : RandomState) : RandomState :=
  match strategies with
  | [] => rng
  | s :: strategies =>
      rng_after data strategies
        (if Strategy.is_active s then (evaluate s data rng).2 else rng)
  end.

Section Results.

Context `{Sqrt}.
Implicit Types (data : DataFrame) (rng : RandomState) (s : Strategy.Self)
         (l : list Strategy.Self).

(** The results once the strategies of [l] have been run. *)
Definition results_of data rng l : gmap string Entry :=
  (foldl (run_strategy data) (∅, rng) l).1.

(** What the strategy at position [i] of [l] adds. *)
Definition added data rng l (i : nat) s : option Entry :=
  contribution s data (rng_after data (take i l) rng).

(** [entry] is what the last strategy named [name] that adds something
    adds. *)
Definition latest data rng l (name : string) (entry : Entry) : Prop :=
  ∃ i s, l !! i = Some s ∧ Strategy.name s = name ∧
         added data rng l i s = Some entry ∧
         ∀ j s', i < j → l !! j = Some s' → Strategy.name s' = name →
                 added data rng l j s' = None.

End Results.

End Runner.

(** ** Determinism of [calculate] (specification, section 8) *)

Module Determinism.

Definition is_funding_rate (self : Strategy.Self) : bool :=
  match Strategy.impl self with
  | Strategy.FundingRate _ => true
  | _ => false
  end.

(** The next [n] draws of the generator. *)
Definition draws (rng : RandomState) (n : nat) : list Q :=
  map (λ i, tape rng (cursor rng + i)) (seq 0 n).

End Determinism.

(** ** Candles for the examples *)

Module Examples.

(** The candle number [n] of a one-minute series, with whole prices. *)
Definition candle_at (n : Z) (o h l c : Z) : Candle :=
  {| timestamp := 60000 * n; open := inject_Z o; high := inject_Z h;
     low := inject_Z l; close := inject_Z c; volume := 1 |}.

(** A quiet bar, then a wide bar that closes above the upper band of the
    first. *)
Definition breakout : DataFrame :=
  [candle_at 0 100 101 99 100; candle_at 1 100 130 80 103].

(** A quiet bar, then a wider bar that closes inside the bands of the
    first. *)
Definition widening : DataFrame :=
  [candle_at 0 100 101 99 100; candle_at 1 100 102 94 99].

Definition supertrend_1_1 : SupertrendStrategy.Self :=
  {| SupertrendStrategy.period := 1; SupertrendStrategy.multiplier := 1 |}.

Definition supertrend_2_1 : SupertrendStrategy.Self :=
  {| SupertrendStrategy.period := 2; SupertrendStrategy.multiplier := 1 |}.

(** Strategies of [main.py], with their default parameters. *)
Definition golden_cross : GoldenCrossStrategy.Self :=
  {| GoldenCrossStrategy.short_period := 50;
     GoldenCrossStrategy.long_period := 200 |}.
Definition bollinger_bands : BollingerBandsStrategy.Self :=
  {| BollingerBandsStrategy.period := 20; BollingerBandsStrategy.num_std := 2 |}.
Definition funding_rate : FundingRateStrategy.Self :=
  {| FundingRateStrategy.threshold := 1 # 1000 |}.

Definition one_bar : DataFrame := [candle_at 0 100 101 99 100].

(** Closes 100, 100, 100, then a fall to 40, below the lower band, and a
    rise to 90, back inside the bands. *)
Definition reentry : DataFrame :=
  [candle_at 0 100 100 100 100; candle_at 1 100 100 100 100;
   candle_at 2 100 100 100 100; candle_at 3 100 100 40 40;
   candle_at 4 40 90 40 90].

Definition bollinger_3_1 : BollingerBandsStrategy.Self :=
  {| BollingerBandsStrategy.period := 3; BollingerBandsStrategy.num_std := 1 |}.

(** The same candles as the exchange hands them out, and an exchange that
    answers every call with three of them. *)
Definition bar_at (n : Z) (o h l c : Z) : TradingBot.Bar :=
  ((60000 * n)%Z, inject_Z o, inject_Z h, inject_Z l, inject_Z c, 1%Q).

Definition fetched : list TradingBot.Bar :=
  [bar_at 0 100 101 99 100; bar_at 1 100 102 94 99; bar_at 2 99 100 98 99].

Definition exchange : TradingBot.Exchange := λ _ _ _, Ok fetched.

(** A fall below the lower band of the first bar, then a rise above the
    upper band of the second. *)
Definition fall_and_rise : DataFrame :=
  [candle_at 0 100 101 99 100; candle_at 1 100 100 89 90;
   candle_at 2 90 111 90 110].

(** Closes 20, 10, 30. *)
Definition dip : DataFrame :=
  [candle_at 0 20 20 20 20; candle_at 1 20 20 10 10; candle_at 2 10 30 10 30].

(** Closes 10, 20, 15. *)
Definition three_bars : DataFrame :=
  [candle_at 0 10 10 10 10; candle_at 1 10 20 10 20; candle_at 2 20 20 15 15].

Definition golden_cross_1_2 : GoldenCrossStrategy.Self :=
  {| GoldenCrossStrategy.short_period := 1;
     GoldenCrossStrategy.long_period := 2 |}.

(** A generator whose draws alternate between three standard deviations
    below the mean and the mean. *)
Definition alternating : RandomState :=
  {| tape := λ n, if Nat.even n then (-3)%Q else 0%Q; cursor := 0 |}.

(** A bot holding three bars and four strategies: a Supertrend with a
    negative period, the default Golden Cross, the default Bollinger
    Bands, inactive, and the default Funding Rate. *)
Definition strategies : list Strategy.Self :=
  [ {| Strategy.name := "Supertrend"; Strategy.is_active := true;
       Strategy.impl :=
         Strategy.Supertrend
           {| SupertrendStrategy.period := -1;
              SupertrendStrategy.multiplier := 3 |} |};
    {| Strategy.name := "Golden Cross"; Strategy.is_active := true;
       Strategy.impl := Strategy.GoldenCross golden_cross |};
    {| Strategy.name := "Bollinger Bands"; Strategy.is_active := false;
       Strategy.impl := Strategy.BollingerBands bollinger_bands |};
    {| Strategy.name := "Funding Rate"; Strategy.is_active := true;
       Strategy.impl := Strategy.FundingRate funding_rate |} ].

Definition bot : TradingBot.Self :=
  TradingBot.set_data (Some three_bars)
    (TradingBot.init (λ _ _ _, Raise FetchError) strategies).

(** A generator all of whose draws are the same. *)
Definition constant : RandomState :=
  {| tape := λ _, (-3)%Q; cursor := 0 |}.

(** A stand-in for the square root in the examples: the integer square
    root of the integer part. *)
Definition sqrt_floor : Sqrt := λ q, inject_Z (Z.sqrt (Qfloor q)).

(** A stand-in for [pd.to_datetime(..., unit='ms')] in the examples: a
    clock that counts nanoseconds in 64 bits, and refuses a column with a
    value it cannot hold ([OutOfBoundsDatetime], a [ValueError]). *)
Definition nanoseconds (ms : Z) : result Z :=
  let ns := (ms * 1000000)%Z in
  if ((- 2 ^ 63 <? ns) && (ns <? 2 ^ 63))%Z then Ok ns else Raise ValueError.

Definition nanosecond_clock : ToDatetime.
Proof.
  refine {| to_datetime := mapM nanoseconds |}.
  induction column as [|ms column IH]; intros instants.
  - by intros [= <-].
  - cbn. destruct (nanoseconds ms) as [ns|]; [|done]. cbn.
    destruct (mapM nanoseconds column) as [rest|]; [|done]. cbn.
    intros [= <-]. cbn. f_equal. by apply IH.
Defined.


End Examples.

(** ** Signal Aggregator: unanimous votes *)

Module Consensus.

(** The mapping is not empty and every strategy voted [x]. *)
Definition unanimous (m : gmap string string) (x : string) : Prop :=
  m ≠ ∅ ∧ ∀ name s, m !! name = Some s → s = x.

End Consensus.

(** ** When the evaluation of a strategy raises *)

Module Raises.

Import Strategy.



End Raises.

(** ** The candles of an indicator frame *)

Module Frames.

Import Strategy.

(** The columns of the frame that come from the series. *)
Definition candles (frame : Frame) : DataFrame :=
  match frame with
  | SupertrendFrame rows => SupertrendStrategy.candle <$> rows
  | GoldenCrossFrame rows => GoldenCrossStrategy.candle <$> rows
  | BollingerBandsFrame rows => BollingerBandsStrategy.candle <$> rows
  | FundingRateFrame rows => FundingRateStrategy.candle <$> rows
  end.

End Frames.

(** ** Bollinger Bands: the columns computed before the loop *)

Module BollingerBandsColumns.

Import BollingerBandsStrategy.

(** The columns the signal loop leaves alone. *)
Definition columns (r : Row) :=
  (candle r, bb_middle r, bb_std r, bb_upper r, bb_lower r,
   above_upper r, below_lower r).

End BollingerBandsColumns.

(** ** main.py *)

Module Main.

(** [setup_strategies]: the four strategies with their default parameters,
    all active. *)
Definition setup_strategies : list Strategy.Self :=
  let supertrend :=
    {| Strategy.name := "Supertrend"; Strategy.is_active := true;
       Strategy.impl :=
         Strategy.Supertrend
           {| SupertrendStrategy.period := 10;
              SupertrendStrategy.multiplier := 3 |} |} in
  let golden_cross :=
    {| Strategy.name := "Golden Cross"; Strategy.is_active := true;
       Strategy.impl :=
         Strategy.GoldenCross
           {| GoldenCrossStrategy.short_period := 50;
              GoldenCrossStrategy.long_period := 200 |} |} in
  let bollinger_bands :=
    {| Strategy.name := "Bollinger Bands"; Strategy.is_active := true;
       Strategy.impl :=
         Strategy.BollingerBands
           {| BollingerBandsStrategy.period := 20;
              BollingerBandsStrategy.num_std := 2 |} |} in
  let funding_rate :=
    {| Strategy.name := "Funding Rate"; Strategy.is_active := true;
       Strategy.impl :=
         Strategy.FundingRate {| FundingRateStrategy.threshold := 1 # 1000 |} |} in
  [supertrend; golden_cross; bollinger_bands; funding_rate].

(** The bot [main] builds: [TradingBot(exchange, strategies)]. *)
Definition bot (exchange : TradingBot.Exchange) : TradingBot.Self :=
  TradingBot.init exchange setup_strategies.

End Main.

(** ** The frames as objects *)

(** The methods once more, as they are written: on [DataFrame] objects
    that a name refers to, a copy being a new object and an assignment to
    a column a change of the object the name refers to. *)

Module Store.

(** A column of a frame. *)
Inductive Column :=
| Numbers (values : list float)
| Flags (values : list bool)
| Instants (values : list Z).

(** A [DataFrame] object: its index, as the number of its rows, and its
    columns by name. *)
Record Object := {
  rows : nat;
  columns : gmap string Column
}.

(** The frame of a candle series. *)
Definition of_series (data : DataFrame) : Object :=
  {| rows := length data;
     columns :=
       <["timestamp" := Instants (map timestamp data)]>
         (<["open" := Numbers (map (λ c, fl (open c)) data)]>
            (<["high" := Numbers (map (λ c, fl (high c)) data)]>
               (<["low" := Numbers (map (λ c, fl (low c)) data)]>
                  (<["close" := Numbers (map (λ c, fl (close c)) data)]>
                     (<["volume" := Numbers (map (λ c, fl (volume c)) data)]> ∅))))) |}.

(** The objects there are, in the order in which they were made (a
    reference is a position in it), and the random generator. *)
Record State := {
  heap : list Object;
  generator : RandomState
}.

(** A piece of code: from the state before it to what it returns, or the
    exception it ends with, and the state after it. *)
Definition M (A : Type) : Type := State → result A * State.

#[global] Instance M_ret : MRet M := λ A a σ, (Ok a, σ).
#[global] Instance M_bind : MBind M := λ A B k m σ,
  match m σ with
  | (Ok a, σ) => k a σ
  | (Raise e, σ) => (Raise e, σ)
  end.

(** A computation that does not touch the objects. *)
Definition lift {A} (r : result A) : M A := λ σ, (r, σ).

(** Reading from the object [data] refers to.  (A reference to no object
    does not occur; [KeyError] stands for it.) *)
Definition inspect {A} (f : Object → result A) (data : nat) : M A := λ σ,
  match heap σ !! data with
  | Some o => (f o, σ)
  | None => (Raise KeyError, σ)
  end.

(** Changing the object [data] refers to. *)
Definition update (f : Object → result Object) (data : nat) : M unit := λ σ,
  match heap σ !! data with
  | Some o =>
      match f o with
      | Ok o' =>
          (Ok (), {| heap := <[data := o']> (heap σ); generator := generator σ |})
      | Raise e => (Raise e, σ)
      end
  | None => (Raise KeyError, σ)
  end.

(** [data.copy()]: a new object with the index and the columns of [data]. *)
Definition copy (data : nat) : M nat := λ σ,
  match heap σ !! data with
  | Some o =>
      (Ok (length (heap σ)),
       {| heap := heap σ ++ [o]; generator := generator σ |})
  | None => (Raise KeyError, σ)
  end.

(** [len(data)], [len(data.index)] *)
Definition len : nat → M nat := inspect (λ o, Ok (rows o)).

(** [data[name]] where the code computes with numbers; [KeyError] when
    there is no such column (a column of another kind does not occur
    under the names the code reads as numbers, and counts as missing). *)
Definition numbers (name : string) : nat → M (list float) :=
  inspect (λ o,
    match columns o !! name with
    | Some (Numbers values) => Ok values
    | _ => Raise KeyError
    end).

(** [data[name]] where the code reads truth values. *)
Definition flags (name : string) : nat → M (list bool) :=
  inspect (λ o,
    match columns o !! name with
    | Some (Flags values) => Ok values
    | _ => Raise KeyError
    end).

(** [data[name] = column] *)
Definition assign (name : string) (column : Column) : nat → M unit :=
  update (λ o, Ok {| rows := rows o; columns := <[name := column]> (columns o) |}).

(** [series.iloc[i]] *)
Definition iloc {A} (series : list A) (i : nat) : result A :=
  match series !! i with
  | Some x => Ok x
  | None => Raise IndexError
  end.

(** [data[name].iloc[i]] *)
Definition number (name : string) (i : nat) (data : nat) : M float :=
  series ← numbers name data; lift (iloc series i).
Definition flag (name : string) (i : nat) (data : nat) : M bool :=
  series ← flags name data; lift (iloc series i).

(** [data.loc[data.index[i], name] = value] *)
Definition set_number (name : string) (i : nat) (value : float) : nat → M unit :=
  update (λ o,
    if (i <? rows o)%nat then
      match columns o !! name with
      | Some (Numbers values) =>
          Ok {| rows := rows o;
                columns := <[name := Numbers (<[i := value]> values)]> (columns o) |}
      | _ => Raise KeyError
      end
    else Raise IndexError).
Definition set_flag (name : string) (i : nat) (value : bool) : nat → M unit :=
  update (λ o,
    if (i <? rows o)%nat then
      match columns o !! name with
      | Some (Flags values) =>
          Ok {| rows := rows o;
                columns := <[name := Flags (<[i := value]> values)]> (columns o) |}
      | _ => Raise KeyError
      end
    else Raise IndexError).

(** [for i in l: body] *)
Fixpoint for_ (l : list nat) (body : nat → M unit) : M unit :=
  match l with
  | [] => mret ()
  | i :: l => _ ← body i; for_ l body
  end.

(** [np.random.normal(loc, scale, size)] *)
Definition normal (loc scale : Q) (size : nat) : M (list float) := λ σ,
  let '(values, rng) := NumpyRandom.normal loc scale size (generator σ) in
  (Ok values, {| heap := heap σ; generator := rng |}).

(** What a call returned: the object the reference it returned refers to,
    or the exception it ended with. *)
Definition returned (out : result nat * State) : result Object :=
  data ← out.1;
  match heap out.2 !! data with
  | Some o => Ok o
  | None => Raise KeyError
  end.

(** *** strategies/supertrend.py *)

Module Supertrend.

Import SupertrendStrategy.

Definition tr (data : nat) : M (list float) :=
  data ← copy data;
  close ← numbers "close" data;
  _ ← assign "previous_close" (Numbers (shift1 close)) data;
  high ← numbers "high" data;
  low ← numbers "low" data;
  _ ← assign "high-low"
        (Numbers (zip_with (λ h l, fabs (fsub h l)) high low)) data;
  high ← numbers "high" data;
  previous_close ← numbers "previous_close" data;
  _ ← assign "high-pc"
        (Numbers (zip_with (λ h pc, fabs (fsub h pc)) high previous_close)) data;
  low ← numbers "low" data;
  previous_close ← numbers "previous_close" data;
  _ ← assign "low-pc"
        (Numbers (zip_with (λ l pc, fabs (fsub l pc)) low previous_close)) data;
  high_low ← numbers "high-low" data;
  high_pc ← numbers "high-pc" data;
  low_pc ← numbers "low-pc" data;
  let tr := zip_with (λ hl p, row_max [hl; p.1; p.2]) high_low (zip high_pc low_pc) in
  mret tr.

Definition atr (data : nat) (period : Z) : M (list float) :=
  data ← copy data;
  tr ← tr data;
  _ ← assign "tr" (Numbers tr) data;
  tr ← numbers "tr" data;
  atr ← lift (rolling_mean period tr);
  mret atr.

(** The body of the loop of [calculate]. *)
Definition step (data : nat) (current : nat) : M unit :=
  let previous := (current - 1)%nat in
  close ← number "close" current data;
  upperband ← number "upperband" previous data;
  if fgt close upperband then set_flag "in_uptrend" current true data
  else
    close ← number "close" current data;
    lowerband ← number "lowerband" previous data;
    if flt close lowerband then set_flag "in_uptrend" current false data
    else
      in_uptrend ← flag "in_uptrend" previous data;
      _ ← set_flag "in_uptrend" current in_uptrend data;
      in_uptrend ← flag "in_uptrend" current data;
      _ ← (if in_uptrend : bool then
             lowerband ← number "lowerband" current data;
             lowerband_p ← number "lowerband" previous data;
             if flt lowerband lowerband_p then
               lowerband_p ← number "lowerband" previous data;
               set_number "lowerband" current lowerband_p data
             else mret ()
           else mret ());
      in_uptrend ← flag "in_uptrend" current data;
      if negb in_uptrend then
        upperband ← number "upperband" current data;
        upperband_p ← number "upperband" previous data;
        if fgt upperband upperband_p then
          upperband_p ← number "upperband" previous data;
          set_number "upperband" current upperband_p data
        else mret ()
      else mret ().

Definition calculate (self : Self) (data : nat) : M nat :=
  data ← copy data;
  high ← numbers "high" data;
  low ← numbers "low" data;
  let hl2 := zip_with (λ h l, lift2 Qdiv (fadd h l) (fl 2)) high low in
  atr ← atr data (period self);
  _ ← assign "atr" (Numbers atr) data;
  atr ← numbers "atr" data;
  _ ← assign "upperband"
        (Numbers (zip_with (λ m a, fadd m (fmul (fl (multiplier self)) a)) hl2 atr))
        data;
  atr ← numbers "atr" data;
  _ ← assign "lowerband"
        (Numbers (zip_with (λ m a, fsub m (fmul (fl (multiplier self)) a)) hl2 atr))
        data;
  n ← len data;
  _ ← assign "in_uptrend" (Flags (replicate n true)) data;
  n ← len data;
  _ ← for_ (range 1 n) (step data);
  mret data.

End Supertrend.

(** *** strategies/golden_cross.py *)

Module GoldenCross.

Import GoldenCrossStrategy.

(** [f'MA_{period}'] *)
Definition MA (period : Z) : string := "MA_" +:+ pretty period.

Definition step (self : Self) (data : nat) (i : nat) : M unit :=
  ma_short ← number (MA (short_period self)) (i - 1) data;
  ma_long ← number (MA (long_period self)) (i - 1) data;
  _ ← (if fle ma_short ma_long then
         ma_short ← number (MA (short_period self)) i data;
         ma_long ← number (MA (long_period self)) i data;
         if fgt ma_short ma_long then set_flag "golden_cross" i true data
         else mret ()
       else mret ());
  ma_short ← number (MA (short_period self)) (i - 1) data;
  ma_long ← number (MA (long_period self)) (i - 1) data;
  if fge ma_short ma_long then
    ma_short ← number (MA (short_period self)) i data;
    ma_long ← number (MA (long_period self)) i data;
    if flt ma_short ma_long then set_flag "death_cross" i true data
    else mret ()
  else mret ().

Definition calculate (self : Self) (data : nat) : M nat :=
  data ← copy data;
  close ← numbers "close" data;
  ma_short ← lift (rolling_mean (short_period self) close);
  _ ← assign (MA (short_period self)) (Numbers ma_short) data;
  close ← numbers "close" data;
  ma_long ← lift (rolling_mean (long_period self) close);
  _ ← assign (MA (long_period self)) (Numbers ma_long) data;
  n ← len data;
  _ ← assign "golden_cross" (Flags (replicate n false)) data;
  n ← len data;
  _ ← assign "death_cross" (Flags (replicate n false)) data;
  n ← len data;
  _ ← (if (2 <=? n)%nat then
         n ← len data;
         for_ (range 1 n) (step self data)
       else mret ());
  mret data.

End GoldenCross.

(** *** strategies/bollinger_bands.py *)

Module BollingerBands.

Import BollingerBandsStrategy.

Definition step (data : nat) (i : nat) : M unit :=
  below_lower_p ← flag "below_lower" (i - 1) data;
  _ ← (if below_lower_p : bool then
         below_lower ← flag "below_lower" i data;
         if negb below_lower then set_flag "bb_buy_signal" i true data
         else mret ()
       else mret ());
  above_upper_p ← flag "above_upper" (i - 1) data;
  if above_upper_p : bool then
    above_upper ← flag "above_upper" i data;
    if negb above_upper then set_flag "bb_sell_signal" i true data
    else mret ()
  else mret ().

Definition calculate `{Sqrt} (self : Self) (data : nat) : M nat :=
  data ← copy data;
  close ← numbers "close" data;
  bb_middle ← lift (rolling_mean (period self) close);
  _ ← assign "bb_middle" (Numbers bb_middle) data;
  close ← numbers "close" data;
  bb_std ← lift (rolling_std (period self) close);
  _ ← assign "bb_std" (Numbers bb_std) data;
  bb_middle ← numbers "bb_middle" data;
  bb_std ← numbers "bb_std" data;
  _ ← assign "bb_upper"
        (Numbers (zip_with (λ m s, fadd m (fmul s (fl (num_std self))))
                    bb_middle bb_std)) data;
  bb_middle ← numbers "bb_middle" data;
  bb_std ← numbers "bb_std" data;
  _ ← assign "bb_lower"
        (Numbers (zip_with (λ m s, fsub m (fmul s (fl (num_std self))))
                    bb_middle bb_std)) data;
  close ← numbers "close" data;
  bb_upper ← numbers "bb_upper" data;
  _ ← assign "above_upper" (Flags (zip_with fgt close bb_upper)) data;
  close ← numbers "close" data;
  bb_lower ← numbers "bb_lower" data;
  _ ← assign "below_lower" (Flags (zip_with flt close bb_lower)) data;
  n ← len data;
  _ ← assign "bb_buy_signal" (Flags (replicate n false)) data;
  n ← len data;
  _ ← assign "bb_sell_signal" (Flags (replicate n false)) data;
  n ← len data;
  _ ← for_ (range 1 n) (step data);
  mret data.

End BollingerBands.

(** *** strategies/funding_rate.py *)

Module FundingRate.

Import FundingRateStrategy.

Definition calculate (self : Self) (data : nat) : M nat :=
  data ← copy data;
  n ← len data;
  funding_rate ← normal 0 (5 # 10000) n;
  _ ← assign "funding_rate" (Numbers funding_rate) data;
  funding_rate ← numbers "funding_rate" data;
  _ ← assign "fr_buy_signal"
        (Flags (map (λ r, flt r (fl (- threshold self)%Q)) funding_rate)) data;
  funding_rate ← numbers "funding_rate" data;
  _ ← assign "fr_sell_signal"
        (Flags (map (λ r, fgt r (fl (threshold self))) funding_rate)) data;
  mret data.

End FundingRate.

(** [strategy.calculate(data)] *)
Definition calculate `{Sqrt} (self : Strategy.Self) (data : nat) : M nat :=
  match Strategy.impl self with
  | Strategy.Supertrend s => Supertrend.calculate s data
  | Strategy.GoldenCross s => GoldenCross.calculate s data
  | Strategy.BollingerBands s => BollingerBands.calculate s data
  | Strategy.FundingRate s => FundingRate.calculate s data
  end.

(** *** What a piece of code can reach *)

(** [m data] works on the object [data] refers to and on objects it makes
    itself, and on nothing else: whatever the state, it changes no other
    object and leaves the generator alone, and what it returns, what it
    makes of the object and which objects it adds depend on the object
    alone.  What it returns is no reference. *)
Definition Local {A} (m : nat → M A) : Prop :=
  ∀ (σ1 σ2 : State) (d1 d2 : nat) (o : Object),
    heap σ1 !! d1 = Some o → heap σ2 !! d2 = Some o →
    ∃ (r : result A) (o' : Object) (news : list Object),
      m d1 σ1 = (r, {| heap := <[d1 := o']> (heap σ1) ++ news;
                       generator := generator σ1 |}) ∧
      m d2 σ2 = (r, {| heap := <[d2 := o']> (heap σ2) ++ news;
                       generator := generator σ2 |}).

(** The same for code that returns the reference it was given. *)
Definition LocalRef (m : nat → M nat) : Prop :=
  ∀ (σ1 σ2 : State) (d1 d2 : nat) (o : Object),
    heap σ1 !! d1 = Some o → heap σ2 !! d2 = Some o →
    ∃ (e : option exn) (o' : Object) (news : list Object),
      m d1 σ1 = (from_option Raise (Ok d1) e,
                 {| heap := <[d1 := o']> (heap σ1) ++ news;
                    generator := generator σ1 |}) ∧
      m d2 σ2 = (from_option Raise (Ok d2) e,
                 {| heap := <[d2 := o']> (heap σ2) ++ news;
                    generator := generator σ2 |}).

(** A method that works on a copy of its own and returns it: it changes
    no object there was, leaves the generator alone and returns a new
    object that depends on the object it was given alone. *)
Definition Fresh (m : nat → M nat) : Prop :=
  ∀ (σ1 σ2 : State) (d1 d2 : nat) (o : Object),
    heap σ1 !! d1 = Some o → heap σ2 !! d2 = Some o →
    ∃ (e : option exn) (o' : Object) (news : list Object),
      m d1 σ1 = (from_option Raise (Ok (length (heap σ1))) e,
                 {| heap := heap σ1 ++ o' :: news;
                    generator := generator σ1 |}) ∧
      m d2 σ2 = (from_option Raise (Ok (length (heap σ2))) e,
                 {| heap := heap σ2 ++ o' :: news;
                    generator := generator σ2 |}).

End Store.

(** ** The frames as objects: the frame a method builds *)

Module Runs.

Import Store.

(** The state once the object [data] refers to has become [o] and the
    objects [news] have been made. *)
Definition put (σ : State) (data : nat) (o : Object) (news : list Object) : State :=
  {| heap := <[data := o]> (heap σ) ++ news; generator := generator σ |}.

(** [m], run where [data] refers to [o], returns [r], makes [o'] of the
    object and makes the objects [news]. *)
Definition Runs {A} (m : M A) (data : nat) (o : Object)
    (r : result A) (o' : Object) (news : list Object) : Prop :=
  ∀ σ : State, heap σ !! data = Some o → m σ = (r, put σ data o' news).

(** [m], run where [data] refers to [o], ends in a way [Q] holds of:
    of what it returns, of what it makes of the object and of the objects
    it makes. *)
Definition Ends {A} (m : M A) (data : nat) (o : Object)
    (Q : result A → Object → list Object → Prop) : Prop :=
  ∃ (r : result A) (o' : Object) (news : list Object),
    Runs m data o r o' news ∧ Q r o' news.

(** [o] has [n] rows and the columns [cols]. *)
Definition Holds (o : Object) (n : nat) (cols : list (string * Column)) : Prop :=
  rows o = n ∧ Forall (λ kv, columns o !! kv.1 = Some kv.2) cols.

(** A column of a frame of the functional embedding: a field of its rows. *)
Inductive Field (R : Type) :=
| NumberField (f : R → float)
| FlagField (f : R → bool)
| InstantField (f : R → Z).
Arguments NumberField {R} f.
Arguments FlagField {R} f.
Arguments InstantField {R} f.

Definition column_of {R} (field : Field R) (rows : list R) : Column :=
  match field with
  | NumberField f => Numbers (f <$> rows)
  | FlagField f => Flags (f <$> rows)
  | InstantField f => Instants (f <$> rows)
  end.

(** Two rows with one value in a field. *)
Definition same_field {R} (field : Field R) (x y : R) : Prop :=
  match field with
  | NumberField f => f x = f y
  | FlagField f => f x = f y
  | InstantField f => f x = f y
  end.

(** The columns of a frame, by name. *)
Definition columns_of {R} (schema : list (string * Field R)) (rows : list R)
  : list (string * Column) :=
  (λ nf, (nf.1, column_of nf.2 rows)) <$> schema.

(** The columns of the candles. *)
Definition candle_schema {R} (candle : R → Candle) : list (string * Field R) :=
  [ ("timestamp", InstantField (λ r, timestamp (candle r)));
    ("open", NumberField (λ r, fl (open (candle r))));
    ("high", NumberField (λ r, fl (high (candle r))));
    ("low", NumberField (λ r, fl (low (candle r))));
    ("close", NumberField (λ r, fl (close (candle r))));
    ("volume", NumberField (λ r, fl (volume (candle r)))) ].

Definition supertrend_schema : list (string * Field SupertrendStrategy.Row) :=
  candle_schema SupertrendStrategy.candle ++
  [ ("atr", NumberField SupertrendStrategy.atr_);
    ("upperband", NumberField SupertrendStrategy.upperband);
    ("lowerband", NumberField SupertrendStrategy.lowerband);
    ("in_uptrend", FlagField SupertrendStrategy.in_uptrend) ].

Definition golden_cross_schema (self : GoldenCrossStrategy.Self)
  : list (string * Field GoldenCrossStrategy.Row) :=
  candle_schema GoldenCrossStrategy.candle ++
  [ (Store.GoldenCross.MA (GoldenCrossStrategy.short_period self),
     NumberField GoldenCrossStrategy.ma_short);
    (Store.GoldenCross.MA (GoldenCrossStrategy.long_period self),
     NumberField GoldenCrossStrategy.ma_long);
    ("golden_cross", FlagField GoldenCrossStrategy.golden_cross);
    ("death_cross", FlagField GoldenCrossStrategy.death_cross) ].

Definition bollinger_schema : list (string * Field BollingerBandsStrategy.Row) :=
  candle_schema BollingerBandsStrategy.candle ++
  [ ("bb_middle", NumberField BollingerBandsStrategy.bb_middle);
    ("bb_std", NumberField BollingerBandsStrategy.bb_std);
    ("bb_upper", NumberField BollingerBandsStrategy.bb_upper);
    ("bb_lower", NumberField BollingerBandsStrategy.bb_lower);
    ("above_upper", FlagField BollingerBandsStrategy.above_upper);
    ("below_lower", FlagField BollingerBandsStrategy.below_lower);
    ("bb_buy_signal", FlagField BollingerBandsStrategy.bb_buy_signal);
    ("bb_sell_signal", FlagField BollingerBandsStrategy.bb_sell_signal) ].

Definition funding_rate_schema : list (string * Field FundingRateStrategy.Row) :=
  candle_schema FundingRateStrategy.candle ++
  [ ("funding_rate", NumberField FundingRateStrategy.funding_rate);
    ("fr_buy_signal", FlagField FundingRateStrategy.fr_buy_signal);
    ("fr_sell_signal", FlagField FundingRateStrategy.fr_sell_signal) ].

(** [o] has the high, the low and the close of the series [data]. *)
Definition has_prices (o : Object) (data : DataFrame) : Prop :=
  columns o !! "high" = Some (Numbers (map (λ c, fl (high c)) data)) ∧
  columns o !! "low" = Some (Numbers (map (λ c, fl (low c)) data)) ∧
  columns o !! "close" = Some (Numbers (map (λ c, fl (close c)) data)).

(** The object [o] holds the frame [frame] of the strategy [self]: it has
    its rows and its columns, under the names the method gives them. *)
Definition holds (self : Strategy.Self) (frame : Strategy.Frame) (o : Object) : Prop :=
  match frame, Strategy.impl self with
  | Strategy.SupertrendFrame rows, _ =>
      Holds o (length rows) (columns_of supertrend_schema rows)
  | Strategy.GoldenCrossFrame rows, Strategy.GoldenCross s =>
      Holds o (length rows) (columns_of (golden_cross_schema s) rows)
  | Strategy.GoldenCrossFrame rows, _ => False
  | Strategy.BollingerBandsFrame rows, _ =>
      Holds o (length rows) (columns_of bollinger_schema rows)
  | Strategy.FundingRateFrame rows, _ =>
      Holds o (length rows) (columns_of funding_rate_schema rows)
  end.

End Runs.

(** * Properties *)

(** ** The strategies on small series *)

Section SmallSeries.

Example supertrend_sells_on_fall :
  SupertrendStrategy.get_signal <$>
    SupertrendStrategy.calculate Examples.supertrend_1_1
      (take 2 Examples.fall_and_rise) = Ok sell.
Proof. reflexivity. Qed.

Example supertrend_buys_on_rise :
  SupertrendStrategy.get_signal <$>
    SupertrendStrategy.calculate Examples.supertrend_1_1 Examples.fall_and_rise
  = Ok buy.
Proof. reflexivity. Qed.

Example golden_cross_buys_on_cross :
  GoldenCrossStrategy.calculate Examples.golden_cross_1_2 Examples.dip
    ≫= GoldenCrossStrategy.get_signal = Ok buy.
Proof. reflexivity. Qed.

Example golden_cross_sells_on_cross :
  GoldenCrossStrategy.calculate Examples.golden_cross_1_2 Examples.three_bars
    ≫= GoldenCrossStrategy.get_signal = Ok sell.
Proof. reflexivity. Qed.

Example negative_period_raises :
  SupertrendStrategy.calculate
    {| SupertrendStrategy.period := -1; SupertrendStrategy.multiplier := 3 |}
    Examples.three_bars = Raise ValueError.
Proof. reflexivity. Qed.

End SmallSeries.

(** ** The Position Gate *)

Section PositionGateProperties.

Import PositionGate.

Variables (symbol : string) (quantity : Q).

Lemma set_in_position_same (self : TradingBot.Self) :
  TradingBot.set_in_position (TradingBot.in_position self) self = self.
Proof. by destruct self. Qed.

(** One call of [execute_order] is one step of the gate. *)
Lemma execute_order_gate (self : TradingBot.Self) (s : Signal) :
  let '(self', ok) := TradingBot.execute_order self symbol (to_string s) quantity in
  gate (position self) s = (position self', ok) ∧
  self' = TradingBot.set_in_position (TradingBot.in_position self') self.
Proof.
  destruct self as [ex st d [] cs], s; cbn; auto.
Qed.

Lemma execute_orders_gate_run (signals : list Signal) :
  ∀ self : TradingBot.Self,
    let '(self', oks) := execute_orders self symbol quantity (to_string <$> signals) in
    gate_run (position self) signals = (position self', oks).
Proof.
  induction signals as [|s signals IH]; intros self; [done|].
  cbn [fmap list_fmap execute_orders gate_run].
  pose proof (execute_order_gate self s) as Hstep.
  destruct (TradingBot.execute_order self symbol (to_string s) quantity) as [self1 ok].
  destruct Hstep as [-> _].
  specialize (IH self1).
  change (list_fmap Signal string to_string signals) with (to_string <$> signals).
  destruct (execute_orders self1 symbol quantity (to_string <$> signals)) as [self2 oks].
  by rewrite IH.
Qed.

(** C4. Position Gate: in the Flat state a Buy moves to Long and succeeds
    while Sell and Hold change nothing and fail; in the Long state a Sell
    moves to Flat and succeeds while Buy and Hold change nothing and fail.
    Every sequence of [execute_order] calls runs the gate of the
    specification, and of two consecutive Buys from Flat the first
    succeeds and the second changes nothing and fails. *)
Theorem execute_order_position_gate (self : TradingBot.Self) :
  let flat := TradingBot.set_in_position false self in
  let long := TradingBot.set_in_position true self in
  TradingBot.execute_order flat symbol buy quantity = (long, true) ∧
  TradingBot.execute_order flat symbol sell quantity = (flat, false) ∧
  TradingBot.execute_order flat symbol hold quantity = (flat, false) ∧
  TradingBot.execute_order long symbol sell quantity = (flat, true) ∧
  TradingBot.execute_order long symbol buy quantity = (long, false) ∧
  TradingBot.execute_order long symbol hold quantity = (long, false) ∧
  execute_orders flat symbol quantity [buy; buy] = (long, [true; false]) ∧
  ∀ signals : list Signal,
    let '(self', oks) := execute_orders self symbol quantity (to_string <$> signals) in
    gate_run (position self) signals = (position self', oks).
Proof.
  repeat split; try reflexivity.
  intros signals. apply (execute_orders_gate_run signals self).
Qed.

(** C10. [execute_order] changes the position flag exactly when it returns
    [True]: it returns [True] only for 'buy' while flat and 'sell' while in
    position, and then the flag is flipped; in every other case (any
    other signal string, 'buy' while in position, 'sell' while flat) it
    returns [False] and the bot is unchanged. *)
Theorem execute_order_flag_iff_success (self : TradingBot.Self) (signal : string) :
  let '(self', ok) := TradingBot.execute_order self symbol signal quantity in
  (ok = true ↔
     (signal = buy ∧ TradingBot.in_position self = false) ∨
     (signal = sell ∧ TradingBot.in_position self = true)) ∧
  (ok = true →
     self' = TradingBot.set_in_position (negb (TradingBot.in_position self)) self) ∧
  (ok = false → self' = self) ∧
  (ok = true ↔ TradingBot.in_position self' ≠ TradingBot.in_position self).
Proof.
  unfold TradingBot.execute_order.
  destruct self as [ex st d pos cs]; cbn.
  destruct (String.eqb_spec signal "buy") as [->|Hb];
    [|destruct (String.eqb_spec signal "sell") as [->|Hs]];
    destruct pos; cbn; unfold buy, sell; intuition congruence.
Qed.

End PositionGateProperties.

(** ** The Signal Aggregator *)

Section AggregatorProperties.

Import Aggregator.

Lemma elem_of_signals (m : gmap string string) (x : string) :
  x ∈ signals m ↔ voted m x.
Proof.
  unfold signals, voted. rewrite list_elem_of_fmap. split.
  - intros [[name y] [-> Hin]]. exists name. by apply elem_of_map_to_list.
  - intros [name Hname]. exists (name, x). split; [done|].
    by apply elem_of_map_to_list.
Qed.

Lemma votes_empty (x : string) : votes ∅ x = 0.
Proof. unfold votes, signals. by rewrite map_to_list_empty. Qed.

(** What [get_combined_signal] computes in mode 'majority', in terms of
    the votes. *)
Lemma majority_unfold (self : TradingBot.Self) :
  let m := TradingBot.current_signals self in
  TradingBot.get_combined_signal self "majority" =
    if bool_decide (m = ∅) then hold
    else if ((votes m sell <? votes m buy) && (votes m hold <? votes m buy))%nat then buy
    else if ((votes m buy <? votes m sell) && (votes m hold <? votes m sell))%nat then sell
    else hold.
Proof. reflexivity. Qed.

Lemma any_unfold (self : TradingBot.Self) :
  let m := TradingBot.current_signals self in
  TradingBot.get_combined_signal self "any" =
    if bool_decide (m = ∅) then hold
    else if bool_decide (buy ∈ signals m) then buy
    else if bool_decide (sell ∈ signals m) then sell
    else hold.
Proof. reflexivity. Qed.

(** Membership in a list given by its elements. *)
Ltac in_list :=
  solve [repeat first [apply list_elem_of_here | apply list_elem_of_further]].

(** Decide the comparisons of vote counts in the goal. *)
Ltac by_votes :=
  repeat match goal with
         | |- context [(?a <? ?b)%nat] => destruct (Nat.ltb_spec a b)
         end;
  simpl; first [done | lia].

Lemma strictly_greatest_intro (m : gmap string string) (x y z : string) :
  [buy; sell; hold] ≡ₚ [x; y; z] →
  votes m y < votes m x → votes m z < votes m x →
  strictly_greatest m x.
Proof.
  intros Hp Hy Hz. split.
  - rewrite Hp. in_list.
  - intros w Hw Hne. rewrite Hp in Hw.
    apply elem_of_cons in Hw as [->|Hw]; [done|].
    apply elem_of_cons in Hw as [->|Hw]; [done|].
    apply list_elem_of_singleton in Hw as ->. done.
Qed.

(** C5. Mode 'majority' returns the signal among Buy, Sell, Hold whose
    count is strictly greater than the counts of the other two, and Hold
    when there is no such signal or the mapping is empty;
    {Buy, Buy, Sell} gives Buy and {Buy, Sell, Hold} gives Hold. *)
Theorem majority_returns_strictly_greatest (self : TradingBot.Self) :
  let m := TradingBot.current_signals self in
  let r := TradingBot.get_combined_signal self "majority" in
  (∀ x, strictly_greatest m x → r = x) ∧
  ((∀ x, ¬ strictly_greatest m x) → r = hold) ∧
  (m = ∅ → r = hold) ∧
  TradingBot.get_combined_signal
    (bot_with (<["Supertrend" := buy]> (<["Golden Cross" := buy]>
               (<["Bollinger Bands" := sell]> ∅)))) "majority" = buy ∧
  TradingBot.get_combined_signal
    (bot_with (<["Supertrend" := buy]> (<["Golden Cross" := sell]>
               (<["Bollinger Bands" := hold]> ∅)))) "majority" = hold.
Proof.
  intros m r. subst r. rewrite majority_unfold. fold m.
  split; [|split; [|split; [|split; vm_compute; reflexivity]]].
  - intros x [Hx Hgt]. case_bool_decide as Hm.
    + rewrite Hm in Hgt. exfalso.
      assert (∃ y, y ∈ [buy; sell; hold] ∧ y ≠ x) as (y & Hy & Hne).
      { destruct (decide (x = buy)) as [->|];
          [exists sell|exists buy]; split; first [in_list | done]. }
      specialize (Hgt y Hy Hne). rewrite !votes_empty in Hgt. lia.
    + apply elem_of_cons in Hx as [->|Hx];
        [|apply elem_of_cons in Hx as [->|Hx];
          [|apply list_elem_of_singleton in Hx as ->]].
      * pose proof (Hgt sell ltac:(in_list) ltac:(done)).
        pose proof (Hgt hold ltac:(in_list) ltac:(done)).
        by_votes.
      * pose proof (Hgt buy ltac:(in_list) ltac:(done)).
        pose proof (Hgt hold ltac:(in_list) ltac:(done)).
        by_votes.
      * pose proof (Hgt buy ltac:(in_list) ltac:(done)).
        pose proof (Hgt sell ltac:(in_list) ltac:(done)).
        by_votes.
  - intros Hnone. case_bool_decide; [done|].
    assert (¬ (votes m sell < votes m buy ∧ votes m hold < votes m buy)) as Hb.
    { intros [??]. apply (Hnone buy).
      by apply (strictly_greatest_intro m buy sell hold). }
    assert (¬ (votes m buy < votes m sell ∧ votes m hold < votes m sell)) as Hs.
    { intros [??]. apply (Hnone sell).
      apply (strictly_greatest_intro m sell buy hold); [apply perm_swap|done..]. }
    by_votes.
  - intros Hm. by rewrite bool_decide_true.
Qed.

(** C6. Mode 'any' returns Buy if at least one entry is Buy, wherever it
    occurs, otherwise Sell if at least one entry is Sell, otherwise Hold.
    The priority Buy > Sell > Hold is fixed: {Hold, Sell, Buy} gives Buy,
    as does every mapping holding both a Buy and a Sell. *)
Theorem any_mode_buy_sell_hold (self : TradingBot.Self) :
  let m := TradingBot.current_signals self in
  let r := TradingBot.get_combined_signal self "any" in
  (voted m buy → r = buy) ∧
  (¬ voted m buy → voted m sell → r = sell) ∧
  (¬ voted m buy → ¬ voted m sell → r = hold) ∧
  TradingBot.get_combined_signal
    (bot_with (<["Supertrend" := hold]> (<["Golden Cross" := sell]>
               (<["Bollinger Bands" := buy]> ∅)))) "any" = buy.
Proof.
  intros m r. subst r. rewrite any_unfold. fold m.
  split; [|split; [|split; [|vm_compute; reflexivity]]].
  - intros Hb. case_bool_decide as Hm.
    + destruct Hb as [name Hname]. by rewrite Hm, lookup_empty in Hname.
    + rewrite bool_decide_true; [done|]. by apply elem_of_signals.
  - intros Hb Hs. case_bool_decide as Hm.
    + destruct Hs as [name Hname]. by rewrite Hm, lookup_empty in Hname.
    + rewrite bool_decide_false by (by rewrite elem_of_signals).
      rewrite bool_decide_true; [done|]. by apply elem_of_signals.
  - intros Hb Hs. case_bool_decide; [done|].
    by rewrite !bool_decide_false by (by rewrite elem_of_signals).
Qed.

End AggregatorProperties.

(** ** Fetching the candles *)

Section FetchData.

Context `{ToDatetime}.
Variables (symbol timeframe : string) (limit : nat).

Lemma all_but_last_length {A} (bars : list A) :
  length (TradingBot.all_but_last bars) = length bars - 1.
Proof. unfold TradingBot.all_but_last. rewrite length_take. lia. Qed.




End FetchData.



(** ** Loops over the rows *)

Section ScanProperties.

Context {R : Type} (next : R -> R -> R) (step : list R -> nat -> list R).

Hypothesis step_next :
  ∀ (data : list R) (current : nat) (p c : R),
    data !! current = Some c → data !! (current - 1) = Some p → 1 ≤ current →
    step data current = <[current := next p c]> data.

Lemma insert_after (pre : list R) (p c x : R) (rest : list R) :
  <[S (length pre) := x]> (pre ++ p :: c :: rest) = pre ++ p :: x :: rest.
Proof. induction pre as [|a pre IH]; cbn; [done|]. f_equal. apply IH. Qed.

Lemma foldl_step_scan (rest pre : list R) (p : R) :
  foldl step (pre ++ p :: rest) (seq (S (length pre)) (length rest))
  = pre ++ p :: Scan.scan next p rest.
Proof.
  revert pre p. induction rest as [|c rest IH]; intros pre p; [done|].
  cbn [length seq foldl Scan.scan].
  rewrite (step_next _ _ p c).
  - rewrite insert_after.
    specialize (IH (pre ++ [p]) (next p c)).
    rewrite length_app, <- !(assoc_L (++)) in IH. cbn in IH.
    by replace (length pre + 1) with (S (length pre)) in IH by lia.
  - rewrite lookup_app_r by lia.
    by replace (S (length pre) - length pre) with 1 by lia.
  - rewrite lookup_app_r by lia.
    by replace (S (length pre) - 1 - length pre) with 0 by lia.
  - lia.
Qed.

(** The loop [for current in range(1, len(data))] is the forward scan. *)
Lemma loop_forward (data : list R) :
  foldl step data (range 1 (length data)) = Scan.forward next data.
Proof.
  destruct data as [|r rest]; [done|].
  unfold range. cbn [length]. replace (S (length rest) - 1) with (length rest) by lia.
  apply (foldl_step_scan rest [] r).
Qed.

Lemma forward_length (data : list R) :
  length (Scan.forward next data) = length data.
Proof.
  destruct data as [|r rest]; [done|]. cbn. f_equal.
  revert r. induction rest as [|c rest IH]; intros r; [done|].
  cbn. by rewrite IH.
Qed.

Lemma forward_first (data : list R) :
  Scan.forward next data !! 0 = data !! 0.
Proof. by destruct data. Qed.

(** Two consecutive rows of the result: the later one is [next] of the
    earlier one and the row that was there before the loop. *)
Lemma forward_consecutive (data : list R) (i : nat) (a b : R) :
  Scan.forward next data !! i = Some a →
  Scan.forward next data !! S i = Some b →
  ∃ c, data !! S i = Some c ∧ b = next a c.
Proof.
  destruct data as [|r rest]; [done|]. cbn [Scan.forward].
  revert r i. induction rest as [|c rest IH]; intros r i Ha Hb.
  - by destruct i.
  - destruct i as [|i].
    + cbn in *. exists c. by simplify_eq.
    + cbn in Ha, Hb. destruct (IH (next r c) i Ha Hb) as (c' & Hc' & ->).
      by exists c'.
Qed.

(** A relation between a row before the loop and the row after it that
    [next] keeps, whatever the row before. *)
Lemma forward_pointwise (Q : R → R → Prop) :
  (∀ r, Q r r) → (∀ p c, Q c (next p c)) →
  ∀ data i a, Scan.forward next data !! i = Some a →
              ∃ a0, data !! i = Some a0 ∧ Q a0 a.
Proof.
  intros Hrefl Hnext [|r rest]; [done|]. cbn [Scan.forward].
  intros [|i] a Ha; [exists r; by simplify_eq/=|]. cbn in Ha. cbn.
  revert r i Ha. induction rest as [|c rest IH]; intros r i Ha; [done|].
  destruct i as [|i]; cbn in *.
  - exists c. by simplify_eq.
  - by apply (IH (next r c)).
Qed.

End ScanProperties.

Section Cells.

Context {R A : Type} `{Inhabited A}.
Implicit Types (col : R → A) (data : list R).

Lemma cell_lookup col data i r :
  data !! i = Some r → data.[col, i] = col r.
Proof. intros Hr. unfold cell. by rewrite Hr. Qed.

Lemma cell_insert_eq col data i r :
  i < length data → (<[i := r]> data).[col, i] = col r.
Proof. intros Hi. apply cell_lookup. by apply list_lookup_insert_eq. Qed.

Lemma cell_insert_ne col data i j r :
  i ≠ j → (<[i := r]> data).[col, j] = data.[col, j].
Proof. intros Hne. unfold cell. by rewrite list_lookup_insert_ne. Qed.

Lemma alter_insert (f : R → R) data i r :
  data !! i = Some r → alter f i data = <[i := f r]> data.
Proof.
  revert i. induction data as [|x data IH]; intros [|i] Hr; simplify_eq/=; [done|].
  f_equal. by apply IH.
Qed.

Lemma alter_insert_insert (f : R → R) data i r :
  i < length data → alter f i (<[i := r]> data) = <[i := f r]> data.
Proof.
  intros Hi. rewrite (alter_insert f _ i r) by (by apply list_lookup_insert_eq).
  apply list_insert_insert_eq.
Qed.

End Cells.

Section SupertrendLoop.

Import SupertrendStrategy.

Lemma supertrend_step_next (data : list Row) (current : nat) (p c : Row) :
  data !! current = Some c → data !! (current - 1) = Some p → 1 ≤ current →
  step data current = <[current := SupertrendScan.next p c]> data.
Proof.
  intros Hc Hp Hcur. unfold step, SupertrendScan.next.
  assert (current < length data) as Hlt by (by eapply lookup_lt_Some).
  assert (current ≠ current - 1) as Hne by lia.
  rewrite !(cell_lookup _ _ _ _ Hc), !(cell_lookup _ _ _ _ Hp).
  destruct (fgt _ _); [by apply alter_insert|].
  destruct (flt _ _); [by apply alter_insert|].
  cbv zeta. rewrite (alter_insert _ _ _ _ Hc).
  rewrite !cell_insert_eq, !cell_insert_ne, !(cell_lookup _ _ _ _ Hp) by done.
  destruct (in_uptrend _ && _).
  - rewrite alter_insert_insert by done.
    rewrite !cell_insert_eq, !cell_insert_ne, !(cell_lookup _ _ _ _ Hp) by done.
    destruct (negb _ && _); [by rewrite alter_insert_insert|done].
  - rewrite !cell_insert_eq, !cell_insert_ne, !(cell_lookup _ _ _ _ Hp) by done.
    destruct (negb _ && _); [by rewrite alter_insert_insert|done].
Qed.

End SupertrendLoop.

Section Floats.

Lemma fle_refl (x : float) : x ≠ nan → fle x x = true.
Proof.
  destruct x as [a|]; [intros _|done]. cbn.
  apply Qle_bool_iff, Qle_refl.
Qed.

(** Of two numbers, the first is below the second or the second is at most
    the first. *)
Lemma flt_false_fle (x y : float) :
  x ≠ nan → y ≠ nan → flt x y = false → fle y x = true.
Proof.
  destruct x as [a|], y as [b|]; try done. intros _ _. cbn. unfold Qlt_bool.
  by destruct (Qle_bool b a).
Qed.

Lemma flt_true_defined (x y : float) : flt x y = true → x ≠ nan ∧ y ≠ nan.
Proof. by destruct x, y. Qed.

Lemma fle_true_defined (x y : float) : fle x y = true → x ≠ nan ∧ y ≠ nan.
Proof. by destruct x, y. Qed.

Lemma flt_nan_l (y : float) : flt nan y = false.
Proof. done. Qed.
Lemma flt_nan_r (x : float) : flt x nan = false.
Proof. by destruct x. Qed.
Lemma fle_nan_l (y : float) : fle nan y = false.
Proof. done. Qed.
Lemma fle_nan_r (x : float) : fle x nan = false.
Proof. by destruct x. Qed.

Lemma isnan_true (x : float) : isnan x = true ↔ x = nan.
Proof. by destruct x. Qed.
Lemma isnan_false (x : float) : isnan x = false ↔ x ≠ nan.
Proof. by destruct x. Qed.

Lemma lift2_isnan op (x y : float) :
  isnan (lift2 op x y) = isnan x || isnan y.
Proof. by destruct x, y. Qed.

End Floats.

Section Rolling.

Implicit Types (xs : list float) (w i : nat).

Lemma observations_defined xs :
  Forall defined xs → ∃ qs, observations xs = Some qs ∧ length qs = length xs.
Proof.
  induction 1 as [|x xs Hx _ (qs & Hqs & Hlen)]; [by exists []|].
  destruct x as [q|]; [|done]. exists (q :: qs). cbn. rewrite Hqs.
  split; [done|]. by rewrite Hlen.
Qed.

Lemma window_short w i xs : i + 1 < w → window w i xs = None.
Proof. intros Hi. unfold window. by rewrite decide_False by lia. Qed.

Lemma window_full w i xs :
  Forall defined xs → w ≤ i + 1 → i < length xs →
  ∃ qs, window w i xs = Some qs ∧ length qs = w.
Proof.
  intros Hxs Hw Hi. unfold window. rewrite decide_True by done.
  destruct (observations_defined (take w (drop (i + 1 - w) xs))) as (qs & Hqs & Hlen).
  { by apply Forall_take, Forall_drop. }
  exists qs. split; [done|]. rewrite Hlen, length_take, length_drop. lia.
Qed.

Lemma mean_defined (qs : list Q) : 1 ≤ length qs → defined (mean qs).
Proof. destruct qs; cbn; [lia|done]. Qed.

Lemma rolling_length agg (period : Z) xs col :
  rolling agg period xs = Ok col → length col = length xs.
Proof.
  unfold rolling. destruct (period <? 0)%Z; [done|]. intros [= <-].
  by rewrite length_map, length_seq.
Qed.

Lemma rolling_period agg (period : Z) xs col :
  rolling agg period xs = Ok col → (0 ≤ period)%Z.
Proof. unfold rolling. destruct (Z.ltb_spec period 0); [intros [=]|lia]. Qed.

Lemma rolling_lookup agg (period : Z) xs col i x :
  rolling agg period xs = Ok col → col !! i = Some x →
  x = from_option agg nan (window (Z.to_nat period) i xs) ∧ i < length xs.
Proof.
  unfold rolling. destruct (period <? 0)%Z; [done|]. intros [= <-] Hx.
  rewrite list_lookup_fmap in Hx.
  destruct (seq 0 (length xs) !! i) as [j|] eqn:Hj; [|done].
  apply lookup_seq in Hj as [-> Hi]. by simplify_eq/=.
Qed.

(** While fewer than [period] rows exist the rolling value is NaN,
    whatever is aggregated. *)
Lemma rolling_short agg (period : Z) xs col i x :
  rolling agg period xs = Ok col → col !! i = Some x →
  (Z.of_nat i + 1 < period)%Z → x = nan.
Proof.
  intros Hcol Hx Hi. destruct (rolling_lookup _ _ _ _ _ _ Hcol Hx) as [-> _].
  by rewrite window_short by lia.
Qed.

(** On a series without NaN the rolling mean is a number exactly from row
    [period - 1] on, for a positive [period]. *)
Lemma rolling_mean_defined (period : Z) xs col i x :
  Forall defined xs →
  rolling_mean period xs = Ok col → col !! i = Some x →
  defined x ↔ (1 ≤ period ≤ Z.of_nat i + 1)%Z.
Proof.
  intros Hxs Hcol Hx.
  pose proof (rolling_period _ _ _ _ Hcol) as Hp.
  destruct (rolling_lookup _ _ _ _ _ _ Hcol Hx) as [-> Hi].
  destruct (decide (Z.to_nat period ≤ i + 1)) as [Hw|Hw].
  - destruct (window_full _ _ _ Hxs Hw Hi) as (qs & -> & Hlen). cbn. split.
    + destruct qs; [done|]. cbn in Hlen. lia.
    + intros ?. apply mean_defined. lia.
  - rewrite window_short by lia. cbn. split; [done|lia].
Qed.

End Rolling.

Section SupertrendProperties.

Import SupertrendStrategy.

Lemma nanmax2_defined_l (x y : float) : defined x → defined (nanmax2 x y).
Proof. by destruct x, y. Qed.

(** The True Range is a number on every row. *)
Lemma tr_defined (data : DataFrame) : Forall defined (tr data).
Proof.
  apply Forall_lookup. intros i x. unfold tr. intros Hx.
  apply lookup_zip_with_Some in Hx as (hl & hp & -> & Hhl & _).
  rewrite list_lookup_fmap in Hhl.
  destruct (data !! i) as [k|]; [|done]. cbn in Hhl. simplify_eq.
  unfold row_max. cbn [foldr]. by apply nanmax2_defined_l.
Qed.

Lemma atr_defined (data : DataFrame) (period : Z) col i x :
  atr data period = Ok col → col !! i = Some x →
  defined x ↔ (1 ≤ period ≤ Z.of_nat i + 1)%Z.
Proof. apply rolling_mean_defined, tr_defined. Qed.

(** A row of the frame before the loop. *)
Lemma bands_lookup (self : Self) (data : DataFrame) atr_col i r :
  bands self data atr_col !! i = Some r →
  atr_col !! i = Some (atr_ r) ∧
  isnan (upperband r) = isnan (atr_ r) ∧
  isnan (lowerband r) = isnan (atr_ r) ∧
  in_uptrend r = true.
Proof.
  unfold bands. intros Hr.
  apply lookup_zip_with_Some in Hr as (k & a & -> & _ & Ha). cbn.
  by destruct a.
Qed.

Lemma next_same_shape (p c : Row) :
  SupertrendScan.same_shape c (SupertrendScan.next p c).
Proof.
  unfold SupertrendScan.next, SupertrendScan.same_shape.
  destruct (fgt _ _); [done|]. destruct (flt _ _); [done|]. cbn.
  destruct (in_uptrend p); cbn.
  - destruct (flt (lowerband c) (lowerband p)) eqn:Hlt; [|done]. cbn.
    apply flt_true_defined in Hlt as [Hc Hp].
    by destruct (lowerband c), (lowerband p).
  - destruct (fgt (upperband c) (upperband p)) eqn:Hgt; [|done]. cbn.
    apply flt_true_defined in Hgt as [Hp Hc].
    by destruct (upperband c), (upperband p).
Qed.

(** The ratchet of one bar, in an uptrend that holds. *)
Lemma next_lowerband_ratchet (p c : Row) :
  in_uptrend p = true → in_uptrend (SupertrendScan.next p c) = true →
  fgt (close_ c) (upperband p) = false →
  defined (lowerband p) → defined (lowerband c) →
  fle (lowerband p) (lowerband (SupertrendScan.next p c)) = true.
Proof.
  unfold SupertrendScan.next. intros Hp Hn Hbreak Hdp Hdc.
  rewrite Hbreak in *.
  destruct (flt (close_ c) (lowerband p)); [done|].
  cbn in *. rewrite Hp. cbn.
  destruct (flt (lowerband c) (lowerband p)) eqn:Hlt; cbn.
  - by apply fle_refl.
  - by apply flt_false_fle.
Qed.

(** The ratchet of one bar, in a downtrend that holds. *)
Lemma next_upperband_ratchet (p c : Row) :
  in_uptrend p = false → in_uptrend (SupertrendScan.next p c) = false →
  flt (close_ c) (lowerband p) = false →
  defined (upperband p) → defined (upperband c) →
  fle (upperband (SupertrendScan.next p c)) (upperband p) = true.
Proof.
  unfold SupertrendScan.next. intros Hp Hn Hbreak Hdp Hdc.
  rewrite Hbreak in *.
  destruct (fgt (close_ c) (upperband p)); [done|].
  cbn in *. rewrite Hp. cbn.
  destruct (fgt (upperband c) (upperband p)) eqn:Hgt; cbn.
  - by apply fle_refl.
  - by apply flt_false_fle.
Qed.

(** [calculate] as a forward scan over the raw bands. *)
Lemma calculate_forward (self : Self) (data : DataFrame) (frame : list Row) :
  calculate self data = Ok frame →
  ∃ atr_col,
    atr data (period self) = Ok atr_col ∧
    frame = Scan.forward SupertrendScan.next (bands self data atr_col).
Proof.
  unfold calculate. destruct (atr data (period self)) as [atr_col|] eqn:Hatr; [|done].
  cbn. intros [= <-]. exists atr_col. split; [done|].
  apply loop_forward, supertrend_step_next.
Qed.

Lemma calculate_row (self : Self) (data : DataFrame) atr_col i r :
  atr data (period self) = Ok atr_col →
  Scan.forward SupertrendScan.next (bands self data atr_col) !! i = Some r →
  (defined (upperband r) ↔ (1 ≤ period self ≤ Z.of_nat i + 1)%Z) ∧
  (defined (lowerband r) ↔ (1 ≤ period self ≤ Z.of_nat i + 1)%Z).
Proof.
  intros Hatr Hr.
  destruct (forward_pointwise SupertrendScan.next SupertrendScan.same_shape) with
    (data := bands self data atr_col) (i := i) (a := r)
    as (r0 & Hr0 & _ & _ & Hu & Hl); [done|apply next_same_shape|done|].
  apply bands_lookup in Hr0 as (Ha & Hu0 & Hl0 & _).
  rewrite <- (atr_defined _ _ _ _ _ Hatr Ha). unfold defined.
  rewrite <- !isnan_false. by rewrite Hu, Hl, Hu0, Hl0.
Qed.

End SupertrendProperties.

(** ** Supertrend: the ratchet *)

Section SupertrendRatchet.

Import SupertrendStrategy.

(** C1 (as amended). In the frame [calculate] returns, for two consecutive
    bars that are both in uptrend, where the later close did not break
    above the earlier upper band and the earlier lower band is a number,
    the later lower band is greater than or equal to the earlier one; for
    two consecutive bars both in downtrend, where the later close did not
    break below the earlier lower band and the earlier upper band is a
    number, the later upper band is less than or equal to the earlier
    one. *)
Theorem supertrend_ratchet_while_trend_holds
    (self : Self) (data : DataFrame) (frame : list Row) (i : nat) (p c : Row) :
  calculate self data = Ok frame →
  frame !! i = Some p → frame !! S i = Some c →
  (in_uptrend p = true → in_uptrend c = true →
   fgt (close_ c) (upperband p) = false → defined (lowerband p) →
   fge (lowerband c) (lowerband p) = true) ∧
  (in_uptrend p = false → in_uptrend c = false →
   flt (close_ c) (lowerband p) = false → defined (upperband p) →
   fle (upperband c) (upperband p) = true).
Proof.
  intros Hcalc Hp Hc.
  destruct (calculate_forward _ _ _ Hcalc) as (atr_col & Hatr & ->).
  destruct (calculate_row _ _ _ _ _ Hatr Hp) as [Hup Hlp].
  destruct (forward_consecutive _ _ _ _ _ Hp Hc) as (c0 & Hc0 & ->).
  apply bands_lookup in Hc0 as (Ha0 & Hu0 & Hl0 & _).
  pose proof (atr_defined _ _ _ _ _ Hatr Ha0) as Hd0.
  assert (∀ c', SupertrendScan.next p c0 = c' → close_ c' = close_ c0) as Hclose.
  { intros c' <-. unfold close_.
    by destruct (next_same_shape p c0) as (-> & _). }
  rewrite (Hclose _ eq_refl).
  split; intros Htp Htc Hbreak Hdef.
  - apply next_lowerband_ratchet; try done.
    unfold defined. rewrite <- isnan_false, Hl0, isnan_false.
    apply Hd0. apply Hlp in Hdef. lia.
  - apply next_upperband_ratchet; try done.
    unfold defined. rewrite <- isnan_false, Hu0, isnan_false.
    apply Hd0. apply Hup in Hdef. lia.
Qed.

Lemma supertrend_ratchet_witness :
  ∃ frame p c,
    calculate Examples.supertrend_1_1 Examples.widening = Ok frame ∧
    frame !! 0 = Some p ∧ frame !! 1 = Some c ∧
    fge (lowerband c) (lowerband p) = true.
Proof.
  eexists _, _, _. split; [vm_compute; reflexivity|].
  split; [reflexivity|]. split; [reflexivity|].
  refine (proj1 (supertrend_ratchet_while_trend_holds
                   Examples.supertrend_1_1 Examples.widening _ 0 _ _ _ _ _) _ _ _ _);
    first [vm_compute; reflexivity | done].
Defined.

(** C1 as stated fails: the second bar of [breakout] closes above the
    upper band of the first, so both bars are marked in-uptrend, and its
    lower band is the raw one, below the lower band of the first bar. *)
Lemma supertrend_ratchet_fails_on_breakout :
  ∃ frame p c,
    calculate Examples.supertrend_1_1 Examples.breakout = Ok frame ∧
    frame !! 0 = Some p ∧ frame !! 1 = Some c ∧
    in_uptrend p = true ∧ in_uptrend c = true ∧
    fge (lowerband c) (lowerband p) = false ∧
    flt (lowerband c) (lowerband p) = true.
Proof.
  eexists _, _, _. split; [vm_compute; reflexivity|].
  by repeat split.
Qed.

(** Before the ATR exists the bands are NaN, and no comparison with NaN
    holds: with a period of two bars the first lower band of [widening] is
    NaN, the flag of the second bar is held, and its lower band is not
    greater than or equal to the first. *)
Lemma supertrend_ratchet_undefined_band :
  ∃ frame p c,
    calculate Examples.supertrend_2_1 Examples.widening = Ok frame ∧
    frame !! 0 = Some p ∧ frame !! 1 = Some c ∧
    in_uptrend p = true ∧ in_uptrend c = true ∧
    fgt (close_ c) (upperband p) = false ∧
    lowerband p = nan ∧ defined (lowerband c) ∧
    fge (lowerband c) (lowerband p) = false.
Proof.
  eexists _, _, _. split; [vm_compute; reflexivity|].
  by repeat split.
Qed.

End SupertrendRatchet.

(** ** Golden Cross: the crossover guard *)

Section GoldenCrossLoop.

Import GoldenCrossStrategy.

Lemma golden_cross_step_next (data : list Row) (i : nat) (p c : Row) :
  data !! i = Some c → data !! (i - 1) = Some p → 1 ≤ i →
  step data i = <[i := GoldenCrossScan.next p c]> data.
Proof.
  intros Hc Hp Hi. unfold step, GoldenCrossScan.next.
  assert (i < length data) as Hlt by (by eapply lookup_lt_Some).
  assert (i ≠ i - 1) as Hne by lia.
  rewrite !(cell_lookup _ _ _ _ Hc), !(cell_lookup _ _ _ _ Hp).
  cbv zeta.
  destruct (fle _ _ && fgt _ _).
  - rewrite (alter_insert _ _ _ _ Hc).
    rewrite !cell_insert_eq, !cell_insert_ne, !(cell_lookup _ _ _ _ Hp) by done.
    cbn [ma_short ma_long set_golden_cross].
    destruct (fge _ _ && flt _ _).
    + by rewrite alter_insert_insert.
    + done.
  - rewrite !(cell_lookup _ _ _ _ Hc), !(cell_lookup _ _ _ _ Hp).
    destruct (fge _ _ && flt _ _).
    + by apply alter_insert.
    + by rewrite list_insert_id.
Qed.

Lemma golden_cross_next_same (p c : Row) :
  GoldenCrossScan.same_averages c (GoldenCrossScan.next p c).
Proof.
  unfold GoldenCrossScan.next, GoldenCrossScan.same_averages. cbv zeta.
  by destruct (fle _ _ && fgt _ _), (fge _ _ && flt _ _).
Qed.

(** The flags [next] gives to a row that had none. *)
Lemma golden_cross_next_flags (p c : Row) :
  golden_cross c = false → death_cross c = false →
  golden_cross (GoldenCrossScan.next p c)
    = fle (ma_short p) (ma_long p) && fgt (ma_short c) (ma_long c) ∧
  death_cross (GoldenCrossScan.next p c)
    = fge (ma_short p) (ma_long p) && flt (ma_short c) (ma_long c).
Proof.
  intros Hg Hd. unfold GoldenCrossScan.next. cbv zeta.
  destruct (fle _ _ && fgt _ _) eqn:Hgc; cbn [ma_short ma_long set_golden_cross];
    destruct (fge _ _ && flt _ _) eqn:Hdc; cbn; by rewrite ?Hgc, ?Hdc.
Qed.

Lemma averages_lookup (data : DataFrame) ma_s ma_l i r :
  averages data ma_s ma_l !! i = Some r →
  ma_s !! i = Some (ma_short r) ∧ ma_l !! i = Some (ma_long r) ∧
  golden_cross r = false ∧ death_cross r = false.
Proof.
  unfold averages. intros Hr.
  apply lookup_zip_with_Some in Hr as (k & [s l] & -> & _ & Hm).
  apply lookup_zip_with_Some in Hm as (s' & l' & [= <- <-] & Hs & Hl).
  done.
Qed.

(** [calculate] as a forward scan over the rows with the two averages. *)
Lemma golden_cross_calculate_forward (self : Self) (data : DataFrame) frame :
  calculate self data = Ok frame →
  ∃ ma_s ma_l,
    rolling_mean (short_period self) (map (λ c, fl (close c)) data) = Ok ma_s ∧
    rolling_mean (long_period self) (map (λ c, fl (close c)) data) = Ok ma_l ∧
    frame = Scan.forward GoldenCrossScan.next (averages data ma_s ma_l).
Proof.
  unfold calculate.
  destruct (rolling_mean (short_period self) _) as [ma_s|] eqn:Hs; [|done].
  destruct (rolling_mean (long_period self) _) as [ma_l|] eqn:Hl; [|done].
  cbn [mbind result_bind Py.bind]. intros Hframe.
  exists ma_s, ma_l. split; [done|]. split; [done|].
  rewrite <- (loop_forward _ _ golden_cross_step_next).
  destruct (Nat.leb_spec 2 (length (averages data ma_s ma_l))) as [Hlen|Hlen];
    [by simplify_eq|].
  simplify_eq.
  by destruct (averages data ma_s ma_l) as [|? [|??]]; [..|cbn in Hlen; lia].
Qed.

End GoldenCrossLoop.

Section GoldenCrossProperties.

Import GoldenCrossStrategy.

(** The flags of a row of the frame: none on the first row; on a later row
    they compare the averages of the row before and of the row. *)
Lemma golden_cross_flags (self : Self) (data : DataFrame) frame i r :
  calculate self data = Ok frame → frame !! i = Some r →
  match i with
  | 0 => GoldenCrossScan.no_event r
  | S j =>
      ∃ p, frame !! j = Some p ∧
           golden_cross r
             = fle (ma_short p) (ma_long p) && fgt (ma_short r) (ma_long r) ∧
           death_cross r
             = fge (ma_short p) (ma_long p) && flt (ma_short r) (ma_long r)
  end.
Proof.
  intros Hcalc Hr.
  destruct (golden_cross_calculate_forward _ _ _ Hcalc) as (ma_s & ma_l & _ & _ & ->).
  destruct i as [|j].
  - rewrite forward_first in Hr.
    by apply averages_lookup in Hr as (_ & _ & ? & ?).
  - destruct (lookup_lt_is_Some_2 (Scan.forward GoldenCrossScan.next
                                     (averages data ma_s ma_l)) j) as [p Hp].
    { apply lookup_lt_Some in Hr. lia. }
    exists p. split; [done|].
    destruct (forward_consecutive _ _ _ _ _ Hp Hr) as (r0 & Hr0 & ->).
    apply averages_lookup in Hr0 as (_ & _ & Hg & Hd).
    destruct (golden_cross_next_same p r0) as (_ & -> & ->).
    by apply golden_cross_next_flags.
Qed.

Lemma undefined_no_cross (p r : Row) :
  GoldenCrossScan.undefined p ∨ GoldenCrossScan.undefined r →
  fle (ma_short p) (ma_long p) && fgt (ma_short r) (ma_long r) = false ∧
  fge (ma_short p) (ma_long p) && flt (ma_short r) (ma_long r) = false.
Proof.
  unfold fgt, fge.
  intros [[-> | ->] | [-> | ->]];
    rewrite ?flt_nan_l, ?flt_nan_r, ?fle_nan_l, ?fle_nan_r, ?andb_false_r; done.
Qed.

Lemma golden_cross_no_event (self : Self) (data : DataFrame) frame i r :
  calculate self data = Ok frame → frame !! i = Some r →
  GoldenCrossScan.undefined r ∨ i = 0 ∨
    (∃ p, frame !! (i - 1) = Some p ∧ GoldenCrossScan.undefined p) →
  GoldenCrossScan.no_event r.
Proof.
  intros Hcalc Hr Hnan.
  pose proof (golden_cross_flags _ _ _ _ _ Hcalc Hr) as Hflags.
  destruct i as [|j]; [done|].
  destruct Hflags as (p & Hp & Hg & Hd). unfold GoldenCrossScan.no_event.
  rewrite Hg, Hd. apply undefined_no_cross.
  destruct Hnan as [Hnan | [Hnan | (p' & Hp' & Hnan)]]; [by right|done|].
  left. replace (S j - 1) with j in Hp' by lia. by simplify_eq.
Qed.

Lemma get_signal_no_event (rows : list Row) (r : Row) :
  GoldenCrossScan.no_event r → get_signal (rows ++ [r]) = Ok hold.
Proof.
  intros [Hg Hd]. unfold get_signal, iloc_last. rewrite last_snoc. cbn.
  by rewrite Hg, Hd.
Qed.

Lemma both_defined_or_undefined (r : Row) :
  GoldenCrossScan.both_defined r ∨ GoldenCrossScan.undefined r.
Proof.
  unfold GoldenCrossScan.both_defined, GoldenCrossScan.undefined, defined.
  destruct (ma_short r), (ma_long r); auto.
Qed.

(** C8. A bar at which a moving average is NaN, at that bar or at the bar
    before it, is never marked as a golden cross or a death cross, and
    neither is the first bar of the frame.  So the first bar at which both
    averages are numbers carries no event, and [get_signal] returns Hold
    when the last row, or the row before it, has a NaN average. *)
Theorem golden_cross_undefined_never_fires
    (self : Self) (data : DataFrame) (frame : list Row) :
  calculate self data = Ok frame →
  (∀ i r, frame !! i = Some r →
          GoldenCrossScan.undefined r ∨ i = 0 ∨
            (∃ p, frame !! (i - 1) = Some p ∧ GoldenCrossScan.undefined p) →
          GoldenCrossScan.no_event r) ∧
  (∀ i r, frame !! i = Some r →
          GoldenCrossScan.both_defined r →
          (∀ j p, j < i → frame !! j = Some p → ¬ GoldenCrossScan.both_defined p) →
          GoldenCrossScan.no_event r) ∧
  (∀ rows r, frame = rows ++ [r] →
             GoldenCrossScan.undefined r ∨ rows = [] ∨
               (∃ p, last rows = Some p ∧ GoldenCrossScan.undefined p) →
             get_signal frame = Ok hold).
Proof.
  intros Hcalc. split; [|split].
  - intros i r. apply (golden_cross_no_event _ _ _ _ _ Hcalc).
  - intros i r Hr _ Hfirst.
    apply (golden_cross_no_event _ _ _ _ _ Hcalc Hr). right.
    destruct i as [|j]; [by left|right].
    destruct (lookup_lt_is_Some_2 frame j) as [p Hp].
    { apply lookup_lt_Some in Hr. lia. }
    exists p. replace (S j - 1) with j by lia. split; [done|].
    destruct (both_defined_or_undefined p) as [Hdef|]; [|done].
    exfalso. apply (Hfirst j p); [lia|done..].
  - intros rows r -> Hnan. apply get_signal_no_event.
    apply (golden_cross_no_event _ _ _ (length rows) _ Hcalc).
    { by rewrite lookup_app_r, Nat.sub_diag by lia. }
    destruct Hnan as [Hnan | [-> | (p & Hp & Hnan)]]; [by left|by right; left|].
    right; right. exists p. split; [|done].
    rewrite last_lookup in Hp.
    rewrite lookup_app_l; [by replace (length rows - 1) with (pred (length rows)) by lia|].
    destruct rows; [done|cbn; lia].
Qed.

Lemma golden_cross_first_defined_bar_witness :
  ∃ frame r,
    calculate Examples.golden_cross_1_2 Examples.three_bars = Ok frame ∧
    frame !! 1 = Some r ∧
    GoldenCrossScan.both_defined r ∧
    fgt (ma_short r) (ma_long r) = true ∧
    GoldenCrossScan.no_event r.
Proof.
  eexists _, _. split; [vm_compute; reflexivity|].
  split; [reflexivity|]. split; [by split|]. split; [reflexivity|].
  refine (proj1 (golden_cross_undefined_never_fires
                   Examples.golden_cross_1_2 Examples.three_bars _ _) 1 _ _ _).
  - vm_compute; reflexivity.
  - reflexivity.
  - right; right. eexists. split; [reflexivity|]. by right.
Defined.

End GoldenCrossProperties.

Section GoldenCrossShortSeries.

Import GoldenCrossStrategy.

Lemma snoc_of_length {A} (l : list A) :
  0 < length l → ∃ rows r, l = rows ++ [r] ∧ length l = S (length rows).
Proof.
  intros Hl. destruct l as [|x l] using rev_ind; [cbn in Hl; lia|].
  exists l, x. split; [done|]. rewrite length_app. cbn. lia.
Qed.

(** The averages of a row of the frame are the rolling means at that
    row. *)
Lemma golden_cross_row_averages (self : Self) (data : DataFrame) frame i r :
  calculate self data = Ok frame → frame !! i = Some r →
  ∃ ma_s ma_l,
    rolling_mean (short_period self) (map (λ c, fl (close c)) data) = Ok ma_s ∧
    rolling_mean (long_period self) (map (λ c, fl (close c)) data) = Ok ma_l ∧
    ma_s !! i = Some (ma_short r) ∧ ma_l !! i = Some (ma_long r).
Proof.
  intros Hcalc Hr.
  destruct (golden_cross_calculate_forward _ _ _ Hcalc) as (ma_s & ma_l & Hs & Hl & ->).
  exists ma_s, ma_l. split; [done|]. split; [done|].
  destruct (forward_pointwise GoldenCrossScan.next GoldenCrossScan.same_averages)
    with (data := averages data ma_s ma_l) (i := i) (a := r)
    as (r0 & Hr0 & _ & -> & ->); [done|apply golden_cross_next_same|done|].
  by apply averages_lookup in Hr0 as (? & ? & _).
Qed.

Lemma golden_cross_frame_length (self : Self) (data : DataFrame) frame :
  calculate self data = Ok frame → length frame = length data.
Proof.
  intros Hcalc.
  destruct (golden_cross_calculate_forward _ _ _ Hcalc) as (ma_s & ma_l & Hs & Hl & ->).
  apply rolling_length in Hs, Hl. rewrite length_map in Hs, Hl.
  rewrite forward_length. unfold averages.
  rewrite !length_zip_with. lia.
Qed.

(** A non-empty series of a single bar, or shorter than one of the two
    periods, gives Hold. *)
Lemma golden_cross_short_series (self : Self) (data : DataFrame) frame :
  calculate self data = Ok frame → 0 < length data →
  length data < 2 ∨
    (Z.of_nat (length data) < Z.max (short_period self) (long_period self))%Z →
  get_signal frame = Ok hold.
Proof.
  intros Hcalc Hne Hshort.
  pose proof (golden_cross_frame_length _ _ _ Hcalc) as Hlen.
  destruct (snoc_of_length frame) as (rows & r & -> & Hrows); [lia|].
  apply get_signal_no_event.
  assert ((rows ++ [r]) !! length rows = Some r) as Hr
    by (by rewrite lookup_app_r, Nat.sub_diag by lia).
  apply (golden_cross_no_event _ _ _ _ _ Hcalc Hr).
  destruct Hshort as [Hone|Hshort]; [right; left; lia|left].
  destruct (golden_cross_row_averages _ _ _ _ _ Hcalc Hr)
    as (ma_s & ma_l & Hs & Hl & Hrs & Hrl).
  destruct (Z.max_spec (short_period self) (long_period self)) as [[_ Hm]|[_ Hm]];
    rewrite Hm in Hshort.
  - right. apply (rolling_short _ _ _ _ _ _ Hl Hrl). lia.
  - left. apply (rolling_short _ _ _ _ _ _ Hs Hrs). lia.
Qed.

End GoldenCrossShortSeries.

(** ** Bollinger Bands *)

Section BollingerBandsProperties.

Import BollingerBandsStrategy.
Context `{Sqrt}.

Lemma bollinger_step_next (data : list Row) (i : nat) (p c : Row) :
  data !! i = Some c → data !! (i - 1) = Some p → 1 ≤ i →
  step data i = <[i := BollingerBandsScan.next p c]> data.
Proof.
  intros Hc Hp Hi. unfold step, BollingerBandsScan.next.
  assert (i < length data) as Hlt by (by eapply lookup_lt_Some).
  assert (i ≠ i - 1) as Hne by lia.
  rewrite !(cell_lookup _ _ _ _ Hc), !(cell_lookup _ _ _ _ Hp).
  cbv zeta.
  destruct (below_lower p && _).
  - rewrite (alter_insert _ _ _ _ Hc).
    rewrite !cell_insert_eq, !cell_insert_ne, !(cell_lookup _ _ _ _ Hp) by done.
    cbn [above_upper set_bb_buy_signal].
    destruct (above_upper p && _).
    + by rewrite alter_insert_insert.
    + done.
  - rewrite !(cell_lookup _ _ _ _ Hc), !(cell_lookup _ _ _ _ Hp).
    destruct (above_upper p && _).
    + by apply alter_insert.
    + by rewrite list_insert_id.
Qed.

Lemma bollinger_next_same (p c : Row) :
  BollingerBandsScan.same_outside c (BollingerBandsScan.next p c).
Proof.
  unfold BollingerBandsScan.next, BollingerBandsScan.same_outside. cbv zeta.
  by destruct (below_lower p && _), (above_upper p && _).
Qed.

(** No signal comes out of a row before which the close was inside the
    bands. *)
Lemma bollinger_next_inside (p c : Row) :
  below_lower p = false → above_upper p = false →
  bb_buy_signal c = false → bb_sell_signal c = false →
  bb_buy_signal (BollingerBandsScan.next p c) = false ∧
  bb_sell_signal (BollingerBandsScan.next p c) = false.
Proof. unfold BollingerBandsScan.next. by intros -> -> ??. Qed.

Lemma bollinger_bands_lookup (self : Self) (data : DataFrame) middle sd i r :
  bands self data middle sd !! i = Some r →
  middle !! i = Some (bb_middle r) ∧
  (bb_middle r = nan → above_upper r = false ∧ below_lower r = false) ∧
  bb_buy_signal r = false ∧ bb_sell_signal r = false.
Proof.
  unfold bands. intros Hr.
  apply lookup_zip_with_Some in Hr as (k & [m s] & -> & _ & Hm).
  apply lookup_zip_with_Some in Hm as (m' & s' & [= <- <-] & Hmid & _).
  split; [done|]. split; [|done]. cbn. by intros ->.
Qed.

Lemma bollinger_calculate_forward (self : Self) (data : DataFrame) frame :
  calculate self data = Ok frame →
  ∃ middle sd,
    rolling_mean (period self) (map (λ c, fl (close c)) data) = Ok middle ∧
    rolling_std (period self) (map (λ c, fl (close c)) data) = Ok sd ∧
    frame = Scan.forward BollingerBandsScan.next (bands self data middle sd).
Proof.
  unfold calculate.
  destruct (rolling_mean (period self) _) as [middle|] eqn:Hm; [|done].
  destruct (rolling_std (period self) _) as [sd|] eqn:Hs; [|done].
  cbn [mbind result_bind Py.bind]. intros [= <-].
  exists middle, sd. split; [done|]. split; [done|].
  apply loop_forward, bollinger_step_next.
Qed.

Lemma bollinger_frame_length (self : Self) (data : DataFrame) frame :
  calculate self data = Ok frame → length frame = length data.
Proof.
  intros Hcalc.
  destruct (bollinger_calculate_forward _ _ _ Hcalc) as (middle & sd & Hm & Hs & ->).
  apply rolling_length in Hm, Hs. rewrite length_map in Hm, Hs.
  rewrite forward_length. unfold bands.
  rewrite !length_zip_with. lia.
Qed.

(** The signals of a row of the frame: none on the first row, and none on
    a row before which the close was inside the bands. *)
Lemma bollinger_no_signal (self : Self) (data : DataFrame) frame i r :
  calculate self data = Ok frame → frame !! i = Some r →
  i = 0 ∨ (∃ p, frame !! (i - 1) = Some p ∧
                below_lower p = false ∧ above_upper p = false) →
  bb_buy_signal r = false ∧ bb_sell_signal r = false.
Proof.
  intros Hcalc Hr Hi.
  destruct (bollinger_calculate_forward _ _ _ Hcalc) as (middle & sd & _ & _ & ->).
  destruct i as [|j].
  - rewrite forward_first in Hr.
    by apply bollinger_bands_lookup in Hr as (_ & _ & ? & ?).
  - destruct Hi as [|(p & Hp & Hb & Ha)]; [done|].
    replace (S j - 1) with j in Hp by lia.
    destruct (forward_consecutive _ _ _ _ _ Hp Hr) as (r0 & Hr0 & ->).
    apply bollinger_bands_lookup in Hr0 as (_ & _ & ? & ?).
    by apply bollinger_next_inside.
Qed.

(** While fewer than [period] rows exist the close is never outside the
    bands: the bands are NaN. *)
Lemma bollinger_row_inside (self : Self) (data : DataFrame) frame i r :
  calculate self data = Ok frame → frame !! i = Some r →
  (Z.of_nat i + 1 < period self)%Z →
  below_lower r = false ∧ above_upper r = false.
Proof.
  intros Hcalc Hr Hi.
  destruct (bollinger_calculate_forward _ _ _ Hcalc) as (middle & sd & Hm & _ & ->).
  destruct (forward_pointwise BollingerBandsScan.next BollingerBandsScan.same_outside)
    with (data := bands self data middle sd) (i := i) (a := r)
    as (r0 & Hr0 & -> & ->); [done|apply bollinger_next_same|done|].
  apply bollinger_bands_lookup in Hr0 as (Hmid & Hnan & _).
  destruct Hnan as [-> ->]; [|done].
  by apply (rolling_short _ _ _ _ _ _ Hm Hmid).
Qed.

Lemma bollinger_get_signal_none (rows : list Row) (r : Row) :
  bb_buy_signal r = false → bb_sell_signal r = false →
  get_signal (rows ++ [r]) = Ok hold.
Proof.
  intros Hb Hs. unfold get_signal, iloc_last. rewrite last_snoc. cbn.
  by rewrite Hb, Hs.
Qed.

(** A non-empty series of a single bar, or shorter than the period, gives
    Hold. *)
Lemma bollinger_short_series (self : Self) (data : DataFrame) frame :
  calculate self data = Ok frame → 0 < length data →
  length data < 2 ∨ (Z.of_nat (length data) < period self)%Z →
  get_signal frame = Ok hold.
Proof.
  intros Hcalc Hne Hshort.
  pose proof (bollinger_frame_length _ _ _ Hcalc) as Hlen.
  destruct (snoc_of_length frame) as (rows & r & Hframe & Hrows); [lia|].
  assert (frame !! length rows = Some r) as Hr
    by (by rewrite Hframe, lookup_app_r, Nat.sub_diag by lia).
  destruct (bollinger_no_signal _ _ _ _ _ Hcalc Hr) as [Hb Hs].
  { destruct Hshort as [Hone|Hshort]; [left; lia|].
    destruct (decide (length rows = 0)) as [|Hpos]; [by left|right].
    destruct (lookup_lt_is_Some_2 frame (length rows - 1)) as [p Hp]; [lia|].
    exists p. split; [done|].
    apply (bollinger_row_inside _ _ _ _ _ Hcalc Hp). lia. }
  rewrite Hframe. by apply bollinger_get_signal_none.
Qed.

End BollingerBandsProperties.

(** ** Short series *)

Section SupertrendShortSeries.

Import SupertrendStrategy.

Lemma shift1_length (xs : list float) : length (shift1 xs) = length xs.
Proof.
  destruct xs as [|x xs]; [done|]. unfold shift1.
  cbn [length]. rewrite length_take. cbn [length]. lia.
Qed.

Lemma tr_length (data : DataFrame) : length (tr data) = length data.
Proof.
  unfold tr. rewrite !length_zip_with, !length_map, shift1_length, length_map. lia.
Qed.

Lemma supertrend_frame_length (self : Self) (data : DataFrame) frame :
  calculate self data = Ok frame → length frame = length data.
Proof.
  intros Hcalc. destruct (calculate_forward _ _ _ Hcalc) as (atr_col & Hatr & ->).
  apply rolling_length in Hatr. rewrite tr_length in Hatr.
  rewrite forward_length. unfold bands. rewrite length_zip_with. lia.
Qed.

(** Against NaN bands no comparison succeeds: the flag of the bar before
    is kept. *)
Lemma next_undefined_keeps_trend (p c : Row) :
  upperband p = nan → lowerband p = nan →
  in_uptrend (SupertrendScan.next p c) = in_uptrend p.
Proof.
  intros Hu Hl. unfold SupertrendScan.next, fgt. rewrite Hu, Hl.
  rewrite !flt_nan_l, !flt_nan_r. cbn. by rewrite !andb_false_r.
Qed.

Lemma supertrend_short_uptrend (self : Self) (data : DataFrame) frame :
  calculate self data = Ok frame →
  (Z.of_nat (length data) < period self)%Z →
  ∀ i r, frame !! i = Some r → in_uptrend r = true.
Proof.
  intros Hcalc Hshort.
  pose proof (supertrend_frame_length _ _ _ Hcalc) as Hlen.
  destruct (calculate_forward _ _ _ Hcalc) as (atr_col & Hatr & ->).
  induction i as [|j IH]; intros r Hr.
  - rewrite forward_first in Hr.
    by apply bands_lookup in Hr as (_ & _ & _ & ?).
  - destruct (lookup_lt_is_Some_2 (Scan.forward SupertrendScan.next
                                     (bands self data atr_col)) j) as [p Hp].
    { apply lookup_lt_Some in Hr. lia. }
    destruct (forward_consecutive _ _ _ _ _ Hp Hr) as (c0 & _ & ->).
    destruct (calculate_row _ _ _ _ _ Hatr Hp) as [Hu Hl].
    pose proof (lookup_lt_Some _ _ _ Hp) as Hj.
    rewrite next_undefined_keeps_trend; [by apply IH| |].
    + destruct (upperband p); [|done]. assert (defined (Some q)) as Hd by done.
      apply Hu in Hd. lia.
    + destruct (lowerband p); [|done]. assert (defined (Some q)) as Hd by done.
      apply Hl in Hd. lia.
Qed.

Lemma supertrend_get_signal_short_frame (rows : list Row) :
  length rows < 2 → get_signal rows = hold.
Proof.
  intros Hlen. unfold get_signal.
  by destruct (Z.ltb_spec (Z.of_nat (length rows) - 1 - 1) 0); [|lia].
Qed.

Lemma supertrend_get_signal_all_uptrend (rows : list Row) :
  (∀ i r, rows !! i = Some r → in_uptrend r = true) → get_signal rows = hold.
Proof.
  intros Hall. unfold get_signal.
  destruct (Z.ltb_spec (Z.of_nat (length rows) - 1 - 1) 0) as [|Hlen]; [done|].
  destruct (lookup_lt_is_Some_2 rows (Z.to_nat (Z.of_nat (length rows) - 1 - 1)))
    as [p Hp]; [lia|].
  destruct (lookup_lt_is_Some_2 rows (Z.to_nat (Z.of_nat (length rows) - 1)))
    as [l Hl]; [lia|].
  rewrite (cell_lookup _ _ _ _ Hp), (cell_lookup _ _ _ _ Hl).
  by rewrite (Hall _ _ Hp), (Hall _ _ Hl).
Qed.

(** A series shorter than the period gives Hold. *)
Lemma supertrend_short_series (self : Self) (data : DataFrame) frame :
  calculate self data = Ok frame →
  (Z.of_nat (length data) < period self)%Z →
  get_signal frame = hold.
Proof.
  intros Hcalc Hshort. apply supertrend_get_signal_all_uptrend.
  by apply (supertrend_short_uptrend self data).
Qed.

End SupertrendShortSeries.

Section FundingRateProperties.

Import FundingRateStrategy.

Lemma signals_lookup (self : Self) (data : DataFrame) rates i r :
  signals self data rates !! i = Some r →
  rates !! i = Some (funding_rate r) ∧
  fr_buy_signal r = flt (funding_rate r) (fl (- threshold self)%Q) ∧
  fr_sell_signal r = fgt (funding_rate r) (fl (threshold self)).
Proof.
  unfold signals. intros Hr.
  by apply lookup_zip_with_Some in Hr as (k & x & -> & _ & Hx).
Qed.

Lemma normal_length loc scale n rng : length (normal loc scale n rng).1 = n.
Proof. unfold normal. cbn. by rewrite length_map, length_seq. Qed.

Lemma funding_rate_frame_length (self : Self) (data : DataFrame) rng :
  length (calculate self data rng).1 = length data.
Proof.
  unfold calculate.
  pose proof (normal_length 0 (5 # 10000) (length data) rng) as Hn.
  destruct (normal _ _ _ _) as [rates rng']. cbn in *.
  unfold signals. rewrite length_zip_with. lia.
Qed.

Lemma funding_rate_get_signal (rows : list Row) (r : Row) :
  get_signal (rows ++ [r]) =
    Ok (if fr_buy_signal r then buy else if fr_sell_signal r then sell else hold).
Proof.
  unfold get_signal, iloc_last. rewrite last_snoc. cbn.
  by destruct (fr_buy_signal r), (fr_sell_signal r).
Qed.

(** The signal of Funding Rate is read off the last funding rate alone,
    whatever the number of rows. *)
Lemma funding_rate_last_value (self : Self) (data : DataFrame) rng :
  0 < length data →
  ∃ rows r,
    (calculate self data rng).1 = rows ++ [r] ∧
    get_signal (rows ++ [r]) =
      Ok (if flt (funding_rate r) (fl (- threshold self)%Q) then buy
          else if fgt (funding_rate r) (fl (threshold self)) then sell
          else hold).
Proof.
  intros Hne.
  pose proof (funding_rate_frame_length self data rng) as Hlen.
  destruct (snoc_of_length (calculate self data rng).1) as (rows & r & Hframe & _);
    [lia|].
  exists rows, r. split; [done|].
  rewrite funding_rate_get_signal.
  assert ((calculate self data rng).1 !! length rows = Some r) as Hr
    by (by rewrite Hframe, lookup_app_r, Nat.sub_diag by lia).
  unfold calculate in Hr. destruct (normal _ _ _ _) as [rates rng']. cbn in Hr.
  by apply signals_lookup in Hr as (_ & -> & ->).
Qed.

End FundingRateProperties.

Section ShortSeries.

(** C3 (as amended). Supertrend returns Hold on every frame of fewer than
    two rows, and after [calculate] on every series shorter than its
    period.  Golden Cross and Bollinger Bands return Hold after
    [calculate] on every non-empty series that has a single bar or is
    shorter than the lookback (the longer of the two periods, the period).
    Funding Rate has no lookback: on a non-empty series its signal is read
    off the last funding rate, Buy below minus the threshold, Sell above
    the threshold, Hold otherwise, also when the frame has one row. *)
Theorem get_signal_short_series `{Sqrt} :
  (∀ rows, length rows < 2 → SupertrendStrategy.get_signal rows = hold) ∧
  (∀ self data frame,
     SupertrendStrategy.calculate self data = Ok frame →
     (Z.of_nat (length data) < SupertrendStrategy.period self)%Z →
     SupertrendStrategy.get_signal frame = hold) ∧
  (∀ self data frame,
     GoldenCrossStrategy.calculate self data = Ok frame →
     0 < length data →
     length data < 2 ∨
       (Z.of_nat (length data)
        < Z.max (GoldenCrossStrategy.short_period self)
                (GoldenCrossStrategy.long_period self))%Z →
     GoldenCrossStrategy.get_signal frame = Ok hold) ∧
  (∀ self data frame,
     BollingerBandsStrategy.calculate self data = Ok frame →
     0 < length data →
     length data < 2 ∨
       (Z.of_nat (length data) < BollingerBandsStrategy.period self)%Z →
     BollingerBandsStrategy.get_signal frame = Ok hold) ∧
  (∀ self data rng,
     0 < length data →
     ∃ rows r,
       (FundingRateStrategy.calculate self data rng).1 = rows ++ [r] ∧
       FundingRateStrategy.get_signal (rows ++ [r]) =
         Ok (if flt (FundingRateStrategy.funding_rate r)
                    (fl (- FundingRateStrategy.threshold self)%Q) then buy
             else if fgt (FundingRateStrategy.funding_rate r)
                         (fl (FundingRateStrategy.threshold self)) then sell
             else hold)).
Proof.
  split; [|split; [|split; [|split]]].
  - apply supertrend_get_signal_short_frame.
  - apply supertrend_short_series.
  - apply golden_cross_short_series.
  - apply bollinger_short_series.
  - apply funding_rate_last_value.
Qed.

Lemma get_signal_short_series_witness :
  ∃ frame,
    GoldenCrossStrategy.calculate Examples.golden_cross Examples.three_bars = Ok frame ∧
    length frame = 3 ∧
    GoldenCrossStrategy.get_signal frame = Ok hold.
Proof.
  eexists. split; [vm_compute; reflexivity|]. split; [reflexivity|].
  refine (proj1 (proj2 (proj2 (@get_signal_short_series Examples.sqrt_floor)))
            Examples.golden_cross Examples.three_bars _ _ _ _).
  - vm_compute; reflexivity.
  - cbn; lia.
  - right. cbn. lia.
Defined.

(** C3 as stated fails: Funding Rate answers Buy on a frame of one row
    when the one funding rate is below minus the threshold. *)
Lemma funding_rate_buys_on_one_row :
  let frame :=
    (FundingRateStrategy.calculate
       Examples.funding_rate Examples.one_bar Examples.alternating).1 in
  length frame = 1 ∧ FundingRateStrategy.get_signal frame = Ok buy.
Proof. split; reflexivity. Qed.

(** On the empty frame, which [calculate] returns for the empty series,
    the last row that [get_signal] reads does not exist. *)
Lemma golden_cross_empty_frame :
  GoldenCrossStrategy.calculate Examples.golden_cross [] = Ok [] ∧
  GoldenCrossStrategy.get_signal [] = Raise IndexError.
Proof. split; reflexivity. Qed.

End ShortSeries.

(** ** Determinism and the random generator *)

Section DeterminismProperties.

Import Determinism.
Context `{Sqrt}.

Lemma normal_draws loc scale n rng :
  (normal loc scale n rng).1 = map (λ z, fl (loc + scale * z)%Q) (draws rng n).
Proof. unfold normal, draws. cbn. by rewrite map_map. Qed.

(** C2 as stated fails for Funding Rate: the second call sees the next
    draw of the generator. *)
Lemma funding_rate_calculate_differs :
  let first :=
    FundingRateStrategy.calculate
      Examples.funding_rate Examples.one_bar Examples.alternating in
  let second :=
    FundingRateStrategy.calculate Examples.funding_rate Examples.one_bar first.2 in
  first.1 ≠ second.1 ∧
  FundingRateStrategy.get_signal first.1 = Ok buy ∧
  FundingRateStrategy.get_signal second.1 = Ok hold.
Proof. split; [|split]; [|reflexivity..]. vm_compute. discriminate. Qed.

End DeterminismProperties.

Section RunnerProperties.

Import TradingBot Runner.
Context `{Sqrt}.

Implicit Types (data : DataFrame) (rng : RandomState) (s : Strategy.Self)
         (l : list Strategy.Self) (results : gmap string Entry).

(** One turn of the loop adds the contribution of the strategy, if any,
    under its name. *)
Lemma run_strategy_contribution data results rng s :
  run_strategy data (results, rng) s =
    (match contribution s data rng with
     | Some entry => <[Strategy.name s := entry]> results
     | None => results
     end,
     if Strategy.is_active s then (evaluate s data rng).2 else rng).
Proof.
  unfold run_strategy, contribution, evaluate.
  destruct (Strategy.is_active s); [|done].
  destruct (Strategy.calculate s data rng) as [calculated rng']. cbn [fst snd].
  by destruct (_ ≫= _).
Qed.

Lemma foldl_run_rng data l results rng :
  (foldl (run_strategy data) (results, rng) l).2 = rng_after data l rng.
Proof.
  revert results rng. induction l as [|s l IH]; intros results rng; [done|].
  cbn [foldl rng_after]. rewrite run_strategy_contribution. apply IH.
Qed.


Lemma results_of_snoc data rng l s :
  results_of data rng (l ++ [s]) =
    match contribution s data (rng_after data l rng) with
    | Some entry => <[Strategy.name s := entry]> (results_of data rng l)
    | None => results_of data rng l
    end.
Proof.
  unfold results_of. rewrite foldl_app. cbn [foldl].
  pose proof (foldl_run_rng data l ∅ rng) as Hrng.
  destruct (foldl (run_strategy data) (∅, rng) l) as [results rng'].
  cbn [fst snd] in *. subst rng'. by rewrite run_strategy_contribution.
Qed.


Lemma added_snoc data rng l x i s :
  i ≤ length l → added data rng (l ++ [x]) i s = added data rng l i s.
Proof. intros Hi. unfold added. by rewrite take_app_le. Qed.

Lemma added_last data rng l x :
  added data rng (l ++ [x]) (length l) x = contribution x data (rng_after data l rng).
Proof. unfold added. by rewrite take_app_length. Qed.


Lemma latest_snoc data rng l x name entry :
  latest data rng (l ++ [x]) name entry ↔
    (Strategy.name x = name ∧
     contribution x data (rng_after data l rng) = Some entry) ∨
    (latest data rng l name entry ∧
     (Strategy.name x = name → contribution x data (rng_after data l rng) = None)).
Proof.
  split.
  - intros (i & s & Hs & Hname & Hadd & Hlater).
    destruct (decide (i = length l)) as [->|Hi].
    + left. rewrite lookup_app_r, Nat.sub_diag in Hs by lia. simplify_eq/=.
      by rewrite added_last in Hadd.
    + assert (i < length l) as Hlt.
      { apply lookup_lt_Some in Hs. rewrite length_app in Hs. cbn in Hs. lia. }
      right. split.
      * exists i, s. rewrite lookup_app_l in Hs by done.
        rewrite added_snoc in Hadd by lia. split_and!; try done.
        intros j s' Hj Hs' Hname'.
        rewrite <- (added_snoc _ _ _ x) by (apply lookup_lt_Some in Hs'; lia).
        apply Hlater; [done| |done].
        apply lookup_app_l_Some. done.
      * intros Hx. rewrite <- added_last. apply Hlater; [done| |done].
        by rewrite lookup_app_r, Nat.sub_diag by lia.
  - intros [[Hname Hadd] | [(i & s & Hs & Hname & Hadd & Hlater) Hx]].
    + exists (length l), x. rewrite lookup_app_r, Nat.sub_diag by lia.
      rewrite added_last. split_and!; try done.
      intros j s' Hj Hs'. apply lookup_lt_Some in Hs'.
      rewrite length_app in Hs'. cbn in Hs'. lia.
    + pose proof (lookup_lt_Some _ _ _ Hs) as Hlt.
      exists i, s. rewrite lookup_app_l by done.
      rewrite added_snoc by lia. split_and!; try done.
      intros j s' Hj Hs' Hname'.
      destruct (decide (j = length l)) as [->|Hjl].
      * rewrite lookup_app_r, Nat.sub_diag in Hs' by lia. simplify_eq/=.
        rewrite added_last. by apply Hx.
      * assert (j < length l) as Hjlt.
        { apply lookup_lt_Some in Hs'. rewrite length_app in Hs'. cbn in Hs'. lia. }
        rewrite lookup_app_l in Hs' by done.
        rewrite added_snoc by lia. by apply Hlater.
Qed.

(** The results hold, under each name, what the last strategy of that
    name that adds something adds. *)
Lemma results_of_latest data rng l name entry :
  results_of data rng l !! name = Some entry ↔ latest data rng l name entry.
Proof.
  induction l as [|x l IH] using rev_ind.
  - unfold results_of. cbn. rewrite lookup_empty. split; [done|].
    by intros (i & s & Hs & _).
  - rewrite results_of_snoc, latest_snoc, <- IH.
    destruct (contribution x data (rng_after data l rng)) as [e|].
    + destruct (decide (Strategy.name x = name)) as [<-|Hne].
      * rewrite lookup_insert_eq. split; [intros [= ->]; by left|].
        intros [[_ [= ->]]|[_ Hx]]; [done|]. by specialize (Hx eq_refl).
      * rewrite lookup_insert_ne by done. split; [by right|].
        by intros [[? _]|[? _]].
    + split; [by right|]. by intros [[_ ?]|[? _]].
Qed.


(** With distinct names, each strategy finds under its name what it
    added. *)
Lemma results_of_distinct data rng l i s :
  NoDup (Strategy.name <$> l) → l !! i = Some s →
  results_of data rng l !! Strategy.name s = added data rng l i s.
Proof.
  intros Hnodup Hs.
  assert (∀ j s', l !! j = Some s' → Strategy.name s' = Strategy.name s → j = i ∧ s' = s)
    as Hsame.
  { intros j s' Hs' Hname.
    assert (j = i) as ->; [|by simplify_eq].
    apply (NoDup_lookup _ _ _ (Strategy.name s) Hnodup);
      rewrite list_lookup_fmap; [rewrite Hs'|rewrite Hs]; cbn; by f_equal. }
  destruct (added data rng l i s) as [entry|] eqn:Hadd.
  - apply results_of_latest. exists i, s. split_and!; try done.
    intros j s' Hj Hs' Hname. destruct (Hsame j s' Hs' Hname). lia.
  - destruct (results_of data rng l !! Strategy.name s) as [entry|] eqn:Hres; [|done].
    apply results_of_latest in Hres as (j & s' & Hs' & Hname & Hadd' & _).
    destruct (Hsame j s' Hs' Hname) as [-> ->]. congruence.
Qed.

End RunnerProperties.

Section RunStrategies.

Import TradingBot Runner.




End RunStrategies.

(** ** The Signal Aggregator: the other modes *)

Section AggregatorModes.

Import Aggregator Consensus.

Lemma consensus_unfold (self : TradingBot.Self) :
  let m := TradingBot.current_signals self in
  TradingBot.get_combined_signal self "consensus" =
    if bool_decide (m = ∅) then hold
    else if forallb (String.eqb buy) (signals m) then buy
    else if forallb (String.eqb sell) (signals m) then sell
    else hold.
Proof. reflexivity. Qed.

Lemma forallb_signals (m : gmap string string) (x : string) :
  forallb (String.eqb x) (signals m) = true ↔ ∀ name s, m !! name = Some s → s = x.
Proof.
  rewrite forallb_forall. split.
  - intros Hall name s Hs. symmetry. apply String.eqb_eq, Hall.
    apply list_elem_of_In, elem_of_signals. by exists name.
  - intros Hall s Hin. apply String.eqb_eq.
    apply list_elem_of_In, elem_of_signals in Hin as [name Hname].
    symmetry. by apply (Hall name).
Qed.

Lemma signals_nonempty (m : gmap string string) : m ≠ ∅ → signals m ≠ [].
Proof.
  intros Hm Hnil. apply Hm, map_to_list_empty_iff.
  unfold signals in Hnil. by apply fmap_nil_inv in Hnil.
Qed.

Lemma unanimous_one (m : gmap string string) (x y : string) :
  unanimous m x → unanimous m y → x = y.
Proof.
  intros [Hm Hx] [_ Hy].
  destruct (map_choose m Hm) as (name & s & Hs).
  by rewrite <- (Hx name s Hs), <- (Hy name s Hs).
Qed.

Lemma consensus_unanimous (self : TradingBot.Self) (x : string) :
  x = buy ∨ x = sell →
  TradingBot.get_combined_signal self "consensus" = x
  ↔ unanimous (TradingBot.current_signals self) x.
Proof.
  intros Hx. rewrite consensus_unfold. cbv zeta. unfold unanimous.
  set (m := TradingBot.current_signals self).
  pose proof (forallb_signals m buy) as Hb.
  pose proof (forallb_signals m sell) as Hs.
  case_bool_decide as Hm.
  { split; [destruct Hx as [-> | ->]; discriminate|by intros [? _]]. }
  destruct (forallb (String.eqb buy) (signals m)) eqn:Eb.
  - assert (unanimous m buy) as Hub by (split; [done|by apply Hb]).
    split; [by intros <-|]. intros Hux. symmetry.
    by apply (unanimous_one m).
  - destruct (forallb (String.eqb sell) (signals m)) eqn:Es.
    + assert (unanimous m sell) as Hus by (split; [done|by apply Hs]).
      split; [by intros <-|]. intros Hux. symmetry.
      by apply (unanimous_one m).
    + split; [destruct Hx as [-> | ->]; discriminate|].
      intros [_ Hall]. destruct Hx as [-> | ->].
      * apply Hb in Hall. congruence.
      * apply Hs in Hall. congruence.
Qed.

(** X1. Mode 'consensus' returns Buy exactly when the mapping is not empty
    and every entry is Buy, Sell exactly when it is not empty and every
    entry is Sell, and Hold in every other case, the empty mapping
    included. *)
Theorem consensus_returns_unanimous_signal (self : TradingBot.Self) :
  let m := TradingBot.current_signals self in
  let r := TradingBot.get_combined_signal self "consensus" in
  (r = buy ↔ unanimous m buy) ∧
  (r = sell ↔ unanimous m sell) ∧
  (¬ unanimous m buy → ¬ unanimous m sell → r = hold) ∧
  (m = ∅ → r = hold).
Proof.
  intros m r. subst m r.
  pose proof (consensus_unanimous self buy (or_introl eq_refl)) as Hb.
  pose proof (consensus_unanimous self sell (or_intror eq_refl)) as Hs.
  split_and!; [done|done| |].
  - intros Hnb Hns. rewrite <- Hb in Hnb. rewrite <- Hs in Hns.
    rewrite consensus_unfold in *. cbv zeta in *.
    repeat case_match; done.
  - intros Hm. rewrite consensus_unfold. cbv zeta. by rewrite bool_decide_true.
Qed.

(** X2. Whatever the mode and whatever strings the strategies returned,
    [get_combined_signal] returns 'buy', 'sell' or 'hold'; a mode other
    than 'majority', 'consensus' and 'any' gives 'hold'. *)
Theorem combined_signal_is_buy_sell_or_hold (self : TradingBot.Self) (mode : string) :
  let r := TradingBot.get_combined_signal self mode in
  (r = buy ∨ r = sell ∨ r = hold) ∧
  (mode ≠ "majority" → mode ≠ "consensus" → mode ≠ "any" → r = hold).
Proof.
  cbv zeta. unfold TradingBot.get_combined_signal.
  destruct (String.eqb_spec mode "majority") as [->|Hm];
    [|destruct (String.eqb_spec mode "consensus") as [->|Hc];
      [|destruct (String.eqb_spec mode "any") as [->|Ha]]].
  all: split; [repeat case_match; auto|try done].
  intros _ _ _. by case_match.
Qed.

Lemma count_all (x y : string) (l : list string) :
  (∀ s, s ∈ l → s = x) →
  TradingBot.count y l = if decide (y = x) then length l else 0.
Proof.
  unfold TradingBot.count. induction l as [|s l IH]; intros Hall.
  - by destruct (decide (y = x)).
  - assert (s = x) as -> by (apply Hall; left).
    specialize (IH (λ s Hs, Hall s (list_elem_of_further _ _ _ Hs))).
    rewrite filter_cons.
    destruct (decide (x = y)) as [->|Hne]; cbn [length]; rewrite IH.
    + by rewrite !decide_True.
    + by rewrite !decide_False by congruence.
Qed.

Lemma unanimous_votes (m : gmap string string) (x y : string) :
  unanimous m x →
  votes m y = (if decide (y = x) then length (signals m) else 0) ∧
  0 < length (signals m).
Proof.
  intros [Hm Hall]. split.
  - apply count_all. intros s [name Hs]%elem_of_signals. by apply (Hall name).
  - apply signals_nonempty in Hm. destruct (signals m); [done|cbn; lia].
Qed.

(** X3. When mode 'consensus' gives Buy, modes 'majority' and 'any' give Buy
    as well, and likewise for Sell: a unanimous vote is acted on in every
    mode. *)
Theorem consensus_agrees_with_majority_and_any (self : TradingBot.Self) (x : string) :
  x = buy ∨ x = sell →
  TradingBot.get_combined_signal self "consensus" = x →
  TradingBot.get_combined_signal self "majority" = x ∧
  TradingBot.get_combined_signal self "any" = x.
Proof.
  intros Hx Hcons. apply (consensus_unanimous self x Hx) in Hcons as Hun.
  destruct Hun as [Hm Hall].
  rewrite majority_unfold, any_unfold. cbv zeta.
  rewrite !bool_decide_false by done.
  set (m := TradingBot.current_signals self) in *.
  assert (unanimous m x) as Hun by done.
  destruct (unanimous_votes m x buy Hun) as [Hvb Hpos].
  destruct (unanimous_votes m x sell Hun) as [Hvs _].
  destruct (unanimous_votes m x hold Hun) as [Hvh _].
  destruct (map_choose m Hm) as (name & s & Hs).
  pose proof (Hall name s Hs) as ->.
  assert (voted m x) as Hvx by (by exists name).
  destruct Hx as [-> | ->].
  - rewrite decide_True in Hvb by done.
    rewrite decide_False in Hvs by done.
    rewrite decide_False in Hvh by done.
    rewrite Hvb, Hvs, Hvh.
    destruct (Nat.ltb_spec 0 (length (signals m))); [|lia]. cbn.
    split; [done|]. rewrite bool_decide_true; [done|by apply elem_of_signals].
  - rewrite decide_True in Hvs by done.
    rewrite decide_False in Hvb by done.
    rewrite decide_False in Hvh by done.
    rewrite Hvb, Hvs, Hvh.
    destruct (Nat.ltb_spec 0 (length (signals m))); [|lia].
    destruct (Nat.ltb_spec (length (signals m)) 0); [lia|]. cbn.
    split; [done|].
    rewrite bool_decide_false.
    + rewrite bool_decide_true; [done|by apply elem_of_signals].
    + intros [name' Hs']%elem_of_signals. by pose proof (Hall name' _ Hs').
Qed.

Lemma consensus_agrees_witness :
  let self :=
    bot_with (<["Supertrend" := sell]> (<["Golden Cross" := sell]> ∅)) in
  TradingBot.get_combined_signal self "majority" = sell ∧
  TradingBot.get_combined_signal self "any" = sell.
Proof.
  intros self.
  apply (consensus_agrees_with_majority_and_any self sell); [by right|].
  vm_compute. reflexivity.
Defined.

End AggregatorModes.

(** ** When the evaluation of a strategy raises *)

Section RaisesProperties.

Context `{Sqrt}.

Lemma rolling_ok_or_raise agg (period : Z) (xs : list float) :
  if (period <? 0)%Z then rolling agg period xs = Raise ValueError
  else ∃ col, rolling agg period xs = Ok col.
Proof. unfold rolling. destruct (period <? 0)%Z; eauto. Qed.

Lemma iloc_last_nil {R A} (col : R → A) : iloc_last col [] = Raise IndexError.
Proof. done. Qed.







End RaisesProperties.

(** ** The bot over a turn of its loop *)

Section BotTurn.

Import TradingBot Runner.
Context `{Sqrt}.

(** [run_strategies] on a bot that holds data, in one equation. *)
Lemma run_strategies_with_data (self : Self) (data : DataFrame) (rng : RandomState) :
  TradingBot.data self = Some data →
  run_strategies self rng =
    (results_of data rng (strategies self),
     set_current_signals (entry_signal <$> results_of data rng (strategies self)) self,
     rng_after data (strategies self) rng).
Proof.
  intros Hdata. unfold run_strategies, results_of. rewrite Hdata.
  pose proof (foldl_run_rng data (strategies self) ∅ rng) as Hrng.
  destruct (foldl _ _ _) as [results rng']. cbn in *. by subst.
Qed.

Lemma combined_signal_empty (self : Self) (mode : string) :
  current_signals self = ∅ → get_combined_signal self mode = hold.
Proof. intros Hm. unfold get_combined_signal. by rewrite bool_decide_true. Qed.

(** X5. When no strategy adds an entry (each one is inactive or its
    evaluation raises), [run_strategies] returns the empty dict and
    [get_combined_signal] then returns 'hold' in every mode: a bot whose
    strategies are all switched off or failing never trades.  Without
    stored data [run_strategies] returns the empty dict and leaves the bot,
    its recorded signals included, as it was. *)
Theorem run_strategies_nothing_added
    (self : Self) (data : DataFrame) (rng : RandomState) :
  TradingBot.data self = Some data →
  (∀ i s, strategies self !! i = Some s →
          Strategy.is_active s = false ∨
          ∃ e, (evaluate s data (rng_after data (take i (strategies self)) rng)).1
               = Raise e) →
  let out := run_strategies self rng in
  out.1.1 = ∅ ∧
  (∀ mode, get_combined_signal out.1.2 mode = hold) ∧
  run_strategies (set_data None self) rng = (∅, set_data None self, rng).
Proof.
  intros Hdata Hnone out. subst out.
  rewrite (run_strategies_with_data self data rng Hdata). cbn [fst snd].
  assert (results_of data rng (strategies self) = ∅) as Hres.
  { apply map_empty. intros name.
    destruct (results_of data rng (strategies self) !! name) as [entry|] eqn:Hname;
      [exfalso|done].
    apply results_of_latest in Hname as (i & s & Hs & _ & Hadd & _).
    unfold added, contribution in Hadd.
    destruct (Hnone i s Hs) as [Hoff|[e He]].
    - by rewrite Hoff in Hadd.
    - rewrite He in Hadd. by destruct (Strategy.is_active s). }
  split; [done|]. split; [|done].
  intros mode. apply combined_signal_empty. cbn. by rewrite Hres, fmap_empty.
Qed.

(** X6. [add_strategy] puts the strategy behind the others: after it
    [run_strategies] returns what it returned before, with the entry of the
    new strategy set under its name when the new strategy is active and its
    evaluation does not raise; an inactive strategy changes nothing in the
    results. *)
Theorem add_strategy_runs_last
    (self : Self) (strategy : Strategy.Self) (data : DataFrame) (rng : RandomState) :
  TradingBot.data self = Some data →
  let before := run_strategies self rng in
  let after := run_strategies (add_strategy self strategy) rng in
  after.1.1 =
    match contribution strategy data before.2 with
    | Some entry => <[Strategy.name strategy := entry]> before.1.1
    | None => before.1.1
    end ∧
  (Strategy.is_active strategy = false →
   after.1.1 = before.1.1 ∧ after.2 = before.2).
Proof.
  intros Hdata before after. subst before after.
  rewrite (run_strategies_with_data self data rng Hdata).
  rewrite (run_strategies_with_data (add_strategy self strategy) data rng Hdata).
  cbn [fst snd add_strategy strategies]. rewrite results_of_snoc.
  split; [done|]. intros Hoff. unfold contribution. rewrite Hoff.
  split; [done|].
  generalize (strategies self) rng. clear Hdata.
  induction l as [|s l IH]; intros rng'; cbn [app rng_after].
  - by rewrite Hoff.
  - apply IH.
Qed.

End BotTurn.

Section BotTurnWitnesses.

Import TradingBot Runner.

Lemma run_strategies_nothing_added_witness :
  let self :=
    set_data (Some Examples.three_bars)
      (init Examples.exchange
         [ {| Strategy.name := "Golden Cross"; Strategy.is_active := false;
              Strategy.impl := Strategy.GoldenCross Examples.golden_cross |} ]) in
  (@run_strategies Examples.sqrt_floor self Examples.alternating).1.1 = ∅.
Proof.
  intros self.
  refine (proj1 (@run_strategies_nothing_added Examples.sqrt_floor self
                   Examples.three_bars Examples.alternating eq_refl _)).
  intros [|i] s Hs; [|done]. left. by simplify_eq/=.
Defined.

Lemma add_strategy_witness :
  let strategy :=
    {| Strategy.name := "Supertrend 2"; Strategy.is_active := true;
       Strategy.impl := Strategy.Supertrend Examples.supertrend_1_1 |} in
  entry_signal <$>
    (@run_strategies Examples.sqrt_floor (add_strategy Examples.bot strategy)
       Examples.alternating).1.1 !! "Supertrend 2" = Some hold.
Proof.
  intros strategy.
  rewrite (proj1 (@add_strategy_runs_last Examples.sqrt_floor Examples.bot strategy
                    Examples.three_bars Examples.alternating eq_refl)).
  vm_compute. reflexivity.
Defined.

End BotTurnWitnesses.

(** ** One turn of the loop of the window *)

Section RunBot.

Import TradingBot Runner.
Context `{Sqrt} `{ToDatetime}.

Lemma execute_order_fields (bot : Self) (symbol signal : string) (quantity : Q) :
  let out := execute_order bot symbol signal quantity in
  out.1 = set_in_position (in_position out.1) bot ∧
  (in_position out.1 ≠ in_position bot →
   (signal = buy ∧ in_position bot = false) ∨
   (signal = sell ∧ in_position bot = true)).
Proof.
  cbv zeta. unfold execute_order. destruct bot as [ex st d pos cs]. cbn.
  destruct (String.eqb_spec signal "buy") as [->|Hb];
    [|destruct (String.eqb_spec signal "sell") as [->|Hs]];
    destruct pos; cbn; split; try done; intros Hne; auto.
Qed.

(** What [fetch_data] leaves behind, by what it returns. *)
Lemma fetch_data_returned (self : Self) (symbol timeframe : string) (limit : nat) :
  let out := fetch_data self symbol timeframe limit in
  match out.2 with
  | Some df =>
      out.1 = set_data (Some df) self ∧
      ∃ bars, exchange self symbol timeframe limit = Ok bars ∧
              length df = length bars - 1
  | None => out.1 = self
  end ∧
  (∀ e, exchange self symbol timeframe limit = Raise e → out.2 = None).
Proof.
  cbv zeta. unfold fetch_data.
  destruct (exchange self symbol timeframe limit) as [bars|e];
    cbn [mbind result_bind Py.bind]; [|done].
  destruct (to_datetime _) as [instants|e] eqn:Hinstants;
    cbn [mbind result_bind Py.bind fst snd]; [|done].
  split; [|done]. split; [done|]. exists bars. split; [done|].
  apply to_datetime_length in Hinstants.
  rewrite !length_map, all_but_last_length in Hinstants.
  rewrite length_zip_with, length_map, all_but_last_length. lia.
Qed.

(** X7. One turn of the loop of [run_bot].  When [fetch_data] returns
    [None] (the call of the exchange raised, or the frame could not be
    built), the turn changes nothing: no strategy runs, and the bot and
    the random generator are as before.  When it returns a frame, the bot
    holds that frame and records the signals of the strategies run on it.
    The position flag changes in a turn only when a frame was fetched, and
    then as the combined signal of this turn says: 'buy' while flat or
    'sell' while in position.  The exchange and the strategies of the bot
    are never changed. *)
Theorem run_bot_turn
    (self : TradingBotGUI.Self) (bot : Self)
    (symbol timeframe signal_mode : string) (rng : RandomState) :
  let fetched := (fetch_data bot symbol timeframe 100).2 in
  let out := TradingBotGUI.run_bot self bot symbol timeframe signal_mode rng in
  exchange out.1 = exchange bot ∧
  strategies out.1 = strategies bot ∧
  (fetched = None → out = (bot, rng)) ∧
  (∀ e, exchange bot symbol timeframe 100 = Raise e → out = (bot, rng)) ∧
  (∀ df, fetched = Some df →
     data out.1 = Some df ∧
     current_signals out.1 = entry_signal <$> results_of df rng (strategies bot) ∧
     out.2 = rng_after df (strategies bot) rng) ∧
  (in_position out.1 ≠ in_position bot →
     is_Some fetched ∧
     let combined_signal := get_combined_signal out.1 signal_mode in
     (combined_signal = buy ∧ in_position bot = false) ∨
     (combined_signal = sell ∧ in_position bot = true)).
Proof.
  cbv zeta. unfold TradingBotGUI.run_bot.
  destruct (fetch_data_returned bot symbol timeframe 100) as [Hreturned Hraise].
  destruct (fetch_data bot symbol timeframe 100) as [bot1 [df|]];
    cbn [fst snd] in *.
  2: { subst bot1. by split_and!. }
  destruct Hreturned as [-> _].
  rewrite (run_strategies_with_data (set_data (Some df) bot) df rng eq_refl).
  cbn [strategies set_data].
  set (results := results_of df rng (strategies bot)).
  set (bot2 := set_current_signals (entry_signal <$> results) (set_data (Some df) bot)).
  set (rng2 := rng_after df (strategies bot) rng).
  assert (∀ e, exchange bot symbol timeframe 100 = Raise e → False) as Hanswered.
  { intros e He. by specialize (Hraise e He). }
  destruct (_ ≫= _) as [combined|e] eqn:Hshow.
  2: { cbn. split_and!; try done; [by intros e' ?%Hanswered|by intros df' [= <-]]. }
  assert (combined = get_combined_signal bot2 signal_mode) as Hcombined.
  { revert Hshow. destruct (TradingBotGUI.update_charts self results); [|done].
    cbn [mbind result_bind Py.bind]. destruct (mapM _ _); [|done].
    cbn [mbind result_bind Py.bind].
    destruct (TradingBotGUI.update_signal_label self "Combined" _); [|done].
    cbn. by intros [= <-]. }
  case_bool_decide as Hin.
  2: { cbn. split_and!; try done; [by intros e' ?%Hanswered|by intros df' [= <-]]. }
  pose proof (execute_order_fields bot2 symbol combined (1 # 1000)) as [Hfields Hflip].
  destruct (execute_order bot2 symbol combined (1 # 1000)) as [bot3 ok].
  cbn [fst snd] in *. rewrite Hfields. cbn.
  split_and!; try done.
  - by intros e' ?%Hanswered.
  - by intros df' [= <-].
  - intros Hne. split; [done|].
    change (get_combined_signal (set_in_position _ bot2) signal_mode)
      with (get_combined_signal bot2 signal_mode).
    rewrite <- Hcombined. apply Hflip. by rewrite Hfields.
Qed.

End RunBot.

Section RunBotWitness.

Import TradingBot.

Lemma run_bot_turn_witness :
  let window :=
    {| TradingBotGUI.update_charts := λ _, Ok ();
       TradingBotGUI.update_signal_label := λ _ _, Ok () |} in
  let bot :=
    init Examples.exchange
      [ {| Strategy.name := "Funding Rate"; Strategy.is_active := true;
           Strategy.impl := Strategy.FundingRate Examples.funding_rate |} ] in
  let out :=
    @TradingBotGUI.run_bot Examples.sqrt_floor Examples.nanosecond_clock
      window bot "BTC/USDT" "1m" "any" Examples.constant in
  in_position out.1 = true ∧
  length <$> data out.1 = Some 2 ∧
  get_combined_signal out.1 "any" = buy.
Proof.
  intros window bot out.
  assert (in_position out.1 = true) as Hpos by (vm_compute; reflexivity).
  split; [done|].
  destruct (@run_bot_turn Examples.sqrt_floor Examples.nanosecond_clock
              window bot "BTC/USDT" "1m" "any" Examples.constant)
    as (_ & _ & _ & _ & Hdata & Hflip).
  destruct (Hdata _ eq_refl) as (Hdf & _ & _).
  split.
  - fold out in Hdf. rewrite Hdf. reflexivity.
  - fold out in Hflip. destruct Hflip as [_ [[Hb _]|[_ Hs]]].
    + rewrite Hpos. discriminate.
    + done.
    + discriminate Hs.
Defined.

End RunBotWitness.

(** ** The frames keep the series *)

Section ForwardColumns.

Context {R A : Type} (next : R → R → R) (col : R → A).

(** A column that [next] leaves alone is the same after the loop. *)
Lemma forward_fmap (rows : list R) :
  (∀ p c, col (next p c) = col c) →
  col <$> Scan.forward next rows = col <$> rows.
Proof.
  intros Hcol. destruct rows as [|r rows]; [done|]. cbn. f_equal.
  revert r. induction rows as [|c rows IH]; intros r; [done|].
  cbn. by rewrite Hcol, IH.
Qed.

End ForwardColumns.

Section FramesKeepSeries.

Context `{Sqrt}.

Lemma supertrend_candles (self : SupertrendStrategy.Self) (data : DataFrame) frame :
  SupertrendStrategy.calculate self data = Ok frame →
  SupertrendStrategy.candle <$> frame = data.
Proof.
  intros Hcalc.
  destruct (calculate_forward _ _ _ Hcalc) as (atr_col & Hatr & ->).
  rewrite forward_fmap by (intros p c; by destruct (next_same_shape p c)).
  apply rolling_length in Hatr. rewrite tr_length in Hatr.
  unfold SupertrendStrategy.bands. apply fmap_zip_with_l; [done|lia].
Qed.

Lemma golden_cross_candles (self : GoldenCrossStrategy.Self) (data : DataFrame) frame :
  GoldenCrossStrategy.calculate self data = Ok frame →
  GoldenCrossStrategy.candle <$> frame = data.
Proof.
  intros Hcalc.
  destruct (golden_cross_calculate_forward _ _ _ Hcalc) as (ma_s & ma_l & Hs & Hl & ->).
  rewrite forward_fmap by (intros p c; by destruct (golden_cross_next_same p c)).
  apply rolling_length in Hs, Hl. rewrite length_map in Hs, Hl.
  unfold GoldenCrossStrategy.averages. apply fmap_zip_with_l; [done|].
  rewrite length_zip_with. lia.
Qed.

Lemma bollinger_next_candle (p c : BollingerBandsStrategy.Row) :
  BollingerBandsStrategy.candle (BollingerBandsScan.next p c)
  = BollingerBandsStrategy.candle c.
Proof.
  unfold BollingerBandsScan.next. cbv zeta.
  by destruct (BollingerBandsStrategy.below_lower p && _),
       (BollingerBandsStrategy.above_upper p && _).
Qed.

Lemma bollinger_candles (self : BollingerBandsStrategy.Self) (data : DataFrame) frame :
  BollingerBandsStrategy.calculate self data = Ok frame →
  BollingerBandsStrategy.candle <$> frame = data.
Proof.
  intros Hcalc.
  destruct (bollinger_calculate_forward _ _ _ Hcalc) as (middle & sd & Hm & Hs & ->).
  rewrite forward_fmap by apply bollinger_next_candle.
  apply rolling_length in Hm, Hs. rewrite length_map in Hm, Hs.
  unfold BollingerBandsStrategy.bands. apply fmap_zip_with_l; [done|].
  rewrite length_zip_with. lia.
Qed.

Lemma funding_rate_candles (self : FundingRateStrategy.Self) (data : DataFrame) rng :
  FundingRateStrategy.candle <$> (FundingRateStrategy.calculate self data rng).1 = data.
Proof.
  unfold FundingRateStrategy.calculate.
  pose proof (normal_length 0 (5 # 10000) (length data) rng) as Hn.
  destruct (normal _ _ _ _) as [rates rng']. cbn [fst snd] in *.
  unfold FundingRateStrategy.signals. apply fmap_zip_with_l; [done|lia].
Qed.

(** X9. The frame [calculate] returns is the series with columns added: for
    each of the four strategies it has one row per candle, in the order of
    the series, and the candle of each row is unchanged. *)
Theorem calculate_keeps_the_series
    (self : Strategy.Self) (data : DataFrame) (rng : RandomState) (frame : Strategy.Frame) :
  (Strategy.calculate self data rng).1 = Ok frame →
  Frames.candles frame = data.
Proof.
  unfold Strategy.calculate.
  destruct (Strategy.impl self) as [s|s|s|s]; cbn [fst].
  - destruct (SupertrendStrategy.calculate s data) as [rows|] eqn:Hcalc; [|done].
    intros [= <-]. by apply (supertrend_candles s).
  - destruct (GoldenCrossStrategy.calculate s data) as [rows|] eqn:Hcalc; [|done].
    intros [= <-]. by apply (golden_cross_candles s).
  - destruct (BollingerBandsStrategy.calculate s data) as [rows|] eqn:Hcalc; [|done].
    intros [= <-]. by apply (bollinger_candles s).
  - pose proof (funding_rate_candles s data rng) as Hc.
    destruct (FundingRateStrategy.calculate s data rng) as [rows rng'].
    intros [= <-]. done.
Qed.

End FramesKeepSeries.

Lemma calculate_keeps_the_series_witness :
  let self :=
    {| Strategy.name := "Bollinger Bands"; Strategy.is_active := true;
       Strategy.impl :=
         Strategy.BollingerBands
           {| BollingerBandsStrategy.period := 2;
              BollingerBandsStrategy.num_std := 2 |} |} in
  ∃ frame,
    (@Strategy.calculate Examples.sqrt_floor self
       Examples.three_bars Examples.alternating).1 = Ok frame ∧
    Frames.candles frame = Examples.three_bars.
Proof.
  intros self.
  destruct (@Strategy.calculate Examples.sqrt_floor self
              Examples.three_bars Examples.alternating).1 as [frame|e] eqn:Hcalc.
  - exists frame. split; [done|].
    exact (@calculate_keeps_the_series Examples.sqrt_floor self Examples.three_bars
             Examples.alternating frame Hcalc).
  - vm_compute in Hcalc. discriminate Hcalc.
Defined.

(** ** Supertrend: the trend flag and what the signals mean *)

Section SupertrendTrend.

Import SupertrendStrategy.

Lemma next_trend (p c : Row) :
  in_uptrend (SupertrendScan.next p c) =
    if fgt (close_ c) (upperband p) then true
    else if flt (close_ c) (lowerband p) then false
    else in_uptrend p.
Proof.
  unfold SupertrendScan.next.
  destruct (fgt _ _); [done|]. destruct (flt (close_ c) _); [done|]. cbn.
  destruct (in_uptrend p); cbn.
  - by destruct (flt (lowerband c) _).
  - by destruct (fgt (upperband c) _).
Qed.

Lemma next_close (p c : Row) : close_ (SupertrendScan.next p c) = close_ c.
Proof. unfold close_. by destruct (next_same_shape p c) as (-> & _). Qed.

Lemma trend_flag_step (self : Self) (data : DataFrame) frame i p c :
  calculate self data = Ok frame →
  frame !! i = Some p → frame !! S i = Some c →
  in_uptrend c =
    if fgt (close_ c) (upperband p) then true
    else if flt (close_ c) (lowerband p) then false
    else in_uptrend p.
Proof.
  intros Hcalc Hp Hc.
  destruct (calculate_forward _ _ _ Hcalc) as (atr_col & Hatr & ->).
  destruct (forward_consecutive _ _ _ _ _ Hp Hc) as (c0 & _ & ->).
  by rewrite next_trend, next_close.
Qed.

(** X10. The trend flag of the frame [calculate] returns: the first bar is
    in uptrend; a later bar is in uptrend when its close is above the upper
    band of the bar before, in downtrend when (it is not and) its close is
    below the lower band of the bar before, and has the flag of the bar
    before otherwise.  The bands are the final ones of the frame. *)
Theorem supertrend_trend_flag (self : Self) (data : DataFrame) (frame : list Row) :
  calculate self data = Ok frame →
  (∀ r, frame !! 0 = Some r → in_uptrend r = true) ∧
  (∀ i p c, frame !! i = Some p → frame !! S i = Some c →
            in_uptrend c =
              if fgt (close_ c) (upperband p) then true
              else if flt (close_ c) (lowerband p) then false
              else in_uptrend p).
Proof.
  intros Hcalc. split.
  - destruct (calculate_forward _ _ _ Hcalc) as (atr_col & Hatr & ->).
    intros r Hr. rewrite forward_first in Hr.
    by apply bands_lookup in Hr as (_ & _ & _ & ?).
  - intros i p c. apply (trend_flag_step self data frame i p c Hcalc).
Qed.

Lemma supertrend_trend_flag_witness :
  ∃ frame c,
    calculate Examples.supertrend_1_1 Examples.fall_and_rise = Ok frame ∧
    frame !! 1 = Some c ∧ in_uptrend c = false.
Proof.
  eexists _, _. split; [vm_compute; reflexivity|]. split; [reflexivity|].
  refine (eq_trans (proj2 (supertrend_trend_flag Examples.supertrend_1_1
                             Examples.fall_and_rise _ _) 0 _ _ _ _) _).
  - vm_compute; reflexivity.
  - reflexivity.
  - reflexivity.
  - reflexivity.
Defined.

Lemma get_signal_last_two (frame : list Row) (i : nat) (p c : Row) :
  frame !! i = Some p → frame !! S i = Some c → length frame = S (S i) →
  get_signal frame =
    if negb (in_uptrend p) && in_uptrend c then buy
    else if in_uptrend p && negb (in_uptrend c) then sell
    else hold.
Proof.
  intros Hp Hc Hlen. unfold get_signal. rewrite Hlen.
  destruct (Z.ltb_spec (Z.of_nat (S (S i)) - 1 - 1) 0); [lia|].
  replace (Z.to_nat (Z.of_nat (S (S i)) - 1 - 1)) with i by lia.
  replace (Z.to_nat (Z.of_nat (S (S i)) - 1)) with (S i) by lia.
  by rewrite (cell_lookup _ _ _ _ Hp), (cell_lookup _ _ _ _ Hc).
Qed.

Lemma last_two {A} (l : list A) :
  2 ≤ length l →
  ∃ i p c, l !! i = Some p ∧ l !! S i = Some c ∧ length l = S (S i).
Proof.
  intros Hlen.
  destruct (lookup_lt_is_Some_2 l (length l - 2)) as [p Hp]; [lia|].
  destruct (lookup_lt_is_Some_2 l (S (length l - 2))) as [c Hc]; [lia|].
  exists (length l - 2), p, c. split; [done|]. split; [done|]. lia.
Qed.

(** X11. What a signal of Supertrend means, after [calculate]: Buy is
    returned exactly when the bar before the last is in downtrend and the
    last close is above its upper band; Sell exactly when the bar before
    the last is in uptrend and the last close is not above its upper band
    and is below its lower band. *)
Theorem supertrend_signal_is_a_breakout
    (self : Self) (data : DataFrame) (frame : list Row) :
  calculate self data = Ok frame →
  (get_signal frame = buy ↔
   ∃ i p c, frame !! i = Some p ∧ frame !! S i = Some c ∧ length frame = S (S i) ∧
            in_uptrend p = false ∧ fgt (close_ c) (upperband p) = true) ∧
  (get_signal frame = sell ↔
   ∃ i p c, frame !! i = Some p ∧ frame !! S i = Some c ∧ length frame = S (S i) ∧
            in_uptrend p = true ∧ fgt (close_ c) (upperband p) = false ∧
            flt (close_ c) (lowerband p) = true).
Proof.
  intros Hcalc.
  destruct (decide (2 ≤ length frame)) as [Hlen|Hlen].
  - destruct (last_two frame Hlen) as (i & p & c & Hp & Hc & Hi).
    pose proof (trend_flag_step _ _ _ _ _ _ Hcalc Hp Hc) as Hflag.
    rewrite (get_signal_last_two frame i p c Hp Hc Hi).
    split; split.
    + intros Hbuy. exists i, p, c. split_and!; try done.
      * by destruct (in_uptrend p), (in_uptrend c).
      * destruct (fgt (close_ c) (upperband p)); [done|].
        destruct (flt (close_ c) (lowerband p)); rewrite Hflag in Hbuy;
          by destruct (in_uptrend p).
    + intros (i' & p' & c' & Hp' & Hc' & Hi' & Hdown & Hgt).
      assert (i' = i) as -> by lia. simplify_eq.
      rewrite Hflag, Hgt, Hdown. done.
    + intros Hsell. exists i, p, c.
      assert (in_uptrend p = true ∧ in_uptrend c = false) as [Hup Hdown]
        by (by destruct (in_uptrend p), (in_uptrend c)).
      split_and!; try done.
      * rewrite Hdown in Hflag. by destruct (fgt (close_ c) (upperband p)).
      * rewrite Hdown, Hup in Hflag.
        destruct (fgt (close_ c) (upperband p)); [done|].
        by destruct (flt (close_ c) (lowerband p)).
    + intros (i' & p' & c' & Hp' & Hc' & Hi' & Hup & Hgt & Hlt).
      assert (i' = i) as -> by lia. simplify_eq.
      rewrite Hflag, Hgt, Hlt, Hup. done.
  - rewrite supertrend_get_signal_short_frame by lia.
    split; (split; [done|]); intros (i & p & c & _ & _ & Hi & _); lia.
Qed.

Lemma supertrend_signal_witness :
  ∃ frame,
    calculate Examples.supertrend_1_1 Examples.fall_and_rise = Ok frame ∧
    get_signal frame = buy.
Proof.
  eexists. split; [vm_compute; reflexivity|].
  apply (proj1 (supertrend_signal_is_a_breakout Examples.supertrend_1_1
                  Examples.fall_and_rise _ ltac:(vm_compute; reflexivity))).
  eexists 1, _, _. by split_and!.
Defined.

(** X12. The bands and the ATR of the frame are numbers exactly from bar
    [period - 1] on, for a period of at least one bar; with a period of
    zero they are NaN on every bar. *)
Theorem supertrend_bands_defined
    (self : Self) (data : DataFrame) (frame : list Row) (i : nat) (r : Row) :
  calculate self data = Ok frame → frame !! i = Some r →
  (defined (atr_ r) ↔ (1 ≤ period self ≤ Z.of_nat i + 1)%Z) ∧
  (defined (upperband r) ↔ (1 ≤ period self ≤ Z.of_nat i + 1)%Z) ∧
  (defined (lowerband r) ↔ (1 ≤ period self ≤ Z.of_nat i + 1)%Z).
Proof.
  intros Hcalc Hr.
  destruct (calculate_forward _ _ _ Hcalc) as (atr_col & Hatr & ->).
  destruct (calculate_row _ _ _ _ _ Hatr Hr) as [Hu Hl].
  split; [|done].
  destruct (forward_pointwise SupertrendScan.next SupertrendScan.same_shape)
    with (data := bands self data atr_col) (i := i) (a := r)
    as (r0 & Hr0 & _ & -> & _); [done|apply next_same_shape|done|].
  apply bands_lookup in Hr0 as (Ha & _).
  apply (atr_defined _ _ _ _ _ Hatr Ha).
Qed.

Lemma supertrend_bands_defined_witness :
  ∃ frame r,
    calculate Examples.supertrend_2_1 Examples.fall_and_rise = Ok frame ∧
    frame !! 1 = Some r ∧ defined (lowerband r).
Proof.
  eexists _, _. split; [vm_compute; reflexivity|]. split; [reflexivity|].
  apply (proj2 (proj2 (supertrend_bands_defined Examples.supertrend_2_1
                         Examples.fall_and_rise _ 1 _
                         ltac:(vm_compute; reflexivity) eq_refl))).
  cbn. lia.
Defined.

End SupertrendTrend.

(** ** Supertrend: the True Range *)

Section TrueRange.

Import SupertrendStrategy.

Lemma shift1_lookup_0 (xs : list float) : 0 < length xs → shift1 xs !! 0 = Some nan.
Proof. destruct xs; cbn; [lia|done]. Qed.

Lemma shift1_lookup_S (xs : list float) (j : nat) :
  S j < length xs → shift1 xs !! S j = xs !! j.
Proof.
  intros Hj. destruct xs as [|x xs]; [cbn in Hj; lia|].
  unfold shift1. cbn [lookup list_lookup length]. apply lookup_take_lt.
  cbn [length] in *. lia.
Qed.

Lemma Qle_bool_false (a b : Q) : Qle_bool a b = false → (b <= a)%Q.
Proof.
  intros Hab. apply Qlt_le_weak, Qnot_le_lt. intros Hle.
  apply Qle_bool_iff in Hle. congruence.
Qed.

(** The greater of two numbers. *)
Lemma nanmax2_spec (a b : Q) :
  ∃ m, nanmax2 (Some a) (Some b) = Some m ∧
       (a <= m)%Q ∧ (b <= m)%Q ∧ (m = a ∨ m = b).
Proof.
  cbn. destruct (Qle_bool a b) eqn:Hab.
  - exists b. split_and!; [done| |apply Qle_refl|by right].
    by apply Qle_bool_iff.
  - exists a. split_and!; [done|apply Qle_refl| |by left].
    by apply Qle_bool_false.
Qed.

Lemma row_max3 (a b c : Q) :
  ∃ m, row_max [Some a; Some b; Some c] = Some m ∧
       (a <= m)%Q ∧ (b <= m)%Q ∧ (c <= m)%Q ∧ (m = a ∨ m = b ∨ m = c).
Proof.
  unfold row_max. cbn [foldr]. change (nanmax2 (Some c) nan) with (Some c).
  destruct (nanmax2_spec b c) as (m1 & -> & Hb & Hc & Hor1).
  destruct (nanmax2_spec a m1) as (m & -> & Ha & Hm1 & Hor).
  exists m. split; [done|]. split; [done|].
  split; [by eapply Qle_trans|]. split; [by eapply Qle_trans|].
  destruct Hor as [->| ->]; [by left|]. destruct Hor1 as [->| ->]; auto.
Qed.

Lemma tr_lookup (data : DataFrame) (i : nat) (c : Candle) :
  data !! i = Some c →
  ∃ pc, shift1 (map (λ c, fl (close c)) data) !! i = Some pc ∧
        tr data !! i =
          Some (row_max [fabs (fsub (fl (high c)) (fl (low c)));
                         fabs (fsub (fl (high c)) pc);
                         fabs (fsub (fl (low c)) pc)]).
Proof.
  intros Hc. pose proof (lookup_lt_Some _ _ _ Hc) as Hi.
  destruct (lookup_lt_is_Some_2 (shift1 (map (λ c, fl (close c)) data)) i) as [pc Hpc].
  { by rewrite shift1_length, length_map. }
  exists pc. split; [done|]. unfold tr.
  apply lookup_zip_with_Some.
  exists (fabs (fsub (fl (high c)) (fl (low c)))),
         (fabs (fsub (fl (high c)) pc), fabs (fsub (fl (low c)) pc)).
  split; [done|]. split.
  - by rewrite list_lookup_fmap, Hc.
  - apply lookup_zip_with_Some. eexists _, _. split; [done|].
    split; apply lookup_zip_with_Some; by eexists _, _.
Qed.

(** X13. The True Range has one value per bar, never NaN.  On the first
    bar it is [|high - low|]; on a later bar it is the greatest of
    [|high - low|], [|high - previous close|] and [|low - previous close|]:
    one of the three, and at least each of them. *)
Theorem true_range_is_the_greatest_range (data : DataFrame) :
  length (tr data) = length data ∧
  (∀ c, data !! 0 = Some c →
        tr data !! 0 = Some (fl (Qabs (high c - low c)))) ∧
  (∀ j p c, data !! j = Some p → data !! S j = Some c →
     ∃ q, tr data !! S j = Some (fl q) ∧
          (Qabs (high c - low c) <= q)%Q ∧
          (Qabs (high c - close p) <= q)%Q ∧
          (Qabs (low c - close p) <= q)%Q ∧
          (q = Qabs (high c - low c) ∨ q = Qabs (high c - close p)
           ∨ q = Qabs (low c - close p))).
Proof.
  split; [apply tr_length|]. split.
  - intros c Hc. destruct (tr_lookup data 0 c Hc) as (pc & Hpc & ->).
    rewrite shift1_lookup_0 in Hpc by (rewrite length_map; by eapply lookup_lt_Some).
    by simplify_eq.
  - intros j p c Hp Hc. destruct (tr_lookup data (S j) c Hc) as (pc & Hpc & ->).
    rewrite shift1_lookup_S in Hpc by (rewrite length_map; by eapply lookup_lt_Some).
    rewrite list_lookup_fmap, Hp in Hpc. cbn in Hpc. simplify_eq.
    destruct (row_max3 (Qabs (high c - low c)) (Qabs (high c - close p))
                (Qabs (low c - close p))) as (m & Hm & Hbounds).
    exists m. split; [|done]. f_equal. exact Hm.
Qed.

End TrueRange.

(** ** Golden Cross: the events *)

Section GoldenCrossEvents.

Import GoldenCrossStrategy.

Lemma closes_defined (data : DataFrame) :
  Forall defined (map (λ c, fl (close c)) data).
Proof. apply Forall_fmap, Forall_true. done. Qed.

Lemma flt_irrefl (x : float) : flt x x = false.
Proof.
  destruct x as [a|]; [|done]. cbn. unfold Qlt_bool.
  by rewrite (proj2 (Qle_bool_iff a a) (Qle_refl a)).
Qed.

Lemma fle_not_fgt (x y : float) : fle x y && fgt x y = false.
Proof.
  destruct x as [a|], y as [b|]; try done. cbn. unfold Qlt_bool.
  by destruct (Qle_bool a b).
Qed.

Lemma flt_asym (x y : float) : flt x y && flt y x = false.
Proof.
  destruct x as [a|], y as [b|]; try done. cbn. unfold Qlt_bool.
  destruct (Qle_bool b a) eqn:Hba; [done|].
  destruct (Qle_bool a b) eqn:Hab; [done|].
  apply Qle_bool_false in Hba. apply Qle_bool_iff in Hba. congruence.
Qed.

(** X14. The events of the frame [calculate] returns.  A bar is a golden
    cross exactly when it has a bar before it on which the short average
    was less than or equal to the long one, and on the bar itself the short
    average is greater than the long one; a death cross exactly when the
    short average was greater than or equal to the long one before and is
    less on the bar.  Each average is a number exactly from bar
    [period - 1] on, for a period of at least one bar. *)
Theorem golden_cross_events
    (self : Self) (data : DataFrame) (frame : list Row) (i : nat) (r : Row) :
  calculate self data = Ok frame → frame !! i = Some r →
  (golden_cross r = true ↔
   ∃ j p, i = S j ∧ frame !! j = Some p ∧
          fle (ma_short p) (ma_long p) = true ∧
          fgt (ma_short r) (ma_long r) = true) ∧
  (death_cross r = true ↔
   ∃ j p, i = S j ∧ frame !! j = Some p ∧
          fge (ma_short p) (ma_long p) = true ∧
          flt (ma_short r) (ma_long r) = true) ∧
  (defined (ma_short r) ↔ (1 ≤ short_period self ≤ Z.of_nat i + 1)%Z) ∧
  (defined (ma_long r) ↔ (1 ≤ long_period self ≤ Z.of_nat i + 1)%Z).
Proof.
  intros Hcalc Hr.
  pose proof (golden_cross_flags _ _ _ _ _ Hcalc Hr) as Hflags.
  destruct (golden_cross_row_averages _ _ _ _ _ Hcalc Hr)
    as (ma_s & ma_l & Hs & Hl & Hrs & Hrl).
  split_and!.
  - destruct i as [|j].
    + destruct Hflags as [-> _]. split; [done|]. by intros (j & p & [=] & _).
    + destruct Hflags as (p & Hp & -> & _). rewrite andb_true_iff. split.
      * intros [??]. by exists j, p.
      * intros (j' & p' & [= <-] & Hp' & ? & ?). by simplify_eq.
  - destruct i as [|j].
    + destruct Hflags as [_ ->]. split; [done|]. by intros (j & p & [=] & _).
    + destruct Hflags as (p & Hp & _ & ->). rewrite andb_true_iff. split.
      * intros [??]. by exists j, p.
      * intros (j' & p' & [= <-] & Hp' & ? & ?). by simplify_eq.
  - apply (rolling_mean_defined _ _ _ _ _ (closes_defined data) Hs Hrs).
  - apply (rolling_mean_defined _ _ _ _ _ (closes_defined data) Hl Hrl).
Qed.

Lemma golden_cross_events_witness :
  ∃ frame r,
    calculate Examples.golden_cross_1_2 Examples.dip = Ok frame ∧
    frame !! 2 = Some r ∧ golden_cross r = true.
Proof.
  eexists _, _. split; [vm_compute; reflexivity|]. split; [reflexivity|].
  apply (proj1 (golden_cross_events Examples.golden_cross_1_2 Examples.dip _ 2 _
                  ltac:(vm_compute; reflexivity) eq_refl)).
  eexists 1, _. by split_and!.
Defined.

(** X15. The events keep apart: no bar is both a golden cross and a death
    cross, and neither event occurs on two consecutive bars. *)
Theorem golden_cross_events_apart
    (self : Self) (data : DataFrame) (frame : list Row) :
  calculate self data = Ok frame →
  (∀ i r, frame !! i = Some r → golden_cross r && death_cross r = false) ∧
  (∀ i p c, frame !! i = Some p → frame !! S i = Some c →
            golden_cross p && golden_cross c = false ∧
            death_cross p && death_cross c = false).
Proof.
  intros Hcalc. split.
  - intros i r Hr.
    pose proof (golden_cross_flags _ _ _ _ _ Hcalc Hr) as Hflags.
    destruct i as [|j]; [by destruct Hflags as [-> _]|].
    destruct Hflags as (p & _ & -> & ->).
    pose proof (flt_asym (ma_short r) (ma_long r)) as Hasym. unfold fgt.
    destruct (flt (ma_long r) (ma_short r)), (flt (ma_short r) (ma_long r));
      try done; by rewrite ?andb_false_r.
  - intros i p c Hp Hc.
    pose proof (golden_cross_flags _ _ _ _ _ Hcalc Hc) as (p' & Hp' & Hgc & Hdc).
    simplify_eq. rewrite Hgc, Hdc.
    pose proof (golden_cross_flags _ _ _ _ _ Hcalc Hp) as Hflags.
    destruct i as [|j].
    + by destruct Hflags as [-> ->].
    + destruct Hflags as (q & _ & -> & ->).
      pose proof (fle_not_fgt (ma_short p) (ma_long p)) as H1.
      pose proof (fle_not_fgt (ma_long p) (ma_short p)) as H2.
      unfold fgt, fge in *. split.
      * destruct (fle (ma_short p) (ma_long p)), (flt (ma_long p) (ma_short p));
          try done; by rewrite ?andb_false_r.
      * destruct (fle (ma_long p) (ma_short p)), (flt (ma_short p) (ma_long p));
          try done; by rewrite ?andb_false_r.
Qed.

Lemma golden_cross_events_apart_witness :
  ∃ frame r,
    calculate Examples.golden_cross_1_2 Examples.three_bars = Ok frame ∧
    frame !! 2 = Some r ∧ death_cross r = true ∧ golden_cross r = false.
Proof.
  eexists _, _. split; [vm_compute; reflexivity|]. split; [reflexivity|].
  split; [reflexivity|].
  pose proof (proj1 (golden_cross_events_apart Examples.golden_cross_1_2
                       Examples.three_bars _ ltac:(vm_compute; reflexivity))
                2 _ eq_refl) as Hapart.
  by apply andb_false_iff in Hapart as [?|?].
Defined.

(** X16. With the two periods equal, the two averages are one column and
    never cross: no bar of the frame is an event and [get_signal] returns
    Hold on every non-empty series. *)
Theorem golden_cross_equal_periods
    (self : Self) (data : DataFrame) (frame : list Row) :
  short_period self = long_period self →
  calculate self data = Ok frame →
  (∀ i r, frame !! i = Some r → ma_short r = ma_long r ∧ GoldenCrossScan.no_event r) ∧
  (0 < length data → get_signal frame = Ok hold).
Proof.
  intros Hperiods Hcalc.
  assert (∀ i r, frame !! i = Some r → ma_short r = ma_long r) as Hsame.
  { intros i r Hr.
    destruct (golden_cross_row_averages _ _ _ _ _ Hcalc Hr)
      as (ma_s & ma_l & Hs & Hl & Hrs & Hrl).
    rewrite Hperiods, Hl in Hs. simplify_eq. congruence. }
  assert (∀ i r, frame !! i = Some r → GoldenCrossScan.no_event r) as Hnone.
  { intros i r Hr.
    pose proof (golden_cross_flags _ _ _ _ _ Hcalc Hr) as Hflags.
    destruct i as [|j]; [done|].
    destruct Hflags as (p & _ & Hg & Hd). split.
    - rewrite Hg, (Hsame _ _ Hr). unfold fgt. by rewrite flt_irrefl, andb_false_r.
    - rewrite Hd, (Hsame _ _ Hr). by rewrite flt_irrefl, andb_false_r. }
  split; [by eauto|].
  intros Hne. pose proof (golden_cross_frame_length _ _ _ Hcalc) as Hlen.
  destruct (snoc_of_length frame) as (rows & r & -> & _); [lia|].
  apply get_signal_no_event. apply (Hnone (length rows)).
  by rewrite lookup_app_r, Nat.sub_diag by lia.
Qed.

Lemma golden_cross_equal_periods_witness :
  ∃ frame,
    calculate {| short_period := 2; long_period := 2 |} Examples.dip = Ok frame ∧
    get_signal frame = Ok hold.
Proof.
  eexists. split; [vm_compute; reflexivity|].
  apply (proj2 (golden_cross_equal_periods {| short_period := 2; long_period := 2 |}
                  Examples.dip _ eq_refl ltac:(vm_compute; reflexivity))).
  cbn. lia.
Defined.

End GoldenCrossEvents.

(** ** Bollinger Bands: the bands and the signals *)

Section RollingStd.

Context `{Sqrt}.

Lemma std_defined (qs : list Q) : defined (std qs) ↔ 2 ≤ length qs.
Proof.
  unfold std, defined. destruct qs as [|q [|q' qs]]; cbn; split; try done; lia.
Qed.

Lemma rolling_std_defined (period : Z) xs col i x :
  Forall defined xs →
  rolling_std period xs = Ok col → col !! i = Some x →
  defined x ↔ (2 ≤ period ≤ Z.of_nat i + 1)%Z.
Proof.
  intros Hxs Hcol Hx.
  pose proof (rolling_period _ _ _ _ Hcol) as Hp.
  destruct (rolling_lookup _ _ _ _ _ _ Hcol Hx) as [-> Hi].
  destruct (decide (Z.to_nat period ≤ i + 1)) as [Hw|Hw].
  - destruct (window_full _ _ _ Hxs Hw Hi) as (qs & -> & Hlen). cbn.
    rewrite std_defined. lia.
  - rewrite window_short by lia. cbn. split; [done|lia].
Qed.

End RollingStd.

Section BollingerBandsSignals.

Import BollingerBandsStrategy.
Context `{Sqrt}.

Lemma bollinger_next_columns (p c : Row) :
  BollingerBandsColumns.columns (BollingerBandsScan.next p c) = BollingerBandsColumns.columns c.
Proof.
  unfold BollingerBandsScan.next. cbv zeta.
  destruct (below_lower p && negb (below_lower c));
    cbn [below_lower above_upper set_bb_buy_signal];
    by destruct (above_upper p && negb (above_upper c)).
Qed.

Lemma bollinger_next_signals (p c : Row) :
  bb_buy_signal c = false → bb_sell_signal c = false →
  bb_buy_signal (BollingerBandsScan.next p c)
    = below_lower p && negb (below_lower c) ∧
  bb_sell_signal (BollingerBandsScan.next p c)
    = above_upper p && negb (above_upper c).
Proof.
  intros Hb Hs. unfold BollingerBandsScan.next. cbv zeta.
  destruct (below_lower p && negb (below_lower c)) eqn:Hbuy;
    cbn [below_lower above_upper set_bb_buy_signal];
    destruct (above_upper p && negb (above_upper c)) eqn:Hsell; by cbn.
Qed.

Lemma bollinger_bands_row (self : Self) (data : DataFrame) middle sd i r :
  bands self data middle sd !! i = Some r →
  data !! i = Some (candle r) ∧
  middle !! i = Some (bb_middle r) ∧ sd !! i = Some (bb_std r) ∧
  bb_upper r = fadd (bb_middle r) (fmul (bb_std r) (fl (num_std self))) ∧
  bb_lower r = fsub (bb_middle r) (fmul (bb_std r) (fl (num_std self))) ∧
  above_upper r = fgt (fl (close (candle r))) (bb_upper r) ∧
  below_lower r = flt (fl (close (candle r))) (bb_lower r).
Proof.
  unfold bands. intros Hr.
  apply lookup_zip_with_Some in Hr as (k & [m s] & -> & Hk & Hm).
  apply lookup_zip_with_Some in Hm as (m' & s' & [= <- <-] & Hmid & Hsd).
  by split_and!.
Qed.

(** A row of the frame has the columns of the row computed before the
    loop. *)
Lemma bollinger_frame_row (self : Self) (data : DataFrame) middle sd i r :
  Scan.forward BollingerBandsScan.next (bands self data middle sd) !! i = Some r →
  ∃ r0, bands self data middle sd !! i = Some r0 ∧
        BollingerBandsColumns.columns r = BollingerBandsColumns.columns r0.
Proof.
  intros Hr.
  destruct (forward_pointwise BollingerBandsScan.next
              (λ r0 r, BollingerBandsColumns.columns r = BollingerBandsColumns.columns r0))
    with (data := bands self data middle sd) (i := i) (a := r)
    as (r0 & Hr0 & Hcols); [done|apply bollinger_next_columns|done|].
  by exists r0.
Qed.

Lemma bollinger_flags (self : Self) (data : DataFrame) frame i r :
  calculate self data = Ok frame → frame !! i = Some r →
  match i with
  | 0 => bb_buy_signal r = false ∧ bb_sell_signal r = false
  | S j =>
      ∃ p, frame !! j = Some p ∧
           bb_buy_signal r = below_lower p && negb (below_lower r) ∧
           bb_sell_signal r = above_upper p && negb (above_upper r)
  end.
Proof.
  intros Hcalc Hr.
  destruct (bollinger_calculate_forward _ _ _ Hcalc) as (middle & sd & _ & _ & ->).
  destruct i as [|j].
  - rewrite forward_first in Hr.
    by apply bollinger_bands_lookup in Hr as (_ & _ & ? & ?).
  - destruct (lookup_lt_is_Some_2 (Scan.forward BollingerBandsScan.next
                                     (bands self data middle sd)) j) as [p Hp].
    { apply lookup_lt_Some in Hr. lia. }
    exists p. split; [done|].
    destruct (forward_consecutive _ _ _ _ _ Hp Hr) as (r0 & Hr0 & ->).
    apply bollinger_bands_lookup in Hr0 as (_ & _ & Hb & Hs).
    destruct (bollinger_next_signals p r0 Hb Hs) as [-> ->].
    pose proof (bollinger_next_columns p r0) as [= _ _ _ _ _ -> ->].
    done.
Qed.

Lemma bollinger_get_signal_last (rows : list Row) (r : Row) :
  get_signal (rows ++ [r]) =
    Ok (if bb_buy_signal r then buy else if bb_sell_signal r then sell else hold).
Proof.
  unfold get_signal, iloc_last. rewrite last_snoc. cbn.
  by destruct (bb_buy_signal r), (bb_sell_signal r).
Qed.

(** The columns of a row of the frame, by the series and the rolling
    mean and standard deviation of its closes. *)
Lemma bollinger_row_columns
    (self : Self) (data : DataFrame) (middle sd : list float) frame i r :
  rolling_mean (period self) (map (λ c, fl (close c)) data) = Ok middle →
  rolling_std (period self) (map (λ c, fl (close c)) data) = Ok sd →
  calculate self data = Ok frame → frame !! i = Some r →
  data !! i = Some (candle r) ∧
  middle !! i = Some (bb_middle r) ∧ sd !! i = Some (bb_std r) ∧
  bb_upper r = fadd (bb_middle r) (fmul (bb_std r) (fl (num_std self))) ∧
  bb_lower r = fsub (bb_middle r) (fmul (bb_std r) (fl (num_std self))) ∧
  above_upper r = fgt (fl (close (candle r))) (bb_upper r) ∧
  below_lower r = flt (fl (close (candle r))) (bb_lower r).
Proof.
  intros Hm Hs Hcalc Hr.
  destruct (bollinger_calculate_forward _ _ _ Hcalc) as (middle' & sd' & Hm' & Hs' & ->).
  rewrite Hm in Hm'. rewrite Hs in Hs'. simplify_eq.
  destruct (bollinger_frame_row _ _ _ _ _ _ Hr) as (r0 & Hr0 & Hcols).
  injection Hcols as -> -> -> -> -> -> ->.
  by apply (bollinger_bands_row self).
Qed.

(** X17. The signals of the frame [calculate] returns are re-entries.  The
    frame has the candles of the series, the rolling mean and standard
    deviation of their closes, and the bands [num_std] standard deviations
    above and below the mean.  A bar carries the buy signal exactly when
    the close of the bar before it was below the lower band of that bar
    and its own close is not below its own lower band; it carries the sell
    signal exactly when the close of the bar before it was above the upper
    band of that bar and its own close is not above its own upper band;
    the first bar carries none.  [get_signal] reads the last bar: Buy for a
    buy signal, Sell for a sell signal without a buy signal, Hold
    otherwise. *)
Theorem bollinger_signals_are_reentries
    (self : Self) (data : DataFrame) (frame : list Row) :
  calculate self data = Ok frame →
  let closes := map (λ c, fl (close c)) data in
  let price (r : Row) := fl (close (candle r)) in
  (∃ middle sd,
     rolling_mean (period self) closes = Ok middle ∧
     rolling_std (period self) closes = Ok sd ∧
     ∀ i r, frame !! i = Some r →
       data !! i = Some (candle r) ∧
       middle !! i = Some (bb_middle r) ∧ sd !! i = Some (bb_std r) ∧
       bb_upper r = fadd (bb_middle r) (fmul (bb_std r) (fl (num_std self))) ∧
       bb_lower r = fsub (bb_middle r) (fmul (bb_std r) (fl (num_std self)))) ∧
  (∀ i r, frame !! i = Some r →
     (bb_buy_signal r = true ↔
      ∃ j p, i = S j ∧ frame !! j = Some p ∧
             flt (price p) (bb_lower p) = true ∧
             flt (price r) (bb_lower r) = false) ∧
     (bb_sell_signal r = true ↔
      ∃ j p, i = S j ∧ frame !! j = Some p ∧
             fgt (price p) (bb_upper p) = true ∧
             fgt (price r) (bb_upper r) = false)) ∧
  (∀ r, last frame = Some r →
     get_signal frame =
       Ok (if bb_buy_signal r then buy
           else if bb_sell_signal r then sell else hold)).
Proof.
  intros Hcalc closes price.
  destruct (bollinger_calculate_forward _ _ _ Hcalc) as (middle & sd & Hm & Hs & _).
  pose proof (bollinger_row_columns self data middle sd frame) as Hcolumns.
  split; [|split].
  - exists middle, sd. split; [done|]. split; [done|]. intros i r Hr.
    destruct (Hcolumns i r Hm Hs Hcalc Hr) as (? & ? & ? & ? & ? & _).
    by split_and!.
  - intros i r Hr.
    pose proof (bollinger_flags _ _ _ _ _ Hcalc Hr) as Hflags.
    destruct (Hcolumns i r Hm Hs Hcalc Hr) as (_ & _ & _ & _ & _ & Hra & Hrb).
    destruct i as [|j].
    + destruct Hflags as [-> ->].
      split; (split; [done|]); by intros (j & p & [=] & _).
    + destruct Hflags as (p & Hp & -> & ->).
      destruct (Hcolumns j p Hm Hs Hcalc Hp) as (_ & _ & _ & _ & _ & Hpa & Hpb).
      rewrite Hra, Hrb, Hpa, Hpb. fold (price r) (price p).
      rewrite !andb_true_iff, !negb_true_iff. split; split.
      * intros [??]. by exists j, p.
      * intros (j' & p' & [= <-] & Hp' & ? & ?). by simplify_eq.
      * intros [??]. by exists j, p.
      * intros (j' & p' & [= <-] & Hp' & ? & ?). by simplify_eq.
  - intros r Hlast. apply last_Some in Hlast as [rows ->].
    apply bollinger_get_signal_last.
Qed.

(** The standard deviation of a row of the frame; without it the close is
    on neither side of the bands. *)
Lemma bollinger_std_row (self : Self) (data : DataFrame) frame i r :
  calculate self data = Ok frame → frame !! i = Some r →
  (defined (bb_std r) ↔ (2 ≤ period self ≤ Z.of_nat i + 1)%Z) ∧
  (bb_std r = nan → above_upper r = false ∧ below_lower r = false).
Proof.
  intros Hcalc Hr.
  destruct (bollinger_calculate_forward _ _ _ Hcalc) as (middle & sd & _ & Hs & ->).
  destruct (bollinger_frame_row _ _ _ _ _ _ Hr) as (r0 & Hr0 & Hcols).
  injection Hcols as _ _ -> _ _ -> ->.
  destruct (bollinger_bands_row _ _ _ _ _ _ Hr0)
    as (_ & _ & Hsd & Hup & Hlo & -> & ->).
  split; [apply (rolling_std_defined _ _ _ _ _ (closes_defined data) Hs Hsd)|].
  intros Hnan. rewrite Hup, Hlo, Hnan.
  by destruct (bb_middle r0).
Qed.

(** X18. The bands of the frame: the middle band is a number exactly from
    bar [period - 1] on for a period of at least one bar, the standard
    deviation and the two bands exactly from bar [period - 1] on for a
    period of at least two bars; on every other bar the close is neither
    above the upper band nor below the lower band.  The bands are the
    middle band plus and minus [num_std] standard deviations. *)
Theorem bollinger_bands_defined
    (self : Self) (data : DataFrame) (frame : list Row) (i : nat) (r : Row) :
  calculate self data = Ok frame → frame !! i = Some r →
  (defined (bb_middle r) ↔ (1 ≤ period self ≤ Z.of_nat i + 1)%Z) ∧
  (defined (bb_std r) ↔ (2 ≤ period self ≤ Z.of_nat i + 1)%Z) ∧
  (defined (bb_upper r) ↔ (2 ≤ period self ≤ Z.of_nat i + 1)%Z) ∧
  (defined (bb_lower r) ↔ (2 ≤ period self ≤ Z.of_nat i + 1)%Z) ∧
  bb_upper r = fadd (bb_middle r) (fmul (bb_std r) (fl (num_std self))) ∧
  bb_lower r = fsub (bb_middle r) (fmul (bb_std r) (fl (num_std self))) ∧
  (¬ (2 ≤ period self ≤ Z.of_nat i + 1)%Z →
   above_upper r = false ∧ below_lower r = false).
Proof.
  intros Hcalc Hr.
  destruct (bollinger_calculate_forward _ _ _ Hcalc) as (middle & sd & Hm & Hs & ->).
  destruct (bollinger_frame_row _ _ _ _ _ _ Hr) as (r0 & Hr0 & Hcols).
  injection Hcols as Hc Hmid Hsd Hup Hlo Habove Hbelow.
  rewrite Hmid, Hsd, Hup, Hlo, Habove, Hbelow. clear Hc Hmid Hsd Hup Hlo Habove Hbelow.
  destruct (bollinger_bands_row _ _ _ _ _ _ Hr0)
    as (_ & Hmid & Hsd & Hup & Hlo & Habove & Hbelow).
  pose proof (rolling_mean_defined _ _ _ _ _ (closes_defined data) Hm Hmid) as Hdm.
  pose proof (rolling_std_defined _ _ _ _ _ (closes_defined data) Hs Hsd) as Hds.
  assert (defined (bb_upper r0) ↔ (2 ≤ period self ≤ Z.of_nat i + 1)%Z) as Hdu.
  { rewrite Hup, <- Hds. unfold defined in *.
    destruct (bb_middle r0), (bb_std r0); cbn; split; try done.
    intros _. exfalso. apply (proj2 Hdm); [|done]. destruct Hds as [Hds _].
    specialize (Hds ltac:(done)). lia. }
  assert (defined (bb_lower r0) ↔ (2 ≤ period self ≤ Z.of_nat i + 1)%Z) as Hdl.
  { rewrite Hlo, <- Hds. unfold defined in *.
    destruct (bb_middle r0), (bb_std r0); cbn; split; try done.
    intros _. exfalso. apply (proj2 Hdm); [|done]. destruct Hds as [Hds _].
    specialize (Hds ltac:(done)). lia. }
  split_and!; try done.
  intros Hnot. rewrite Habove, Hbelow. unfold defined in *.
  destruct (bb_upper r0) as [u|]; [by destruct Hnot; apply Hdu|].
  destruct (bb_lower r0) as [l|]; [by destruct Hnot; apply Hdl|].
  done.
Qed.

(** X19. With a period of 0 or 1 the standard deviation of every window is
    NaN ([ddof=1]): no bar of the frame carries a signal and [get_signal]
    returns Hold on every non-empty series. *)
Theorem bollinger_period_below_two
    (self : Self) (data : DataFrame) (frame : list Row) :
  (period self < 2)%Z →
  calculate self data = Ok frame →
  (∀ i r, frame !! i = Some r →
          bb_std r = nan ∧ bb_buy_signal r = false ∧ bb_sell_signal r = false) ∧
  (0 < length data → get_signal frame = Ok hold).
Proof.
  intros Hperiod Hcalc.
  assert (∀ i r, frame !! i = Some r →
                 bb_std r = nan ∧ above_upper r = false ∧ below_lower r = false)
    as Hinside.
  { intros i r Hr.
    destruct (bollinger_std_row _ _ _ _ _ Hcalc Hr) as [Hsd Hin].
    assert (bb_std r = nan) as Hnan; [|by split; [|apply Hin]].
    destruct (bb_std r) eqn:Hstd; [|done].
    destruct Hsd as [Hsd _]. specialize (Hsd ltac:(done)). lia. }
  assert (∀ i r, frame !! i = Some r →
                 bb_buy_signal r = false ∧ bb_sell_signal r = false) as Hnone.
  { intros i r Hr. apply (bollinger_no_signal _ _ _ _ _ Hcalc Hr).
    destruct i as [|j]; [by left|right]. cbn. rewrite Nat.sub_0_r.
    destruct (lookup_lt_is_Some_2 frame j) as [p Hp].
    { apply lookup_lt_Some in Hr. lia. }
    exists p. split; [done|].
    by destruct (Hinside _ _ Hp) as (_ & -> & ->). }
  split.
  - intros i r Hr. destruct (Hinside _ _ Hr) as [-> _]. split; [done|]. by eapply Hnone.
  - intros Hne. pose proof (bollinger_frame_length _ _ _ Hcalc) as Hlen.
    destruct (snoc_of_length frame) as (rows & r & -> & _); [lia|].
    destruct (Hnone (length rows) r) as [Hb Hs].
    { by rewrite lookup_app_r, Nat.sub_diag by lia. }
    by apply bollinger_get_signal_none.
Qed.

End BollingerBandsSignals.

Section BollingerBandsWitnesses.

Import BollingerBandsStrategy.

Lemma bollinger_signals_witness :
  ∃ frame r,
    @calculate Examples.sqrt_floor Examples.bollinger_3_1 Examples.reentry = Ok frame ∧
    last frame = Some r ∧ bb_buy_signal r = true ∧ get_signal frame = Ok buy.
Proof.
  eexists _, _. split; [vm_compute; reflexivity|]. split; [reflexivity|].
  match goal with
  | |- _ ∧ get_signal ?frame = _ =>
      destruct (@bollinger_signals_are_reentries Examples.sqrt_floor
                  Examples.bollinger_3_1 Examples.reentry frame
                  ltac:(vm_compute; reflexivity))
        as (_ & Hsignals & Hlast)
  end.
  pose proof (proj2 (proj1 (Hsignals 4 _ eq_refl))) as Hbuy.
  rewrite (Hlast _ eq_refl), Hbuy; [done|].
  eexists 3, _. split; [done|]. split; [reflexivity|]. by split.
Defined.

Lemma bollinger_bands_defined_witness :
  let self := {| period := 2; num_std := 2 |} in
  ∃ frame r,
    @calculate Examples.sqrt_floor self Examples.three_bars = Ok frame ∧
    frame !! 1 = Some r ∧ defined (bb_upper r).
Proof.
  intros self. eexists _, _. split; [vm_compute; reflexivity|]. split; [reflexivity|].
  apply (proj1 (proj2 (proj2 (@bollinger_bands_defined Examples.sqrt_floor self
                         Examples.three_bars _ 1 _
                         ltac:(vm_compute; reflexivity) eq_refl)))).
  cbn. lia.
Defined.

Lemma bollinger_period_below_two_witness :
  let self := {| period := 1; num_std := 2 |} in
  ∃ frame,
    @calculate Examples.sqrt_floor self Examples.three_bars = Ok frame ∧
    get_signal frame = Ok hold.
Proof.
  intros self. eexists. split; [vm_compute; reflexivity|].
  apply (proj2 (@bollinger_period_below_two Examples.sqrt_floor self
                  Examples.three_bars _ ltac:(cbn; lia) ltac:(vm_compute; reflexivity))).
  cbn. lia.
Defined.

End BollingerBandsWitnesses.

(** ** Buy and sell on one bar *)

Section Comparisons.

Lemma Qlt_bool_iff (a b : Q) : Qlt_bool a b = true ↔ (a < b)%Q.
Proof.
  unfold Qlt_bool. rewrite negb_true_iff. split.
  - intros Hle. apply Qnot_le_lt. intros Hba.
    apply Qle_bool_iff in Hba. congruence.
  - intros Hlt. destruct (Qle_bool b a) eqn:Hba; [|done].
    apply Qle_bool_iff in Hba. by apply Qlt_not_le in Hlt.
Qed.

End Comparisons.

Section BollingerBandsOutside.

Import BollingerBandsStrategy.
Context `{Sqrt}.

Lemma rolling_std_nonneg (period : Z) xs col i s :
  (∀ q, 0 <= fsqrt q)%Q →
  rolling_std period xs = Ok col → col !! i = Some (Some s) → (0 <= s)%Q.
Proof.
  intros Hsqrt Hcol Hs.
  destruct (rolling_lookup _ _ _ _ _ _ Hcol Hs) as [Heq _].
  destruct (window _ _ _) as [qs|]; [|done]. cbn in Heq. unfold std in Heq.
  destruct (var qs); [|done]. injection Heq as ->. apply Hsqrt.
Qed.

(** X20. With a square root that is never negative and [num_std] not
    negative, the lower band is not above the upper band, no close is both
    above the upper band and below the lower band, and no bar of the frame
    carries both the buy and the sell signal. *)
Theorem bollinger_never_outside_both_bands
    (self : Self) (data : DataFrame) (frame : list Row) (i : nat) (r : Row) :
  (∀ q, 0 <= fsqrt q)%Q → (0 <= num_std self)%Q →
  calculate self data = Ok frame → frame !! i = Some r →
  (∀ u l, bb_upper r = Some u → bb_lower r = Some l → (l <= u)%Q) ∧
  above_upper r && below_lower r = false ∧
  bb_buy_signal r && bb_sell_signal r = false.
Proof.
  intros Hsqrt Hnum Hcalc.
  assert (∀ i r, frame !! i = Some r →
            (∀ u l, bb_upper r = Some u → bb_lower r = Some l → (l <= u)%Q) ∧
            above_upper r && below_lower r = false) as Hrows.
  { clear i r. intros i r Hr.
    destruct (bollinger_calculate_forward _ _ _ Hcalc) as (middle & sd & _ & Hs & ->).
    destruct (bollinger_frame_row _ _ _ _ _ _ Hr) as (r0 & Hr0 & Hcols).
    injection Hcols as _ _ _ -> -> -> ->.
    destruct (bollinger_bands_row _ _ _ _ _ _ Hr0)
      as (_ & _ & Hsd & Hup & Hlo & Habove & Hbelow).
    assert (∀ u l, bb_upper r0 = Some u → bb_lower r0 = Some l → (l <= u)%Q) as Hle.
    { intros u l Hu Hl. rewrite Hup in Hu. rewrite Hlo in Hl.
      destruct (bb_middle r0) as [m|]; [|done].
      destruct (bb_std r0) as [s|] eqn:Hstd; [|done].
      cbn in Hu, Hl. injection Hu as <-. injection Hl as <-.
      pose proof (rolling_std_nonneg _ _ _ _ _ Hsqrt Hs Hsd) as Hs0.
      pose proof (Qmult_le_0_compat _ _ Hs0 Hnum). lra. }
    split; [done|]. rewrite Habove, Hbelow.
    destruct (bb_upper r0) as [u|]; [|done].
    destruct (bb_lower r0) as [l|]; [|by rewrite andb_false_r].
    cbn. destruct (Qlt_bool u (close (candle r0))) eqn:Hu; [|done].
    destruct (Qlt_bool (close (candle r0)) l) eqn:Hl; [|done].
    apply Qlt_bool_iff in Hu, Hl. specialize (Hle u l eq_refl eq_refl). lra. }
  intros Hr. destruct (Hrows _ _ Hr) as [Hle Hout]. split_and!; try done.
  pose proof (bollinger_flags _ _ _ _ _ Hcalc Hr) as Hflags.
  destruct i as [|j]; [by destruct Hflags as [-> _]|].
  destruct Hflags as (p & Hp & -> & ->).
  destruct (Hrows _ _ Hp) as [_ Hp_out].
  destruct (above_upper p), (below_lower p); try done;
    by rewrite ?andb_false_r.
Qed.

End BollingerBandsOutside.

Section FundingRateDraws.

Import FundingRateStrategy.

(** X21. The funding rates are fresh draws of the generator: row [i] of
    the frame has the rate [0.0005 * z], with [z] the draw [i] places after
    the cursor, and the call moves the generator on by one draw per bar.
    The bar carries the buy signal exactly when its rate is below
    [-threshold] and the sell signal exactly when it is above [threshold];
    with a threshold that is not negative no bar carries both. *)
Theorem funding_rate_signals_follow_the_draws
    (self : Self) (data : DataFrame) (rng : RandomState) :
  let out := calculate self data rng in
  cursor out.2 = cursor rng + length data ∧
  tape out.2 = tape rng ∧
  ∀ i r, out.1 !! i = Some r →
    let z := tape rng (cursor rng + i) in
    (∃ rate, funding_rate r = Some rate ∧ (rate == (5 # 10000) * z)%Q) ∧
    (fr_buy_signal r = true ↔ ((5 # 10000) * z < - threshold self)%Q) ∧
    (fr_sell_signal r = true ↔ (threshold self < (5 # 10000) * z)%Q) ∧
    ((0 <= threshold self)%Q → fr_buy_signal r && fr_sell_signal r = false).
Proof.
  cbv zeta. unfold calculate. cbn [fst snd normal cursor tape].
  split; [done|]. split; [done|]. intros i r Hr.
  apply signals_lookup in Hr as (Hrate & Hbuy & Hsell).
  rewrite list_lookup_fmap in Hrate.
  destruct (seq 0 (length data) !! i) as [k|] eqn:Hk; [|done].
  apply lookup_seq in Hk as [-> _]. cbn in Hrate. injection Hrate as Hrate.
  rewrite <- Hrate in Hbuy, Hsell. cbn in Hbuy, Hsell.
  set (z := tape rng (cursor rng + i)) in *.
  assert (fr_buy_signal r = true ↔ ((5 # 10000) * z < - threshold self)%Q) as Hb.
  { rewrite Hbuy, Qlt_bool_iff. split; intros ?; lra. }
  assert (fr_sell_signal r = true ↔ (threshold self < (5 # 10000) * z)%Q) as Hs.
  { rewrite Hsell. unfold fgt. cbn. rewrite Qlt_bool_iff. split; intros ?; lra. }
  split_and!; try done.
  - exists (0 + (5 # 10000) * z)%Q. split; [done|]. lra.
  - intros Ht. destruct (fr_buy_signal r); [|done].
    destruct (fr_sell_signal r); [|done].
    pose proof (proj1 Hb eq_refl). pose proof (proj1 Hs eq_refl). lra.
Qed.

End FundingRateDraws.

Section OutsideWitnesses.

Lemma sqrt_floor_nonneg (q : Q) : (0 <= @fsqrt Examples.sqrt_floor q)%Q.
Proof.
  unfold fsqrt, Examples.sqrt_floor. change 0%Q with (inject_Z 0).
  rewrite <- Zle_Qle. apply Z.sqrt_nonneg.
Qed.

Lemma bollinger_never_outside_witness :
  let self := {| BollingerBandsStrategy.period := 2;
                 BollingerBandsStrategy.num_std := 2 |} in
  ∃ frame r,
    @BollingerBandsStrategy.calculate Examples.sqrt_floor self Examples.three_bars
      = Ok frame ∧
    frame !! 2 = Some r ∧
    BollingerBandsStrategy.above_upper r && BollingerBandsStrategy.below_lower r = false.
Proof.
  intros self. eexists _, _. split; [vm_compute; reflexivity|]. split; [reflexivity|].
  refine (proj1 (proj2 (@bollinger_never_outside_both_bands Examples.sqrt_floor self
                          Examples.three_bars _ 2 _ sqrt_floor_nonneg _ _ _))).
  - cbn. lra.
  - vm_compute. reflexivity.
  - reflexivity.
Defined.

End OutsideWitnesses.

(** ** The bot of [main] in the loop of the window *)

Section DefaultBot.

Import TradingBot Runner.
Context `{Sqrt} `{ToDatetime}.

(** The signals the bot records in a turn in which [fetch_data] returns a
    frame, whether or not the window raises afterwards. *)
Lemma run_bot_current_signals
    (self : TradingBotGUI.Self) (bot : Self)
    (symbol timeframe signal_mode : string) (rng : RandomState) (df : DataFrame) :
  (fetch_data bot symbol timeframe 100).2 = Some df →
  current_signals (TradingBotGUI.run_bot self bot symbol timeframe signal_mode rng).1
  = entry_signal <$> results_of df rng (strategies bot).
Proof.
  intros Hfetch. unfold TradingBotGUI.run_bot.
  destruct (fetch_data_returned bot symbol timeframe 100) as [Hreturned _].
  destruct (fetch_data bot symbol timeframe 100) as [bot1 fetched].
  cbn [fst snd] in *. subst fetched. destruct Hreturned as [-> _].
  rewrite (run_strategies_with_data (set_data (Some df) bot) df rng eq_refl).
  cbn [strategies set_data].
  destruct (_ ≫= _) as [combined|e]; [|done].
  case_bool_decide; [|done].
  pose proof (execute_order_fields
                (set_current_signals
                   (entry_signal <$> results_of df rng (strategies bot))
                   (set_data (Some df) bot)) symbol combined (1 # 1000)) as [Hfields _].
  destruct (execute_order _ symbol combined (1 # 1000)) as [bot3 ok].
  cbn [fst snd] in *. by rewrite Hfields.
Qed.

Lemma golden_cross_calculate_ok (s : GoldenCrossStrategy.Self) (data : DataFrame) :
  (0 ≤ GoldenCrossStrategy.short_period s)%Z →
  (0 ≤ GoldenCrossStrategy.long_period s)%Z →
  ∃ frame, GoldenCrossStrategy.calculate s data = Ok frame.
Proof.
  intros Hs Hl. unfold GoldenCrossStrategy.calculate.
  pose proof (rolling_ok_or_raise mean (GoldenCrossStrategy.short_period s)
                (map (λ c, fl (close c)) data)) as Hrs.
  pose proof (rolling_ok_or_raise mean (GoldenCrossStrategy.long_period s)
                (map (λ c, fl (close c)) data)) as Hrl.
  destruct (Z.ltb_spec (GoldenCrossStrategy.short_period s) 0); [lia|].
  destruct (Z.ltb_spec (GoldenCrossStrategy.long_period s) 0); [lia|].
  destruct Hrs as [ma_s Hrs], Hrl as [ma_l Hrl].
  unfold rolling_mean. rewrite Hrs. cbn [mbind result_bind Py.bind].
  rewrite Hrl. cbn [mbind result_bind Py.bind].
  destruct (2 <=? _); eauto.
Qed.

(** X22. The bot [main] builds never gets a Golden Cross signal in the
    loop of the window: [run_bot] fetches with the default limit of 100
    bars and the default Golden Cross needs 200 closes for its long
    average, so as long as the strategies are those of
    [setup_strategies], in every turn in which the exchange answers with 2
    to 200 bars and [fetch_data] returns a frame (no exception on the way),
    the signal recorded for Golden Cross is Hold. *)
Theorem default_golden_cross_holds
    (self : TradingBotGUI.Self) (bot : Self)
    (symbol timeframe signal_mode : string) (rng : RandomState) (bars : list Bar) :
  strategies bot = Main.setup_strategies →
  exchange bot symbol timeframe 100 = Ok bars →
  2 ≤ length bars ≤ 200 →
  is_Some (fetch_data bot symbol timeframe 100).2 →
  let out := TradingBotGUI.run_bot self bot symbol timeframe signal_mode rng in
  current_signals out.1 !! "Golden Cross" = Some hold.
Proof.
  intros Hstrategies Hbars Hlen [df Hfetch] out. subst out.
  rewrite (run_bot_current_signals _ _ _ _ _ _ _ Hfetch), Hstrategies.
  assert (length df = length bars - 1) as Hdf.
  { destruct (fetch_data_returned bot symbol timeframe 100) as [Hreturned _].
    rewrite Hfetch in Hreturned. destruct Hreturned as (_ & bars' & Hbars' & ->).
    rewrite Hbars in Hbars'. by injection Hbars' as <-. }
  set (gc := {| GoldenCrossStrategy.short_period := 50;
                GoldenCrossStrategy.long_period := 200 |}).
  set (s := {| Strategy.name := "Golden Cross"; Strategy.is_active := true;
               Strategy.impl := Strategy.GoldenCross gc |}).
  rewrite lookup_fmap.
  rewrite (results_of_distinct df rng Main.setup_strategies 1 s);
    [|by apply (bool_decide_unpack _)|done].
  unfold added, contribution, evaluate, Strategy.calculate. cbn [Strategy.is_active Strategy.impl s].
  destruct (golden_cross_calculate_ok gc df) as [frame Hcalc]; [done..|].
  rewrite Hcalc. cbn [fmap result_fmap fst snd mbind result_bind Py.bind
                      Strategy.get_signal Strategy.impl].
  change (Strategy.get_signal s (Strategy.GoldenCrossFrame frame))
    with (GoldenCrossStrategy.get_signal frame).
  rewrite (golden_cross_short_series gc df frame Hcalc); [done|lia|].
  right. cbn. lia.
Qed.

End DefaultBot.

Section DefaultBotWitness.

Import TradingBot.

Lemma default_golden_cross_witness :
  let window :=
    {| TradingBotGUI.update_charts := λ _, Ok ();
       TradingBotGUI.update_signal_label := λ _ _, Ok () |} in
  let out :=
    @TradingBotGUI.run_bot Examples.sqrt_floor Examples.nanosecond_clock window
      (Main.bot Examples.exchange) "BTC/USDT" "1m" "majority" Examples.constant in
  current_signals out.1 !! "Golden Cross" = Some hold.
Proof.
  intros window.
  apply (@default_golden_cross_holds Examples.sqrt_floor Examples.nanosecond_clock
           window (Main.bot Examples.exchange) "BTC/USDT" "1m" "majority"
           Examples.constant Examples.fetched eq_refl eq_refl).
  - cbn. lia.
  - by eexists.
Defined.

End DefaultBotWitness.

(** ** The frames as objects: what [calculate] can reach *)

Section Locality.

Import Store.

Lemma state_eta (σ : State) :
  σ = {| heap := heap σ; generator := generator σ |}.
Proof. by destruct σ. Qed.

Lemma local_lift {A} (r : result A) : Local (λ _, lift r).
Proof.
  intros σ1 σ2 d1 d2 o H1 H2. exists r, o, [].
  rewrite !app_nil_r, !list_insert_id by done. unfold lift.
  by rewrite <- !state_eta.
Qed.

Lemma local_ret {A} (a : A) : Local (λ _, mret a).
Proof. apply (local_lift (Ok a)). Qed.

Lemma local_inspect {A} (f : Object → result A) : Local (inspect f).
Proof.
  intros σ1 σ2 d1 d2 o H1 H2. exists (f o), o, [].
  rewrite !app_nil_r, !list_insert_id by done. unfold inspect.
  by rewrite H1, H2, <- !state_eta.
Qed.

Lemma local_update (f : Object → result Object) : Local (update f).
Proof.
  intros σ1 σ2 d1 d2 o H1 H2. unfold update. rewrite H1, H2.
  destruct (f o) as [o'|e].
  - exists (Ok ()), o', []. by rewrite !app_nil_r.
  - exists (Raise e), o, [].
    by rewrite !app_nil_r, !list_insert_id, <- !state_eta by done.
Qed.

Lemma insert_again (l news news' : list Object) (d : nat) (o o' : Object) :
  d < length l →
  <[d := o']> (<[d := o]> l ++ news) ++ news' = <[d := o']> l ++ (news ++ news').
Proof.
  intros Hd. rewrite insert_app_l by (by rewrite length_insert).
  by rewrite list_insert_insert_eq, app_assoc.
Qed.

Lemma lookup_inserted (l news : list Object) (d : nat) (o : Object) :
  d < length l → (<[d := o]> l ++ news) !! d = Some o.
Proof.
  intros Hd. rewrite lookup_app_l by (by rewrite length_insert).
  by apply list_lookup_insert_eq.
Qed.

Lemma local_bind {A B} (m : nat → M A) (k : A → nat → M B) :
  Local m → (∀ a, Local (k a)) → Local (λ d, m d ≫= λ a, k a d).
Proof.
  intros Hm Hk σ1 σ2 d1 d2 o H1 H2.
  destruct (Hm σ1 σ2 d1 d2 o H1 H2) as (r & o' & news & E1 & E2).
  pose proof (lookup_lt_Some _ _ _ H1) as L1.
  pose proof (lookup_lt_Some _ _ _ H2) as L2.
  unfold mbind, M_bind. rewrite E1, E2. destruct r as [a|e].
  - destruct (Hk a {| heap := <[d1 := o']> (heap σ1) ++ news;
                      generator := generator σ1 |}
                   {| heap := <[d2 := o']> (heap σ2) ++ news;
                      generator := generator σ2 |} d1 d2 o'
                (lookup_inserted _ news _ _ L1)
                (lookup_inserted _ news _ _ L2)) as (r & o'' & news' & -> & ->).
    exists r, o'', (news ++ news'). cbn [heap generator].
    by rewrite !insert_again.
  - by exists (Raise e), o', news.
Qed.

Lemma local_copy {A} (k : nat → M A) :
  Local k → Local (λ d, copy d ≫= k).
Proof.
  intros Hk σ1 σ2 d1 d2 o H1 H2.
  unfold mbind, M_bind, copy. rewrite H1, H2.
  destruct (Hk {| heap := heap σ1 ++ [o]; generator := generator σ1 |}
               {| heap := heap σ2 ++ [o]; generator := generator σ2 |}
               (length (heap σ1)) (length (heap σ2)) o)
    as (r & o' & news & -> & ->).
  { cbn. by rewrite lookup_app_r, Nat.sub_diag. }
  { cbn. by rewrite lookup_app_r, Nat.sub_diag. }
  exists r, o, (o' :: news). cbn [heap generator].
  rewrite (list_insert_id (heap σ1) d1 o H1), (list_insert_id (heap σ2) d2 o H2).
  rewrite !insert_app_r_alt, !Nat.sub_diag by done. cbn.
  by rewrite <- !app_assoc.
Qed.

Lemma local_for (l : list nat) (body : nat → nat → M unit) :
  (∀ i, Local (λ d, body d i)) → Local (λ d, for_ l (body d)).
Proof.
  intros Hbody. induction l as [|i l IH]; cbn [for_].
  - apply local_ret.
  - apply (local_bind (λ d, body d i) (λ _ d, for_ l (body d))); [done|].
    by intros _.
Qed.

Lemma localref_ret : LocalRef (λ d, mret d).
Proof.
  intros σ1 σ2 d1 d2 o H1 H2. exists None, o, [].
  rewrite !app_nil_r, !list_insert_id by done. cbn.
  unfold mret, M_ret. by rewrite <- !state_eta.
Qed.

Lemma localref_bind {A} (m : nat → M A) (k : A → nat → M nat) :
  Local m → (∀ a, LocalRef (k a)) → LocalRef (λ d, m d ≫= λ a, k a d).
Proof.
  intros Hm Hk σ1 σ2 d1 d2 o H1 H2.
  destruct (Hm σ1 σ2 d1 d2 o H1 H2) as (r & o' & news & E1 & E2).
  pose proof (lookup_lt_Some _ _ _ H1) as L1.
  pose proof (lookup_lt_Some _ _ _ H2) as L2.
  unfold mbind, M_bind. rewrite E1, E2. destruct r as [a|e].
  - destruct (Hk a {| heap := <[d1 := o']> (heap σ1) ++ news;
                      generator := generator σ1 |}
                   {| heap := <[d2 := o']> (heap σ2) ++ news;
                      generator := generator σ2 |} d1 d2 o'
                (lookup_inserted _ news _ _ L1)
                (lookup_inserted _ news _ _ L2)) as (e & o'' & news' & -> & ->).
    exists e, o'', (news ++ news'). cbn [heap generator].
    by rewrite !insert_again.
  - by exists (Some e), o', news.
Qed.

Lemma fresh_copy (k : nat → M nat) : LocalRef k → Fresh (λ d, copy d ≫= k).
Proof.
  intros Hk σ1 σ2 d1 d2 o H1 H2.
  unfold mbind, M_bind, copy. rewrite H1, H2.
  destruct (Hk {| heap := heap σ1 ++ [o]; generator := generator σ1 |}
               {| heap := heap σ2 ++ [o]; generator := generator σ2 |}
               (length (heap σ1)) (length (heap σ2)) o)
    as (e & o' & news & -> & ->).
  { cbn. by rewrite lookup_app_r, Nat.sub_diag. }
  { cbn. by rewrite lookup_app_r, Nat.sub_diag. }
  exists e, o', news. cbn [heap generator].
  rewrite !insert_app_r_alt, !Nat.sub_diag by done. cbn.
  by rewrite <- !app_assoc.
Qed.

End Locality.

Section MethodsAreLocal.

Import Store.

Ltac local_step known :=
  lazymatch goal with
  | |- Local (λ d, if ?c then _ else _) => destruct c
  | |- Local (λ d, mbind (@?k d) (@?m d)) =>
      apply (local_bind m (λ a d, k d a)); [|intros ?]
  | |- Local (λ d, mret _) => apply local_ret
  | |- Local (λ d, lift _) => apply local_lift
  | |- Local (λ d, for_ _ _) => apply local_for; intros ?
  | |- Local (λ d, inspect _ d) => apply local_inspect
  | |- Local (inspect _) => apply local_inspect
  | |- Local (λ d, update _ d) => apply local_update
  | |- Local (update _) => apply local_update
  | |- Local _ => known
  end.

Ltac local known :=
  cbv zeta;
  unfold number, flag, numbers, flags, assign, set_flag, set_number, len;
  repeat local_step known.

Ltac local_ref known :=
  repeat lazymatch goal with
    | |- LocalRef (λ d, mbind (@?k d) (@?m d)) =>
        apply (localref_bind m (λ a d, k d a)); [local known|intros ?]
    | |- LocalRef (λ d, mret d) => apply localref_ret
    end.

Lemma tr_local : Local Store.Supertrend.tr.
Proof. unfold Store.Supertrend.tr. apply local_copy. local fail. Qed.

Lemma atr_local (period : Z) : Local (λ d, Store.Supertrend.atr d period).
Proof.
  unfold Store.Supertrend.atr. apply local_copy.
  local ltac:(apply tr_local).
Qed.

Lemma supertrend_step_local (current : nat) :
  Local (λ d, Store.Supertrend.step d current).
Proof. unfold Store.Supertrend.step. local fail. Qed.

Lemma supertrend_calculate_fresh (self : SupertrendStrategy.Self) :
  Fresh (Store.Supertrend.calculate self).
Proof.
  unfold Store.Supertrend.calculate. apply fresh_copy.
  local_ref ltac:(first [apply atr_local|apply supertrend_step_local]).
Qed.

Lemma golden_cross_step_local (self : GoldenCrossStrategy.Self) (i : nat) :
  Local (λ d, Store.GoldenCross.step self d i).
Proof. unfold Store.GoldenCross.step. local fail. Qed.

Lemma golden_cross_calculate_fresh (self : GoldenCrossStrategy.Self) :
  Fresh (Store.GoldenCross.calculate self).
Proof.
  unfold Store.GoldenCross.calculate. apply fresh_copy.
  local_ref ltac:(apply golden_cross_step_local).
Qed.

Lemma bollinger_step_local (i : nat) :
  Local (λ d, Store.BollingerBands.step d i).
Proof. unfold Store.BollingerBands.step. local fail. Qed.

Lemma bollinger_calculate_fresh `{Sqrt} (self : BollingerBandsStrategy.Self) :
  Fresh (Store.BollingerBands.calculate self).
Proof.
  unfold Store.BollingerBands.calculate. apply fresh_copy.
  local_ref ltac:(apply bollinger_step_local).
Qed.

End MethodsAreLocal.

(** ** The frames as objects: running the methods *)

Section Running.

Import Store Runs.

Lemma put_same (σ : State) (d : nat) (o : Object) :
  heap σ !! d = Some o → put σ d o [] = σ.
Proof.
  intros Hd. unfold put. rewrite app_nil_r, list_insert_id by done.
  by destruct σ.
Qed.

Lemma put_lookup (σ : State) (d : nat) (o o' : Object) (news : list Object) :
  heap σ !! d = Some o → heap (put σ d o' news) !! d = Some o'.
Proof.
  intros Hd%lookup_lt_Some. cbn. by apply lookup_inserted.
Qed.

Lemma put_put (σ : State) (d : nat) (o o1 o2 : Object) (n1 n2 : list Object) :
  heap σ !! d = Some o → put (put σ d o1 n1) d o2 n2 = put σ d o2 (n1 ++ n2).
Proof.
  intros Hd%lookup_lt_Some. unfold put. cbn [heap generator].
  by rewrite insert_again.
Qed.

Lemma runs_lift {A} (r : result A) (d : nat) (o : Object) :
  Runs (lift r) d o r o [].
Proof. intros σ Hd. by rewrite put_same. Qed.

Lemma runs_ret {A} (a : A) (d : nat) (o : Object) :
  Runs (mret a) d o (Ok a) o [].
Proof. apply (runs_lift (Ok a)). Qed.

Lemma runs_bind {A B} (m : M A) (k : A → M B) (d : nat) (o o1 o2 : Object)
    (a : A) (r : result B) (n1 n2 : list Object) :
  Runs m d o (Ok a) o1 n1 → Runs (k a) d o1 r o2 n2 →
  Runs (m ≫= k) d o r o2 (n1 ++ n2).
Proof.
  intros Hm Hk σ Hd. unfold mbind, M_bind. rewrite (Hm σ Hd).
  rewrite (Hk _ (put_lookup _ _ _ _ _ Hd)). by erewrite put_put.
Qed.

Lemma runs_bind_raise {A B} (m : M A) (k : A → M B) (d : nat) (o o1 : Object)
    (e : exn) (n1 : list Object) :
  Runs m d o (Raise e) o1 n1 → Runs (m ≫= k) d o (Raise e) o1 n1.
Proof. intros Hm σ Hd. unfold mbind, M_bind. by rewrite (Hm σ Hd). Qed.

Lemma runs_copy {A} (k : nat → M A) (d : nat) (o o' : Object)
    (r : result A) (news : list Object) :
  (∀ d', Runs (k d') d' o r o' news) →
  Runs (copy d ≫= k) d o r o (o' :: news).
Proof.
  intros Hk σ Hd. unfold mbind, M_bind, copy. rewrite Hd.
  rewrite (Hk (length (heap σ))); [|cbn; by rewrite lookup_app_r, Nat.sub_diag].
  unfold put. cbn [heap generator].
  rewrite (list_insert_id (heap σ) d o Hd).
  rewrite insert_app_r_alt, Nat.sub_diag by done. cbn.
  by rewrite <- app_assoc.
Qed.

(** Code that ends well. *)
Lemma ends_bind {A B} (m : M A) (k : A → M B) (d : nat) (o o1 : Object)
    (a : A) (n1 : list Object) (Q : result B → Object → list Object → Prop) :
  Runs m d o (Ok a) o1 n1 →
  Ends (k a) d o1 (λ r o' news, Q r o' (n1 ++ news)) →
  Ends (m ≫= k) d o Q.
Proof.
  intros Hm (r & o2 & n2 & Hk & HQ). exists r, o2, (n1 ++ n2).
  split; [|done]. by apply (runs_bind _ _ _ _ o1 _ a).
Qed.

Lemma ends_raise {A B} (m : M A) (k : A → M B) (d : nat) (o o1 : Object)
    (e : exn) (n1 : list Object) (Q : result B → Object → list Object → Prop) :
  Runs m d o (Raise e) o1 n1 → Q (Raise e) o1 n1 → Ends (m ≫= k) d o Q.
Proof.
  intros Hm HQ. exists (Raise e), o1, n1. split; [|done].
  by apply runs_bind_raise.
Qed.

Lemma ends_ret {A} (a : A) (d : nat) (o : Object)
    (Q : result A → Object → list Object → Prop) :
  Q (Ok a) o [] → Ends (mret a) d o Q.
Proof. intros HQ. exists (Ok a), o, []. split; [apply runs_ret|done]. Qed.

(** A method that copies and works on the copy. *)
Lemma ends_fresh {A} (k : nat → M A) (o : Object) (σ : State) (d : nat)
    (Q : result A → Object → list Object → Prop) :
  heap σ !! d = Some o →
  Ends (k (length (heap σ))) (length (heap σ)) o Q →
  ∃ (r : result A) (o' : Object) (news : list Object),
    (copy d ≫= k) σ =
      (r, {| heap := heap σ ++ o' :: news; generator := generator σ |}) ∧
    Q r o' news.
Proof.
  intros Hd (r & o' & news & Hk & HQ). exists r, o', news. split; [|done].
  unfold mbind, M_bind, copy. rewrite Hd.
  rewrite Hk; [|cbn; by rewrite lookup_app_r, Nat.sub_diag].
  unfold put. cbn [heap generator].
  rewrite insert_app_r_alt, Nat.sub_diag by done. cbn.
  by rewrite <- app_assoc.
Qed.

Lemma runs_len (d : nat) (o : Object) : Runs (len d) d o (Ok (rows o)) o [].
Proof. intros σ Hd. unfold len, inspect. by rewrite Hd, put_same. Qed.

Lemma runs_numbers (name : string) (d : nat) (o : Object) (values : list float) :
  columns o !! name = Some (Numbers values) →
  Runs (numbers name d) d o (Ok values) o [].
Proof. intros Hc σ Hd. unfold numbers, inspect. by rewrite Hd, Hc, put_same. Qed.

Lemma runs_flags (name : string) (d : nat) (o : Object) (values : list bool) :
  columns o !! name = Some (Flags values) →
  Runs (flags name d) d o (Ok values) o [].
Proof. intros Hc σ Hd. unfold flags, inspect. by rewrite Hd, Hc, put_same. Qed.

Lemma runs_number (name : string) (i : nat) (d : nat) (o : Object)
    (values : list float) (x : float) :
  columns o !! name = Some (Numbers values) → values !! i = Some x →
  Runs (number name i d) d o (Ok x) o [].
Proof.
  intros Hc Hi. unfold number.
  apply (runs_bind _ _ _ _ _ _ _ _ [] [] (runs_numbers _ _ _ _ Hc)).
  unfold iloc. rewrite Hi. apply runs_lift.
Qed.

Lemma runs_flag (name : string) (i : nat) (d : nat) (o : Object)
    (values : list bool) (x : bool) :
  columns o !! name = Some (Flags values) → values !! i = Some x →
  Runs (flag name i d) d o (Ok x) o [].
Proof.
  intros Hc Hi. unfold flag.
  apply (runs_bind _ _ _ _ _ _ _ _ [] [] (runs_flags _ _ _ _ Hc)).
  unfold iloc. rewrite Hi. apply runs_lift.
Qed.

Lemma runs_update (f : Object → result Object) (d : nat) (o o' : Object) :
  f o = Ok o' → Runs (update f d) d o (Ok ()) o' [].
Proof.
  intros Hf σ Hd. unfold update, put. by rewrite Hd, Hf, app_nil_r.
Qed.

Lemma runs_assign (name : string) (column : Column) (d : nat) (o : Object) :
  Runs (assign name column d) d o (Ok ())
    {| rows := rows o; columns := <[name := column]> (columns o) |} [].
Proof. by apply runs_update. Qed.

Lemma runs_set_flag (name : string) (i : nat) (v : bool) (d : nat) (o : Object)
    (values : list bool) :
  i < rows o → columns o !! name = Some (Flags values) →
  Runs (set_flag name i v d) d o (Ok ())
    {| rows := rows o;
       columns := <[name := Flags (<[i := v]> values)]> (columns o) |} [].
Proof.
  intros Hi Hc. apply runs_update.
  destruct (Nat.ltb_spec i (rows o)); [|lia]. by rewrite Hc.
Qed.

Lemma runs_set_number (name : string) (i : nat) (v : float) (d : nat) (o : Object)
    (values : list float) :
  i < rows o → columns o !! name = Some (Numbers values) →
  Runs (set_number name i v d) d o (Ok ())
    {| rows := rows o;
       columns := <[name := Numbers (<[i := v]> values)]> (columns o) |} [].
Proof.
  intros Hi Hc. apply runs_update.
  destruct (Nat.ltb_spec i (rows o)); [|lia]. by rewrite Hc.
Qed.

(** A loop whose body keeps an invariant [Inv] between the rows of the
    functional embedding and the object. *)
Lemma runs_for {R} (Inv : list R → Object → Prop) (pstep : list R → nat → list R)
    (body : nat → M unit) (d : nat) (l : list nat) :
  (∀ rows o i, i ∈ l → Inv rows o →
     ∃ o', Runs (body i) d o (Ok ()) o' [] ∧ Inv (pstep rows i) o') →
  ∀ rows o, Inv rows o →
    ∃ o', Runs (for_ l body) d o (Ok ()) o' [] ∧ Inv (foldl pstep rows l) o'.
Proof.
  induction l as [|i l IH]; intros Hbody rows o Hinv.
  - exists o. split; [apply runs_ret|done].
  - destruct (Hbody rows o i) as (o1 & Hrun1 & Hinv1); [by left|done|].
    destruct (IH (λ rows o j Hj, Hbody rows o j (list_elem_of_further _ _ _ Hj))
                (pstep rows i) o1 Hinv1) as (o2 & Hrun2 & Hinv2).
    exists o2. split; [|done]. cbn [for_].
    apply (runs_bind _ _ _ _ _ _ _ _ [] [] Hrun1 Hrun2).
Qed.

End Running.

Section Schemas.

Import Store Runs.
Context {R : Type}.
Implicit Types (schema : list (string * Field R)) (rows : list R).

Lemma holds_column schema rows o n name field :
  Holds o n (columns_of schema rows) → (name, field) ∈ schema →
  columns o !! name = Some (column_of field rows).
Proof.
  intros [_ Hcols] Hin. rewrite Forall_forall in Hcols.
  apply (Hcols (name, column_of field rows)). unfold columns_of.
  apply list_elem_of_fmap. by exists (name, field).
Qed.

Lemma holds_number schema rows o n name f i r :
  Holds o n (columns_of schema rows) → (name, NumberField f) ∈ schema →
  rows !! i = Some r →
  columns o !! name = Some (Numbers (f <$> rows)) ∧ (f <$> rows) !! i = Some (f r).
Proof.
  intros Hholds Hin Hr.
  split; [by apply (holds_column schema rows o n name (NumberField f) Hholds)|].
  by rewrite list_lookup_fmap, Hr.
Qed.

Lemma holds_flag schema rows o n name f i r :
  Holds o n (columns_of schema rows) → (name, FlagField f) ∈ schema →
  rows !! i = Some r →
  columns o !! name = Some (Flags (f <$> rows)) ∧ (f <$> rows) !! i = Some (f r).
Proof.
  intros Hholds Hin Hr.
  split; [by apply (holds_column schema rows o n name (FlagField f) Hholds)|].
  by rewrite list_lookup_fmap, Hr.
Qed.

Lemma column_of_insert field rows i c c' :
  rows !! i = Some c → same_field field c' c →
  column_of field (<[i := c']> rows) = column_of field rows.
Proof.
  intros Hc Hsame.
  destruct field as [f|f|f]; cbn in *;
    by rewrite list_fmap_insert, Hsame, list_insert_id
      by (by rewrite list_lookup_fmap, Hc).
Qed.

(** Writing one column at row [i]: the object holds the rows with row [i]
    replaced by a row that differs from it in that column only. *)
Lemma holds_write schema rows o n name column i c c' :
  Holds o n (columns_of schema rows) → rows !! i = Some c →
  Forall (λ nf, if decide (nf.1 = name)
                then column_of nf.2 (<[i := c']> rows) = column
                else same_field nf.2 c' c) schema →
  Holds {| Store.rows := Store.rows o; columns := <[name := column]> (columns o) |}
    n (columns_of schema (<[i := c']> rows)).
Proof.
  intros [Hn Hcols] Hc Hschema. split; [done|]. unfold columns_of in *.
  rewrite Forall_fmap in Hcols |- *. rewrite Forall_forall in Hcols, Hschema |- *.
  intros [nm field] Hin. cbn. specialize (Hschema _ Hin). cbn in Hschema.
  specialize (Hcols _ Hin). cbn in Hcols.
  destruct (decide (nm = name)) as [->|Hne].
  - by rewrite lookup_insert_eq, Hschema.
  - rewrite lookup_insert_ne by done.
    by rewrite (column_of_insert field rows i c c' Hc Hschema).
Qed.

Lemma holds_same schema rows o n i c :
  Holds o n (columns_of schema rows) → rows !! i = Some c →
  Holds o n (columns_of schema (<[i := c]> rows)).
Proof. intros Hholds Hc. by rewrite list_insert_id. Qed.

End Schemas.

Section FlagBlocks.

Import Store Runs.
Context {R : Type}.
Implicit Types (schema : list (string * Field R)) (rows : list R).

(** Setting a flag of row [i]. *)
Lemma runs_set_flag_row schema rows o N name (f : R → bool) (set : bool → R → R)
    (v : bool) (d i : nat) (c : R) :
  Holds o N (columns_of schema rows) → rows !! i = Some c → i < N →
  (name, FlagField f) ∈ schema →
  Forall (λ nf, if decide (nf.1 = name) then nf.2 = FlagField f
                else same_field nf.2 (set v c) c) schema →
  f (set v c) = v →
  ∃ o', Runs (set_flag name i v d) d o (Ok ()) o' [] ∧
        Holds o' N (columns_of schema (<[i := set v c]> rows)).
Proof.
  intros Hholds Hc Hi Hin Hschema Hset.
  destruct (holds_flag schema rows o N name f i c Hholds Hin Hc) as [Hcol _].
  eexists. split.
  - apply (runs_set_flag name i v d o (f <$> rows)); [|done].
    destruct Hholds as [-> _]. done.
  - apply (holds_write schema rows o N name _ i c (set v c) Hholds Hc).
    eapply Forall_impl; [exact Hschema|]. intros [nm field]. cbn.
    destruct (decide (nm = name)); [|done]. intros ->. cbn.
    by rewrite list_fmap_insert, Hset.
Qed.

(** Setting a number of row [i]. *)
Lemma runs_set_number_row schema rows o N name (f : R → float)
    (set : float → R → R) (v : float) (d i : nat) (c : R) :
  Holds o N (columns_of schema rows) → rows !! i = Some c → i < N →
  (name, NumberField f) ∈ schema →
  Forall (λ nf, if decide (nf.1 = name) then nf.2 = NumberField f
                else same_field nf.2 (set v c) c) schema →
  f (set v c) = v →
  ∃ o', Runs (set_number name i v d) d o (Ok ()) o' [] ∧
        Holds o' N (columns_of schema (<[i := set v c]> rows)).
Proof.
  intros Hholds Hc Hi Hin Hschema Hset.
  destruct (holds_number schema rows o N name f i c Hholds Hin Hc) as [Hcol _].
  eexists. split.
  - apply (runs_set_number name i v d o (f <$> rows)); [|done].
    destruct Hholds as [-> _]. done.
  - apply (holds_write schema rows o N name _ i c (set v c) Hholds Hc).
    eapply Forall_impl; [exact Hschema|]. intros [nm field]. cbn.
    destruct (decide (nm = name)); [|done]. intros ->. cbn.
    by rewrite list_fmap_insert, Hset.
Qed.

(** Reading a flag, a number of a row. *)
Lemma runs_flag_row schema rows o N name (f : R → bool) (d i : nat) (r : R) :
  Holds o N (columns_of schema rows) → (name, FlagField f) ∈ schema →
  rows !! i = Some r → Runs (flag name i d) d o (Ok (f r)) o [].
Proof.
  intros Hholds Hin Hr.
  destruct (holds_flag schema rows o N name f i r Hholds Hin Hr) as [Hcol Hi].
  by apply (runs_flag name i d o (f <$> rows)).
Qed.

Lemma runs_number_row schema rows o N name (f : R → float) (d i : nat) (r : R) :
  Holds o N (columns_of schema rows) → (name, NumberField f) ∈ schema →
  rows !! i = Some r → Runs (number name i d) d o (Ok (f r)) o [].
Proof.
  intros Hholds Hin Hr.
  destruct (holds_number schema rows o N name f i r Hholds Hin Hr) as [Hcol Hi].
  by apply (runs_number name i d o (f <$> rows)).
Qed.

End FlagBlocks.

Section BollingerRuns.

Import BollingerBandsStrategy Store Runs.
Context `{Sqrt}.

Ltac in_schema :=
  unfold bollinger_schema, candle_schema; cbn [app];
  repeat first [apply list_elem_of_here|apply list_elem_of_further].

Ltac others_same :=
  unfold bollinger_schema, candle_schema; cbn [app];
  repeat (constructor; [by (cbn; try case_decide)|]); constructor.

(** One half of the body of the loop, once the flag of the bar before is
    read: the signal of a re-entry. *)
Lemma bollinger_signal_runs (outside signal : string) (fo fs : Row → bool)
    (set : bool → Row → Row) (d i N : nat) (rows : list Row) (o : Object) (p c : Row) :
  Holds o N (columns_of bollinger_schema rows) →
  rows !! i = Some c → i < N →
  (outside, FlagField fo) ∈ bollinger_schema →
  (signal, FlagField fs) ∈ bollinger_schema →
  Forall (λ nf, if decide (nf.1 = signal) then nf.2 = FlagField fs
                else same_field nf.2 (set true c) c) bollinger_schema →
  fs (set true c) = true →
  ∃ o',
    Runs (if fo p then
            x ← flag outside i d;
            if negb x then set_flag signal i true d else mret ()
          else mret ()) d o (Ok ()) o' [] ∧
    Holds o' N (columns_of bollinger_schema
                  (<[i := if fo p && negb (fo c) then set true c else c]> rows)).
Proof.
  intros Hholds Hc Hi Hout Hsig Hsame Hset.
  pose proof (runs_flag_row _ _ _ _ _ fo d i c Hholds Hout Hc) as Hread_c.
  destruct (fo p) eqn:Hfp; cbn [andb].
  - destruct (fo c) eqn:Hfc; cbn [negb].
    + exists o. split; [|by apply holds_same].
      apply (runs_bind _ _ _ _ _ _ _ _ [] [] Hread_c). cbn [negb].
      apply runs_ret.
    + destruct (runs_set_flag_row _ _ _ _ _ fs set true d i c Hholds Hc Hi Hsig Hsame Hset)
        as (o' & Hrun & Hholds').
      exists o'. split; [|done].
      apply (runs_bind _ _ _ _ _ _ _ _ [] [] Hread_c). cbn [negb].
      exact Hrun.
  - exists o. split; [|by apply holds_same]. apply runs_ret.
Qed.

Lemma bollinger_step_runs (d N : nat) (rows : list Row) (o : Object) (i : nat) :
  i ∈ range 1 N →
  length rows = N ∧ Holds o N (columns_of bollinger_schema rows) →
  ∃ o', Runs (Store.BollingerBands.step d i) d o (Ok ()) o' [] ∧
        (length (step rows i) = N ∧
         Holds o' N (columns_of bollinger_schema (step rows i))).
Proof.
  unfold range. rewrite elem_of_seq. intros Hi [Hlen Hholds].
  destruct (lookup_lt_is_Some_2 rows i) as [c Hc]; [lia|].
  destruct (lookup_lt_is_Some_2 rows (i - 1)) as [p Hp]; [lia|].
  rewrite (bollinger_step_next rows i p c Hc Hp) by lia.
  rewrite length_insert.
  destruct (bollinger_signal_runs "below_lower" "bb_buy_signal" below_lower
              bb_buy_signal set_bb_buy_signal d i N rows o p c Hholds Hc)
    as (o1 & Hrun1 & Hholds1); [lia|in_schema|in_schema|others_same|done|].
  set (c1 := if below_lower p && negb (below_lower c)
             then set_bb_buy_signal true c else c) in *.
  assert (<[i := c1]> rows !! i = Some c1) as Hc1
    by (apply list_lookup_insert_eq; lia).
  assert (<[i := c1]> rows !! (i - 1) = Some p) as Hp1
    by (rewrite list_lookup_insert_ne by lia; done).
  destruct (bollinger_signal_runs "above_upper" "bb_sell_signal" above_upper
              bb_sell_signal set_bb_sell_signal d i N _ o1 p c1 Hholds1 Hc1)
    as (o2 & Hrun2 & Hholds2); [lia|in_schema|in_schema|others_same|done|].
  rewrite list_insert_insert_eq in Hholds2.
  exists o2. split; [|split; [done|]].
  - unfold Store.BollingerBands.step.
    apply (runs_bind _ _ _ _ _ _ _ _ [] []
             (runs_flag_row _ _ _ _ _ below_lower d (i - 1) p Hholds
                ltac:(in_schema) Hp)).
    apply (runs_bind _ _ _ _ _ _ _ _ [] [] Hrun1).
    apply (runs_bind _ _ _ _ _ _ _ _ [] []
             (runs_flag_row _ _ _ _ _ above_upper d (i - 1) p Hholds1
                ltac:(in_schema) Hp1)).
    exact Hrun2.
  - unfold BollingerBandsScan.next. by fold c1.
Qed.

End BollingerRuns.

Section Columns.

Import Store Runs.

(** A column, row by row. *)
Lemma fmap_rows_eq {R A} (rows : list R) (f : R → A) (xs : list A) :
  length xs = length rows →
  (∀ j r, rows !! j = Some r → xs !! j = Some (f r)) →
  xs = f <$> rows.
Proof.
  intros Hlen Hrow. apply list_eq. intros j. rewrite list_lookup_fmap.
  destruct (rows !! j) as [r|] eqn:Hr; cbn.
  - by apply Hrow.
  - apply lookup_ge_None. apply lookup_ge_None in Hr. lia.
Qed.

End Columns.

Ltac column_length :=
  rewrite ?length_zip_with, ?length_map, ?length_fmap, ?length_replicate; lia.

Ltac column_lookup :=
  repeat match goal with
         | |- context [map ?f ?l] => change (map f l) with (f <$> l)
         end;
  repeat first
    [ rewrite lookup_zip_with
    | rewrite list_lookup_fmap
    | rewrite lookup_replicate_2 by lia
    | match goal with H : _ !! _ = Some _ |- _ => rewrite H end
    | progress cbn [mbind option_bind fmap option_fmap option_map] ];
  congruence.

Section BollingerCalculate.

Import BollingerBandsStrategy Store Runs.
Context `{Sqrt}.

Lemma bollinger_bands_length (self : Self) (data : DataFrame) middle sd :
  length middle = length data → length sd = length data →
  length (bands self data middle sd) = length data.
Proof.
  intros Hm Hs. unfold bands. rewrite length_zip_with, length_zip. lia.
Qed.

Ltac run_read :=
  eapply ends_bind; [apply runs_numbers; reflexivity|].
Ltac run_assign :=
  eapply ends_bind; [apply runs_assign|].
Ltac run_len :=
  eapply ends_bind; [apply runs_len|].
Ltac run_lift H :=
  rewrite H; eapply ends_bind; [apply runs_lift|].

Lemma bollinger_calculate_runs (self : Self) (data : DataFrame) (σ : State) (d : nat) :
  heap σ !! d = Some (of_series data) →
  ∃ (r : result nat) (o' : Object) (news : list Object),
    Store.BollingerBands.calculate self d σ =
      (r, {| heap := heap σ ++ o' :: news; generator := generator σ |}) ∧
    match BollingerBandsStrategy.calculate self data with
    | Ok frame =>
        r = Ok (length (heap σ)) ∧
        Holds o' (length frame) (columns_of bollinger_schema frame)
    | Raise e => r = Raise e
    end.
Proof.
  intros Hd.
  unfold BollingerBandsStrategy.calculate, Store.BollingerBands.calculate.
  eapply (ends_fresh _ (of_series data)); [done|].
  set (d' := length (heap σ)).
  run_read.
  destruct (rolling_mean (period self) (map (λ c, fl (close c)) data))
    as [middle|e] eqn:Hmiddle; cbn [mbind Py.bind];
    [|eapply ends_raise; [apply runs_lift|done]].
  eapply ends_bind; [apply runs_lift|].
  run_assign. run_read.
  destruct (rolling_std (period self) (map (λ c, fl (close c)) data))
    as [sd|e] eqn:Hsd; cbn [mbind Py.bind];
    [|eapply ends_raise; [apply runs_lift|done]].
  eapply ends_bind; [apply runs_lift|].
  run_assign. run_read. run_read. run_assign.
  run_read. run_read. run_assign.
  run_read. run_read. run_assign.
  run_read. run_read. run_assign.
  run_len. run_assign. run_len. run_assign. run_len.
  cbn [rows columns of_series].
  lazymatch goal with |- Ends _ _ ?o _ => set (o_pre := o) end.
  set (rows0 := bands self data middle sd).
  pose proof (rolling_length _ _ _ _ Hmiddle) as Hlm.
  pose proof (rolling_length _ _ _ _ Hsd) as Hls.
  rewrite length_map in Hlm, Hls.
  assert (length rows0 = length data) as Hl0 by (by apply bollinger_bands_length).
  assert (Holds o_pre (length data) (columns_of bollinger_schema rows0)) as Hholds.
  { split; [done|].
    repeat (apply Forall_cons; split); [..|done]; cbv beta;
      cbn [fst snd column_of]; unfold o_pre; cbn [columns];
      repeat (rewrite lookup_insert_ne by done); rewrite lookup_insert_eq;
      do 2 f_equal; (apply fmap_rows_eq; [|intros j r Hr]).
    all: try column_length.
    all: destruct (bollinger_bands_row _ _ _ _ _ _ Hr)
           as (Hc & Hm & Hs & Hup & Hlo & Hab & Hbe);
         destruct (bollinger_bands_lookup _ _ _ _ _ _ Hr)
           as (_ & _ & Hbuy & Hsell);
         pose proof (lookup_lt_Some _ _ _ Hc) as Hj.
    all: column_lookup. }
  destruct (runs_for
              (λ rows o, length rows = length data ∧
                         Holds o (length data) (columns_of bollinger_schema rows))
              step (Store.BollingerBands.step d') d' (range 1 (length data))
              (λ rows o i, bollinger_step_runs d' (length data) rows o i)
              rows0 o_pre (conj Hl0 Hholds))
    as (o2 & Hrun & Hl2 & Hholds2).
  eapply ends_bind; [exact Hrun|]. apply ends_ret.
  cbn [result_bind Py.bind]. fold rows0. rewrite Hl0. by rewrite Hl2.
Qed.

End BollingerCalculate.

Section FundingRateCalculate.

Import FundingRateStrategy Store Runs.

(** A method that copies, draws as many numbers as the copy has rows and
    works on the copy. *)
Lemma ends_fresh_normal {A} (k : nat → list float → M A) (loc scale : Q)
    (o : Object) (σ : State) (d : nat)
    (Q : result A → Object → list Object → Prop) :
  heap σ !! d = Some o →
  let drawn := NumpyRandom.normal loc scale (rows o) (generator σ) in
  Ends (k (length (heap σ)) drawn.1) (length (heap σ)) o Q →
  ∃ (r : result A) (o' : Object) (news : list Object),
    (data ← copy d; n ← len data; values ← normal loc scale n; k data values) σ =
      (r, {| heap := heap σ ++ o' :: news; generator := drawn.2 |}) ∧
    Q r o' news.
Proof.
  intros Hd drawn (r & o' & news & Hk & HQ). exists r, o', news. split; [|done].
  unfold mbind, M_bind, copy. rewrite Hd.
  unfold len, inspect. cbn [heap]. rewrite lookup_app_r, Nat.sub_diag by done.
  cbn [lookup list_lookup]. unfold normal. cbn [heap generator].
  fold drawn. destruct drawn as [values rng] eqn:Hdrawn. cbn [fst snd] in *.
  rewrite Hk; [|cbn; by rewrite lookup_app_r, Nat.sub_diag].
  unfold put. cbn [heap generator].
  rewrite insert_app_r_alt, Nat.sub_diag by done. cbn.
  by rewrite <- app_assoc.
Qed.

Lemma funding_rate_signals_length (self : Self) (data : DataFrame) rates :
  length rates = length data → length (signals self data rates) = length data.
Proof. intros Hr. unfold signals. rewrite length_zip_with. lia. Qed.

Lemma funding_rate_signals_row (self : Self) (data : DataFrame) rates i r :
  signals self data rates !! i = Some r → data !! i = Some (candle r).
Proof.
  unfold signals. rewrite lookup_zip_with.
  destruct (data !! i) as [c|]; [|done]. cbn.
  destruct (rates !! i) as [x|]; [|done]. cbn. by intros [= <-].
Qed.

Lemma funding_rate_calculate_runs (self : Self) (data : DataFrame)
    (σ : State) (d : nat) :
  heap σ !! d = Some (of_series data) →
  let pure := FundingRateStrategy.calculate self data (generator σ) in
  ∃ (o' : Object) (news : list Object),
    Store.FundingRate.calculate self d σ =
      (Ok (length (heap σ)),
       {| heap := heap σ ++ o' :: news; generator := pure.2 |}) ∧
    Holds o' (length pure.1) (columns_of funding_rate_schema pure.1).
Proof.
  intros Hd pure.
  destruct (ends_fresh_normal
              (λ data funding_rate,
                 _ ← assign "funding_rate" (Numbers funding_rate) data;
                 funding_rate ← numbers "funding_rate" data;
                 _ ← assign "fr_buy_signal"
                       (Flags (map (λ r, flt r (fl (- threshold self)%Q)) funding_rate))
                       data;
                 funding_rate ← numbers "funding_rate" data;
                 _ ← assign "fr_sell_signal"
                       (Flags (map (λ r, fgt r (fl (threshold self))) funding_rate))
                       data;
                 mret data)
              0 (5 # 10000) (of_series data) σ d
              (λ r o' _, r = Ok (length (heap σ)) ∧
                         Holds o' (length pure.1) (columns_of funding_rate_schema pure.1))
              Hd) as (r & o' & news & Hrun & -> & Hholds).
  2:{ exists o', news. split; [|done]. exact Hrun. }
  cbn [rows of_series].
  set (rates := (NumpyRandom.normal 0 (5 # 10000) (length data) (generator σ)).1).
  assert (pure.1 = signals self data rates) as Hpure by done.
  assert (length rates = length data) as Hlr by apply normal_length.
  eapply ends_bind; [apply runs_assign|].
  eapply ends_bind; [apply runs_numbers; reflexivity|].
  eapply ends_bind; [apply runs_assign|].
  eapply ends_bind; [apply runs_numbers; reflexivity|].
  eapply ends_bind; [apply runs_assign|].
  apply ends_ret. split; [done|]. rewrite Hpure.
  pose proof (funding_rate_signals_length self data rates Hlr) as Hl0.
  split; [by rewrite Hl0|].
  repeat (apply Forall_cons; split); [..|done]; cbv beta;
    cbn [fst snd column_of rows columns of_series];
    repeat (rewrite lookup_insert_ne by done); rewrite lookup_insert_eq;
    do 2 f_equal; (apply fmap_rows_eq; [|intros j r Hr]).
  all: try column_length.
  all: pose proof (funding_rate_signals_row _ _ _ _ _ Hr) as Hc;
       destruct (signals_lookup _ _ _ _ _ Hr) as (Hrate & Hbuy & Hsell);
       pose proof (lookup_lt_Some _ _ _ Hc) as Hj.
  all: column_lookup.
Qed.

End FundingRateCalculate.

Section GoldenCrossRuns.

Import GoldenCrossStrategy Store Runs.

Lemma MA_inj (p q : Z) : Store.GoldenCross.MA p = Store.GoldenCross.MA q → p = q.
Proof.
  unfold Store.GoldenCross.MA. intros Heq.
  apply (inj (String.app "MA_")) in Heq. by apply (inj pretty) in Heq.
Qed.

Ltac ma_ne :=
  first [done | by (unfold Store.GoldenCross.MA; cbn; discriminate)].

Ltac in_schema :=
  unfold golden_cross_schema, candle_schema; cbn [app];
  repeat first [apply list_elem_of_here|apply list_elem_of_further].

Ltac others_same :=
  unfold golden_cross_schema, candle_schema; cbn [app];
  repeat (constructor; [by (cbn; try case_decide; ma_ne)|]); constructor.

(** One half of the body of the loop, once the averages of the bar before
    are read: the flag of a crossing. *)
Lemma golden_cross_event_runs (self : Self) (event : string)
    (before after : float → float → bool) (fe : Row → bool)
    (set : bool → Row → Row) (d i N : nat) (rows : list Row) (o : Object) (p c : Row) :
  Holds o N (columns_of (golden_cross_schema self) rows) →
  rows !! i = Some c → i < N →
  (event, FlagField fe) ∈ golden_cross_schema self →
  Forall (λ nf, if decide (nf.1 = event) then nf.2 = FlagField fe
                else same_field nf.2 (set true c) c) (golden_cross_schema self) →
  fe (set true c) = true →
  ∃ o',
    Runs (if before (ma_short p) (ma_long p) then
            x ← number (Store.GoldenCross.MA (short_period self)) i d;
            y ← number (Store.GoldenCross.MA (long_period self)) i d;
            if after x y then set_flag event i true d else mret ()
          else mret ()) d o (Ok ()) o' [] ∧
    Holds o' N (columns_of (golden_cross_schema self)
                  (<[i := if before (ma_short p) (ma_long p)
                               && after (ma_short c) (ma_long c)
                          then set true c else c]> rows)).
Proof.
  intros Hholds Hc Hi Hev Hsame Hset.
  pose proof (runs_number_row _ _ _ _ _ ma_short d i c Hholds ltac:(in_schema) Hc)
    as Hread_s.
  pose proof (runs_number_row _ _ _ _ _ ma_long d i c Hholds ltac:(in_schema) Hc)
    as Hread_l.
  destruct (before (ma_short p) (ma_long p)); cbn [andb].
  - destruct (after (ma_short c) (ma_long c)) eqn:Hafter.
    + destruct (runs_set_flag_row _ _ _ _ _ fe set true d i c Hholds Hc Hi Hev Hsame Hset)
        as (o' & Hrun & Hholds').
      exists o'. split; [|done].
      apply (runs_bind _ _ _ _ _ _ _ _ [] [] Hread_s).
      apply (runs_bind _ _ _ _ _ _ _ _ [] [] Hread_l).
      by rewrite Hafter.
    + exists o. split; [|by apply holds_same].
      apply (runs_bind _ _ _ _ _ _ _ _ [] [] Hread_s).
      apply (runs_bind _ _ _ _ _ _ _ _ [] [] Hread_l).
      rewrite Hafter. apply runs_ret.
  - exists o. split; [|by apply holds_same]. apply runs_ret.
Qed.

Lemma golden_cross_step_runs (self : Self) (d N : nat) (rows : list Row)
    (o : Object) (i : nat) :
  i ∈ range 1 N →
  length rows = N ∧ Holds o N (columns_of (golden_cross_schema self) rows) →
  ∃ o', Runs (Store.GoldenCross.step self d i) d o (Ok ()) o' [] ∧
        (length (step rows i) = N ∧
         Holds o' N (columns_of (golden_cross_schema self) (step rows i))).
Proof.
  unfold range. rewrite elem_of_seq. intros Hi [Hlen Hholds].
  destruct (lookup_lt_is_Some_2 rows i) as [c Hc]; [lia|].
  destruct (lookup_lt_is_Some_2 rows (i - 1)) as [p Hp]; [lia|].
  rewrite (golden_cross_step_next rows i p c Hc Hp) by lia.
  rewrite length_insert.
  destruct (golden_cross_event_runs self "golden_cross" fle fgt golden_cross
              set_golden_cross d i N rows o p c Hholds Hc)
    as (o1 & Hrun1 & Hholds1); [lia|in_schema|others_same|done|].
  set (c1 := if fle (ma_short p) (ma_long p) && fgt (ma_short c) (ma_long c)
             then set_golden_cross true c else c) in *.
  assert (<[i := c1]> rows !! i = Some c1) as Hc1
    by (apply list_lookup_insert_eq; lia).
  assert (<[i := c1]> rows !! (i - 1) = Some p) as Hp1
    by (rewrite list_lookup_insert_ne by lia; done).
  destruct (golden_cross_event_runs self "death_cross" fge flt death_cross
              set_death_cross d i N _ o1 p c1 Hholds1 Hc1)
    as (o2 & Hrun2 & Hholds2); [lia|in_schema|others_same|done|].
  rewrite list_insert_insert_eq in Hholds2.
  exists o2. split; [|split; [done|]].
  - unfold Store.GoldenCross.step.
    apply (runs_bind _ _ _ _ _ _ _ _ [] []
             (runs_number_row _ _ _ _ _ ma_short d (i - 1) p Hholds
                ltac:(in_schema) Hp)).
    apply (runs_bind _ _ _ _ _ _ _ _ [] []
             (runs_number_row _ _ _ _ _ ma_long d (i - 1) p Hholds
                ltac:(in_schema) Hp)).
    apply (runs_bind _ _ _ _ _ _ _ _ [] [] Hrun1).
    apply (runs_bind _ _ _ _ _ _ _ _ [] []
             (runs_number_row _ _ _ _ _ ma_short d (i - 1) p Hholds1
                ltac:(in_schema) Hp1)).
    apply (runs_bind _ _ _ _ _ _ _ _ [] []
             (runs_number_row _ _ _ _ _ ma_long d (i - 1) p Hholds1
                ltac:(in_schema) Hp1)).
    exact Hrun2.
  - unfold GoldenCrossScan.next. by fold c1.
Qed.

Lemma averages_length (data : DataFrame) ma_s ma_l :
  length ma_s = length data → length ma_l = length data →
  length (averages data ma_s ma_l) = length data.
Proof.
  intros Hs Hl. unfold averages. rewrite length_zip_with, length_zip. lia.
Qed.

Lemma averages_row (data : DataFrame) ma_s ma_l i r :
  averages data ma_s ma_l !! i = Some r → data !! i = Some (candle r).
Proof.
  unfold averages. rewrite lookup_zip_with.
  destruct (data !! i) as [c|]; [|done]. cbn.
  destruct (zip ma_s ma_l !! i) as [m|]; [|done]. cbn. by intros [= <-].
Qed.

Lemma golden_cross_calculate_runs (self : Self) (data : DataFrame)
    (σ : State) (d : nat) :
  heap σ !! d = Some (of_series data) →
  ∃ (r : result nat) (o' : Object) (news : list Object),
    Store.GoldenCross.calculate self d σ =
      (r, {| heap := heap σ ++ o' :: news; generator := generator σ |}) ∧
    match GoldenCrossStrategy.calculate self data with
    | Ok frame =>
        r = Ok (length (heap σ)) ∧
        Holds o' (length frame) (columns_of (golden_cross_schema self) frame)
    | Raise e => r = Raise e
    end.
Proof.
  intros Hd.
  unfold GoldenCrossStrategy.calculate, Store.GoldenCross.calculate.
  eapply (ends_fresh _ (of_series data)); [done|].
  set (d' := length (heap σ)).
  eapply ends_bind; [apply runs_numbers; reflexivity|].
  destruct (rolling_mean (short_period self) (map (λ c, fl (close c)) data))
    as [ma_s|e] eqn:Hs; cbn [mbind Py.bind];
    [|eapply ends_raise; [apply runs_lift|done]].
  eapply ends_bind; [apply runs_lift|].
  eapply ends_bind; [apply runs_assign|].
  eapply ends_bind;
    [apply runs_numbers; cbn [columns]; rewrite lookup_insert_ne by ma_ne;
     reflexivity|].
  destruct (rolling_mean (long_period self) (map (λ c, fl (close c)) data))
    as [ma_l|e] eqn:Hl; cbn [mbind Py.bind];
    [|eapply ends_raise; [apply runs_lift|done]].
  eapply ends_bind; [apply runs_lift|].
  eapply ends_bind; [apply runs_assign|].
  eapply ends_bind; [apply runs_len|].
  eapply ends_bind; [apply runs_assign|].
  eapply ends_bind; [apply runs_len|].
  eapply ends_bind; [apply runs_assign|].
  eapply ends_bind; [apply runs_len|].
  cbn [rows columns of_series].
  lazymatch goal with |- Ends _ _ ?o _ => set (o_pre := o) end.
  set (rows0 := averages data ma_s ma_l).
  pose proof (rolling_length _ _ _ _ Hs) as Hls.
  pose proof (rolling_length _ _ _ _ Hl) as Hll.
  rewrite length_map in Hls, Hll.
  assert (length rows0 = length data) as Hl0 by (by apply averages_length).
  assert (Holds o_pre (length data) (columns_of (golden_cross_schema self) rows0))
    as Hholds.
  { assert (Store.GoldenCross.MA (long_period self)
              = Store.GoldenCross.MA (short_period self) → ma_l = ma_s) as Hsame.
    { intros Heq%MA_inj. rewrite Heq in Hl. congruence. }
    split; [done|].
    repeat (apply Forall_cons; split); [..|done]; cbv beta;
      cbn [fst snd column_of]; unfold o_pre; cbn [columns].
    all: repeat (rewrite lookup_insert_ne by ma_ne).
    all: first
           [ rewrite lookup_insert_eq
           | destruct (decide (Store.GoldenCross.MA (long_period self)
                               = Store.GoldenCross.MA (short_period self)))
               as [Heq|Hne];
             [ rewrite Heq, (Hsame Heq), lookup_insert_eq
             | rewrite lookup_insert_ne, lookup_insert_eq by done ] ].
    all: do 2 f_equal; (apply fmap_rows_eq; [|intros j r Hr]).
    all: try column_length.
    all: pose proof (averages_row _ _ _ _ _ Hr) as Hc;
         destruct (averages_lookup _ _ _ _ _ Hr) as (Hms & Hml & Hg & Hdc);
         pose proof (lookup_lt_Some _ _ _ Hc) as Hj.
    all: column_lookup. }
  cbn [result_bind Py.bind]. fold rows0. rewrite Hl0.
  destruct (2 <=? length data) eqn:Htwo.
  - destruct (runs_for
                (λ rows o, length rows = length data ∧
                           Holds o (length data)
                             (columns_of (golden_cross_schema self) rows))
                step (Store.GoldenCross.step self d') d' (range 1 (length data))
                (λ rows o i, golden_cross_step_runs self d' (length data) rows o i)
                rows0 o_pre (conj Hl0 Hholds))
      as (o2 & Hrun & Hl2 & Hholds2).
    eapply ends_bind;
      [exact (runs_bind _ _ _ _ _ _ _ _ [] [] (runs_len d' o_pre) Hrun)|].
    apply ends_ret. split; [done|]. by rewrite Hl2.
  - eapply ends_bind; [apply runs_ret|]. apply ends_ret.
    split; [done|]. by rewrite Hl0.
Qed.

End GoldenCrossRuns.

Section SupertrendRuns.

Import SupertrendStrategy Store Runs.

Ltac read_price H :=
  eapply runs_bind;
  [apply runs_numbers; cbn [columns];
   repeat (rewrite lookup_insert_ne by done);
   first [apply lookup_insert_eq | exact H]|].

Lemma tr_runs (o : Object) (data : DataFrame) :
  has_prices o data →
  ∃ (o' : Object) (news : list Object),
    ∀ d, Runs (Store.Supertrend.tr d) d o (Ok (tr data)) o (o' :: news).
Proof.
  intros (Hhigh & Hlow & Hclose).
  assert (∃ (col : list float) (o' : Object) (news : list Object),
            (∀ d', Runs (close ← numbers "close" d';
                         _ ← assign "previous_close" (Numbers (shift1 close)) d';
                         high ← numbers "high" d';
                         low ← numbers "low" d';
                         _ ← assign "high-low"
                               (Numbers (zip_with (λ h l, fabs (fsub h l)) high low)) d';
                         high ← numbers "high" d';
                         previous_close ← numbers "previous_close" d';
                         _ ← assign "high-pc"
                               (Numbers (zip_with (λ h pc, fabs (fsub h pc))
                                           high previous_close)) d';
                         low ← numbers "low" d';
                         previous_close ← numbers "previous_close" d';
                         _ ← assign "low-pc"
                               (Numbers (zip_with (λ l pc, fabs (fsub l pc))
                                           low previous_close)) d';
                         high_low ← numbers "high-low" d';
                         high_pc ← numbers "high-pc" d';
                         low_pc ← numbers "low-pc" d';
                         mret (zip_with (λ hl p, row_max [hl; p.1; p.2])
                                 high_low (zip high_pc low_pc)))
                    d' o (Ok col) o' news) ∧
            col = tr data) as (col & o' & news & Hrun & ->).
  { eexists _, _, _. split.
    - intros d'.
      read_price Hclose. eapply runs_bind; [apply runs_assign|].
      read_price Hhigh. read_price Hlow. eapply runs_bind; [apply runs_assign|].
      read_price Hhigh. read_price Hclose. eapply runs_bind; [apply runs_assign|].
      read_price Hlow. read_price Hclose. eapply runs_bind; [apply runs_assign|].
      read_price Hclose. read_price Hclose. read_price Hclose.
      apply runs_ret.
    - unfold tr.
      change (map ?f ?l) with (f <$> l).
      f_equal; [by rewrite zip_with_fmap_l, zip_with_fmap_r, zip_with_diag|].
      f_equal; by rewrite zip_with_fmap_l. }
  exists o', news. intros d. by apply runs_copy.
Qed.

Lemma atr_runs (o : Object) (data : DataFrame) (period : Z) :
  has_prices o data →
  ∃ (o' : Object) (news : list Object),
    ∀ d, Runs (Store.Supertrend.atr d period) d o (atr data period) o (o' :: news).
Proof.
  intros Hprices.
  destruct (tr_runs o data Hprices) as (o1 & news1 & Htr).
  unfold atr, Store.Supertrend.atr.
  destruct (rolling_mean period (tr data)) as [col|e] eqn:Hmean.
  - eexists _, _. intros d. apply runs_copy. intros d'.
    eapply runs_bind; [apply Htr|].
    eapply runs_bind; [apply runs_assign|].
    eapply runs_bind; [apply runs_numbers; cbn [columns]; apply lookup_insert_eq|].
    rewrite Hmean.
    eapply runs_bind; [apply runs_lift|]. apply runs_ret.
  - eexists _, _. intros d. apply runs_copy. intros d'.
    eapply runs_bind; [apply Htr|].
    eapply runs_bind; [apply runs_assign|].
    eapply runs_bind; [apply runs_numbers; cbn [columns]; apply lookup_insert_eq|].
    rewrite Hmean.
    eapply runs_bind_raise. apply runs_lift.
Qed.

Ltac in_schema :=
  unfold supertrend_schema, candle_schema; cbn [app];
  repeat first [apply list_elem_of_here|apply list_elem_of_further].

Ltac others_same :=
  unfold supertrend_schema, candle_schema; cbn [app];
  repeat (constructor; [by (cbn; try case_decide)|]); constructor.

(** The part of the body of the loop that carries a band over from the
    bar before. *)
Lemma supertrend_ratchet_runs (band : string) (fb : Row → float)
    (set : float → Row → Row) (cmp : float → float → bool) (cond : bool)
    (d i N : nat) (rows : list Row) (o : Object) (p c : Row) :
  Holds o N (columns_of supertrend_schema rows) →
  rows !! i = Some c → rows !! (i - 1) = Some p → i < N →
  (band, NumberField fb) ∈ supertrend_schema →
  Forall (λ nf, if decide (nf.1 = band) then nf.2 = NumberField fb
                else same_field nf.2 (set (fb p) c) c) supertrend_schema →
  fb (set (fb p) c) = fb p →
  ∃ o',
    Runs (if cond then
            x ← number band i d;
            y ← number band (i - 1) d;
            if cmp x y then
              y ← number band (i - 1) d;
              set_number band i y d
            else mret ()
          else mret ()) d o (Ok ()) o' [] ∧
    Holds o' N (columns_of supertrend_schema
                  (<[i := if cond && cmp (fb c) (fb p) then set (fb p) c else c]> rows)).
Proof.
  intros Hholds Hc Hp Hi Hband Hsame Hset.
  pose proof (runs_number_row _ _ _ _ _ fb d i c Hholds Hband Hc) as Hread_c.
  pose proof (runs_number_row _ _ _ _ _ fb d (i - 1) p Hholds Hband Hp) as Hread_p.
  destruct cond; cbn [andb].
  - destruct (cmp (fb c) (fb p)) eqn:Hcmp.
    + destruct (runs_set_number_row _ _ _ _ _ fb set (fb p) d i c
                  Hholds Hc Hi Hband Hsame Hset) as (o' & Hrun & Hholds').
      exists o'. split; [|done].
      apply (runs_bind _ _ _ _ _ _ _ _ [] [] Hread_c).
      apply (runs_bind _ _ _ _ _ _ _ _ [] [] Hread_p).
      rewrite Hcmp.
      apply (runs_bind _ _ _ _ _ _ _ _ [] [] Hread_p).
      exact Hrun.
    + exists o. split; [|by apply holds_same].
      apply (runs_bind _ _ _ _ _ _ _ _ [] [] Hread_c).
      apply (runs_bind _ _ _ _ _ _ _ _ [] [] Hread_p).
      rewrite Hcmp. apply runs_ret.
  - exists o. split; [|by apply holds_same]. apply runs_ret.
Qed.

Lemma supertrend_step_runs (d N : nat) (rows : list Row) (o : Object) (i : nat) :
  i ∈ range 1 N →
  length rows = N ∧ Holds o N (columns_of supertrend_schema rows) →
  ∃ o', Runs (Store.Supertrend.step d i) d o (Ok ()) o' [] ∧
        (length (step rows i) = N ∧
         Holds o' N (columns_of supertrend_schema (step rows i))).
Proof.
  unfold range. rewrite elem_of_seq. intros Hi [Hlen Hholds].
  destruct (lookup_lt_is_Some_2 rows i) as [c Hc]; [lia|].
  destruct (lookup_lt_is_Some_2 rows (i - 1)) as [p Hp]; [lia|].
  rewrite (supertrend_step_next rows i p c Hc Hp) by lia.
  rewrite length_insert.
  pose proof (runs_number_row _ _ _ _ _ (λ r, fl (close (candle r))) d i c
                Hholds ltac:(in_schema) Hc) as Hclose.
  pose proof (runs_number_row _ _ _ _ _ upperband d (i - 1) p
                Hholds ltac:(in_schema) Hp) as Hupper_p.
  pose proof (runs_number_row _ _ _ _ _ lowerband d (i - 1) p
                Hholds ltac:(in_schema) Hp) as Hlower_p.
  pose proof (runs_flag_row _ _ _ _ _ in_uptrend d (i - 1) p
                Hholds ltac:(in_schema) Hp) as Htrend_p.
  cbv beta in Hclose.
  unfold Store.Supertrend.step, SupertrendScan.next, close_.
  destruct (fgt (fl (close (candle c))) (upperband p)) eqn:Hgt.
  { destruct (runs_set_flag_row _ _ _ _ "in_uptrend" in_uptrend set_in_uptrend true d i c
                Hholds Hc) as (o' & Hrun & Hholds');
      [lia|in_schema|others_same|done|].
    exists o'. split; [|done].
    apply (runs_bind _ _ _ _ _ _ _ _ [] [] Hclose).
    apply (runs_bind _ _ _ _ _ _ _ _ [] [] Hupper_p).
    by rewrite Hgt. }
  destruct (flt (fl (close (candle c))) (lowerband p)) eqn:Hlt.
  { destruct (runs_set_flag_row _ _ _ _ "in_uptrend" in_uptrend set_in_uptrend false d i c
                Hholds Hc) as (o' & Hrun & Hholds');
      [lia|in_schema|others_same|done|].
    exists o'. split; [|done].
    apply (runs_bind _ _ _ _ _ _ _ _ [] [] Hclose).
    apply (runs_bind _ _ _ _ _ _ _ _ [] [] Hupper_p).
    rewrite Hgt.
    apply (runs_bind _ _ _ _ _ _ _ _ [] [] Hclose).
    apply (runs_bind _ _ _ _ _ _ _ _ [] [] Hlower_p).
    by rewrite Hlt. }
  (* the trend of the bar before is kept *)
  destruct (runs_set_flag_row _ _ _ _ "in_uptrend" in_uptrend set_in_uptrend (in_uptrend p)
              d i c Hholds Hc) as (o1 & Hrun1 & Hholds1);
    [lia|in_schema|others_same|done|].
  set (c1 := set_in_uptrend (in_uptrend p) c) in *.
  assert (<[i := c1]> rows !! i = Some c1) as Hc1
    by (apply list_lookup_insert_eq; lia).
  assert (<[i := c1]> rows !! (i - 1) = Some p) as Hp1
    by (rewrite list_lookup_insert_ne by lia; done).
  destruct (supertrend_ratchet_runs "lowerband" lowerband set_lowerband flt
              (in_uptrend c1) d i N _ o1 p c1 Hholds1 Hc1 Hp1)
    as (o2 & Hrun2 & Hholds2); [lia|in_schema|others_same|done|].
  rewrite list_insert_insert_eq in Hholds2.
  set (c2 := if in_uptrend c1 && flt (lowerband c1) (lowerband p)
             then set_lowerband (lowerband p) c1 else c1) in *.
  assert (<[i := c2]> rows !! i = Some c2) as Hc2
    by (apply list_lookup_insert_eq; lia).
  assert (<[i := c2]> rows !! (i - 1) = Some p) as Hp2
    by (rewrite list_lookup_insert_ne by lia; done).
  destruct (supertrend_ratchet_runs "upperband" upperband set_upperband fgt
              (negb (in_uptrend c2)) d i N _ o2 p c2 Hholds2 Hc2 Hp2)
    as (o3 & Hrun3 & Hholds3); [lia|in_schema|others_same|done|].
  rewrite list_insert_insert_eq in Hholds3.
  exists o3. split; [|split; [done|exact Hholds3]].
  apply (runs_bind _ _ _ _ _ _ _ _ [] [] Hclose).
  apply (runs_bind _ _ _ _ _ _ _ _ [] [] Hupper_p).
  rewrite Hgt.
  apply (runs_bind _ _ _ _ _ _ _ _ [] [] Hclose).
  apply (runs_bind _ _ _ _ _ _ _ _ [] [] Hlower_p).
  rewrite Hlt.
  apply (runs_bind _ _ _ _ _ _ _ _ [] [] Htrend_p).
  apply (runs_bind _ _ _ _ _ _ _ _ [] [] Hrun1).
  apply (runs_bind _ _ _ _ _ _ _ _ [] []
           (runs_flag_row _ _ _ _ _ in_uptrend d i c1 Hholds1 ltac:(in_schema) Hc1)).
  apply (runs_bind _ _ _ _ _ _ _ _ [] [] Hrun2).
  apply (runs_bind _ _ _ _ _ _ _ _ [] []
           (runs_flag_row _ _ _ _ _ in_uptrend d i c2 Hholds2 ltac:(in_schema) Hc2)).
  exact Hrun3.
Qed.

Lemma supertrend_bands_length (self : Self) (data : DataFrame) atr_col :
  length atr_col = length data → length (bands self data atr_col) = length data.
Proof. intros Ha. unfold bands. rewrite length_zip_with. lia. Qed.

Lemma supertrend_bands_row (self : Self) (data : DataFrame) atr_col i r :
  bands self data atr_col !! i = Some r →
  data !! i = Some (candle r) ∧ atr_col !! i = Some (atr_ r) ∧
  upperband r
    = fadd (lift2 Qdiv (fadd (fl (high (candle r))) (fl (low (candle r)))) (fl 2))
        (fmul (fl (multiplier self)) (atr_ r)) ∧
  lowerband r
    = fsub (lift2 Qdiv (fadd (fl (high (candle r))) (fl (low (candle r)))) (fl 2))
        (fmul (fl (multiplier self)) (atr_ r)) ∧
  in_uptrend r = true.
Proof.
  unfold bands. rewrite lookup_zip_with.
  destruct (data !! i) as [c|]; [|done]. cbn.
  destruct (atr_col !! i) as [a|]; [|done]. cbn. by intros [= <-].
Qed.

Lemma supertrend_calculate_runs (self : Self) (data : DataFrame)
    (σ : State) (d : nat) :
  heap σ !! d = Some (of_series data) →
  ∃ (r : result nat) (o' : Object) (news : list Object),
    Store.Supertrend.calculate self d σ =
      (r, {| heap := heap σ ++ o' :: news; generator := generator σ |}) ∧
    match SupertrendStrategy.calculate self data with
    | Ok frame =>
        r = Ok (length (heap σ)) ∧
        Holds o' (length frame) (columns_of supertrend_schema frame)
    | Raise e => r = Raise e
    end.
Proof.
  intros Hd.
  destruct (atr_runs (of_series data) data (period self)) as (o_atr & news_atr & Hatr);
    [by split_and!|].
  unfold SupertrendStrategy.calculate, Store.Supertrend.calculate.
  eapply (ends_fresh _ (of_series data)); [done|].
  set (d' := length (heap σ)).
  eapply ends_bind; [apply runs_numbers; reflexivity|].
  eapply ends_bind; [apply runs_numbers; reflexivity|].
  destruct (atr data (period self)) as [atr_col|e] eqn:Hatr_col;
    cbn [mbind result_bind Py.bind];
    [|eapply ends_raise; [apply Hatr|done]].
  eapply ends_bind; [apply Hatr|].
  eapply ends_bind; [apply runs_assign|].
  eapply ends_bind; [apply runs_numbers; reflexivity|].
  eapply ends_bind; [apply runs_assign|].
  eapply ends_bind; [apply runs_numbers; reflexivity|].
  eapply ends_bind; [apply runs_assign|].
  eapply ends_bind; [apply runs_len|].
  eapply ends_bind; [apply runs_assign|].
  eapply ends_bind; [apply runs_len|].
  cbn [rows columns of_series].
  lazymatch goal with |- Ends _ _ ?o _ => set (o_pre := o) end.
  set (rows0 := bands self data atr_col).
  pose proof (rolling_length _ _ _ _ Hatr_col) as Hla. rewrite tr_length in Hla.
  assert (length rows0 = length data) as Hl0 by (by apply supertrend_bands_length).
  assert (Holds o_pre (length data) (columns_of supertrend_schema rows0)) as Hholds.
  { split; [done|].
    repeat (apply Forall_cons; split); [..|done]; cbv beta;
      cbn [fst snd column_of]; unfold o_pre; cbn [columns];
      repeat (rewrite lookup_insert_ne by done); rewrite lookup_insert_eq;
      do 2 f_equal; (apply fmap_rows_eq; [|intros j r Hr]).
    all: try column_length.
    all: destruct (supertrend_bands_row _ _ _ _ _ Hr) as (Hc & Ha & Hup & Hlo & Htrend);
         pose proof (lookup_lt_Some _ _ _ Hc) as Hj.
    all: column_lookup. }
  destruct (runs_for
              (λ rows o, length rows = length data ∧
                         Holds o (length data) (columns_of supertrend_schema rows))
              step (Store.Supertrend.step d') d' (range 1 (length data))
              (λ rows o i, supertrend_step_runs d' (length data) rows o i)
              rows0 o_pre (conj Hl0 Hholds))
    as (o2 & Hrun & Hl2 & Hholds2).
  eapply ends_bind; [exact Hrun|]. apply ends_ret.
  fold rows0. rewrite Hl0. by rewrite Hl2.
Qed.

End SupertrendRuns.

Section CalculateRefines.

Import Store Runs.
Context `{Sqrt}.

(** What a method returns that works on a copy of its own. *)
Lemma returned_fresh (r : result nat) (σ : State) (o' : Object)
    (news : list Object) (g : RandomState) :
  r = Ok (length (heap σ)) →
  returned (r, {| heap := heap σ ++ o' :: news; generator := g |}) = Ok o'.
Proof.
  intros ->. unfold returned. cbn. by rewrite lookup_app_r, Nat.sub_diag.
Qed.

(** The methods on objects compute the frames of the methods on series:
    [calculate], run on an object that holds the series, returns an object
    that holds the frame, column by column under the names of the code,
    or raises the same exception; and it leaves the generator where the
    method on series leaves it. *)
Lemma calculate_refines (self : Strategy.Self) (series : DataFrame)
    (σ : State) (d : nat) :
  heap σ !! d = Some (of_series series) →
  let out := Store.calculate self d σ in
  let frame := Strategy.calculate self series (generator σ) in
  generator out.2 = frame.2 ∧
  match frame.1 with
  | Ok frame => ∃ o', returned out = Ok o' ∧ holds self frame o'
  | Raise e => out.1 = Raise e
  end.
Proof.
  intros Hd. unfold Store.calculate, Strategy.calculate, holds.
  destruct (Strategy.impl self) as [s|s|s|s]; cbn zeta.
  - destruct (supertrend_calculate_runs s series σ d Hd) as (r & o' & news & -> & Hr).
    cbn [fst snd generator]. split; [done|].
    destruct (SupertrendStrategy.calculate s series) as [frame|e];
      cbn [fmap result_fmap fst snd]; [|done].
    destruct Hr as [Hr Hholds]. exists o'. by rewrite returned_fresh.
  - destruct (golden_cross_calculate_runs s series σ d Hd) as (r & o' & news & -> & Hr).
    cbn [fst snd generator]. split; [done|].
    destruct (GoldenCrossStrategy.calculate s series) as [frame|e];
      cbn [fmap result_fmap fst snd]; [|done].
    destruct Hr as [Hr Hholds]. exists o'. by rewrite returned_fresh.
  - destruct (bollinger_calculate_runs s series σ d Hd) as (r & o' & news & -> & Hr).
    cbn [fst snd generator]. split; [done|].
    destruct (BollingerBandsStrategy.calculate s series) as [frame|e];
      cbn [fmap result_fmap fst snd]; [|done].
    destruct Hr as [Hr Hholds]. exists o'. by rewrite returned_fresh.
  - destruct (funding_rate_calculate_runs s series σ d Hd) as (o' & news & -> & Hholds).
    destruct (FundingRateStrategy.calculate s series (generator σ)) as [rows rng].
    cbn [fst snd generator] in *. split; [done|].
    exists o'. by rewrite returned_fresh.
Qed.

End CalculateRefines.

Section CalculateTwice.

Import Store Determinism.
Context `{Sqrt}.

Lemma calculate_fresh (self : Strategy.Self) :
  is_funding_rate self = false → Fresh (Store.calculate self).
Proof.
  unfold is_funding_rate, Store.calculate.
  destruct (Strategy.impl self) as [s|s|s|s]; intros Hfr; try done.
  - apply supertrend_calculate_fresh.
  - apply golden_cross_calculate_fresh.
  - apply bollinger_calculate_fresh.
Qed.

(** What a fresh method returns. *)
Lemma fresh_returned (m : nat → M nat) (σ : State) (e : option exn)
    (o' : Object) (news : list Object) :
  returned (from_option Raise (Ok (length (heap σ))) e,
            {| heap := heap σ ++ o' :: news; generator := generator σ |})
  = from_option Raise (Ok o') e.
Proof.
  unfold returned. destruct e as [e|]; cbn; [done|].
  by rewrite lookup_app_r, Nat.sub_diag.
Qed.

Lemma run_inspect {A} (f : Object → result A) (d : nat) (σ : State) (o : Object) :
  heap σ !! d = Some o → inspect f d σ = (f o, σ).
Proof. intros Hd. unfold inspect. by rewrite Hd. Qed.

Lemma run_update (f : Object → result Object) (d : nat) (σ : State) (o o' : Object) :
  heap σ !! d = Some o → f o = Ok o' →
  update f d σ = (Ok (), {| heap := <[d := o']> (heap σ); generator := generator σ |}).
Proof. intros Hd Hf. unfold update. by rewrite Hd, Hf. Qed.

(** Funding Rate: the frame returned is made of the object given and the
    draws of the generator. *)
Lemma funding_rate_calculate_run (self : FundingRateStrategy.Self) (o : Object) :
  ∃ frame : list float → Object,
    ∀ (σ : State) (d : nat), heap σ !! d = Some o →
      Store.FundingRate.calculate self d σ =
        (Ok (length (heap σ)),
         {| heap :=
              heap σ ++
                [frame (NumpyRandom.normal 0 (5 # 10000) (rows o) (generator σ)).1];
            generator :=
              (NumpyRandom.normal 0 (5 # 10000) (rows o) (generator σ)).2 |}).
Proof.
  eexists (λ rates,
    {| rows := rows o;
       columns :=
         <["fr_sell_signal" :=
             Flags (map (λ r, fgt r (fl (FundingRateStrategy.threshold self))) rates)]>
           (<["fr_buy_signal" :=
                Flags (map (λ r, flt r (fl (- FundingRateStrategy.threshold self)%Q))
                         rates)]>
              (<["funding_rate" := Numbers rates]> (columns o))) |}).
  intros σ d Hd.
  unfold Store.FundingRate.calculate, mbind, M_bind, copy.
  rewrite Hd.
  set (n := length (heap σ)).
  assert (∀ (l : list Object) (x : Object) g,
            length l = n → heap {| heap := l ++ [x]; generator := g |} !! n = Some x)
    as Hat.
  { intros l x g <-. cbn. by rewrite lookup_app_r, Nat.sub_diag. }
  unfold len. erewrite run_inspect by (by apply Hat).
  unfold normal. cbn [heap generator fst snd NumpyRandom.normal].
  unfold assign, numbers.
  erewrite run_update; [|by apply Hat|done]. cbn [heap generator].
  rewrite insert_app_r_alt, Nat.sub_diag by (unfold n; lia). cbn [insert list_insert].
  erewrite run_inspect by (by apply Hat). cbn [columns].
  rewrite lookup_insert_eq.
  erewrite run_update; [|by apply Hat|done]. cbn [heap generator rows columns].
  rewrite insert_app_r_alt, Nat.sub_diag by (unfold n; lia). cbn [insert list_insert].
  erewrite run_inspect by (by apply Hat). cbn [columns].
  rewrite lookup_insert_ne, lookup_insert_eq by done.
  erewrite run_update; [|by apply Hat|done]. cbn [heap generator rows columns].
  rewrite insert_app_r_alt, Nat.sub_diag by (unfold n; lia). cbn [insert list_insert].
  done.
Qed.

(** C2 (as amended). [calculate] of Supertrend, Golden Cross and
    Bollinger Bands works on a copy of the frame it is given: it changes
    no object there was before the call (the series of the caller
    included) and leaves the random generator alone, and the frame it
    returns, or the exception it raises, depends on the series and the
    parameters alone.  So two calls on one series return identical frames,
    in two new objects, whatever the state they are made in, and the second
    call leaves the frame of the first as it was.  For Funding Rate, whose
    rates are draws of the global random generator, no object there was is
    changed either, and two calls return identical frames when the
    generator hands both the same draws.  The frame a call returns is
    the one [Strategy.calculate] computes from the series: the object has
    its rows, column by column under the names the code gives them, and
    the call raises when [Strategy.calculate] does. *)
Theorem calculate_twice (self : Strategy.Self) (series : DataFrame) :
  let o := of_series series in
  (∀ (σ1 σ2 : State) (d1 d2 : nat),
     heap σ1 !! d1 = Some o → heap σ2 !! d2 = Some o →
     let out1 := Store.calculate self d1 σ1 in
     let out2 := Store.calculate self d2 σ2 in
     heap σ1 `prefix_of` heap out1.2 ∧
     (is_funding_rate self = false →
        generator out1.2 = generator σ1 ∧ returned out1 = returned out2) ∧
     (is_funding_rate self = true →
        draws (generator σ1) (length series) = draws (generator σ2) (length series) →
        returned out1 = returned out2)) ∧
  (∀ (σ : State) (d : nat),
     heap σ !! d = Some o →
     let first := Store.calculate self d σ in
     let second := Store.calculate self d first.2 in
     heap second.2 !! d = Some o ∧
     (∀ r1 r2, first.1 = Ok r1 → second.1 = Ok r2 →
               r1 ≠ d ∧ r2 ≠ d ∧ r1 ≠ r2 ∧
               heap second.2 !! r1 = heap first.2 !! r1) ∧
     (is_funding_rate self = false →
        generator second.2 = generator σ ∧
        returned (first.1, second.2) = returned second) ∧
     (is_funding_rate self = true →
        draws (generator σ) (length series)
          = draws (generator first.2) (length series) →
        returned (first.1, second.2) = returned second)) ∧
  (∀ (σ : State) (d : nat),
     heap σ !! d = Some o →
     let out := Store.calculate self d σ in
     let frame := Strategy.calculate self series (generator σ) in
     generator out.2 = frame.2 ∧
     match frame.1 with
     | Ok frame => ∃ o', returned out = Ok o' ∧ Runs.holds self frame o'
     | Raise e => out.1 = Raise e
     end).
Proof.
  intros o.
  (* every call, by the kind of the strategy *)
  assert (∀ (σ1 σ2 : State) (d1 d2 : nat),
            heap σ1 !! d1 = Some o → heap σ2 !! d2 = Some o →
            ∃ (e : option exn) (o1 o2 : Object) (news1 news2 : list Object)
              (g1 g2 : RandomState),
              Store.calculate self d1 σ1 =
                (from_option Raise (Ok (length (heap σ1))) e,
                 {| heap := heap σ1 ++ o1 :: news1; generator := g1 |}) ∧
              Store.calculate self d2 σ2 =
                (from_option Raise (Ok (length (heap σ2))) e,
                 {| heap := heap σ2 ++ o2 :: news2; generator := g2 |}) ∧
              (is_funding_rate self = false →
                 o1 = o2 ∧ g1 = generator σ1 ∧ g2 = generator σ2) ∧
              (is_funding_rate self = true →
                 draws (generator σ1) (length series)
                   = draws (generator σ2) (length series) →
                 o1 = o2)) as Hcalls.
  { intros σ1 σ2 d1 d2 H1 H2.
    destruct (is_funding_rate self) eqn:Hfr.
    - unfold is_funding_rate in Hfr. unfold Store.calculate.
      destruct (Strategy.impl self) as [s|s|s|s]; try done.
      destruct (funding_rate_calculate_run s o) as [frame Hrun].
      rewrite (Hrun σ1 d1 H1), (Hrun σ2 d2 H2).
      eexists None, _, _, [], [], _, _. split; [done|]. split; [done|].
      split; [done|]. intros _ Hdraws.
      rewrite !normal_draws. cbn [rows o of_series]. by rewrite Hdraws.
    - destruct (calculate_fresh self Hfr σ1 σ2 d1 d2 o H1 H2)
        as (e & o' & news & E1 & E2).
      exists e, o', o', news, news, (generator σ1), (generator σ2).
      by split_and!. }
  split; [|split].
  - intros σ1 σ2 d1 d2 H1 H2 out1 out2. subst out1 out2.
    destruct (Hcalls σ1 σ2 d1 d2 H1 H2)
      as (e & o1 & o2 & news1 & news2 & g1 & g2 & -> & -> & Hpure & Hdrawn).
    cbn [fst snd heap generator].
    assert (∀ (σ : State) (x : Object) (news : list Object) (g : RandomState),
              returned (from_option Raise (Ok (length (heap σ))) e,
                        {| heap := heap σ ++ x :: news; generator := g |})
              = from_option Raise (Ok x) e) as Hreturned.
    { intros σ x news g. unfold returned. destruct e as [e|]; cbn; [done|].
      by rewrite lookup_app_r, Nat.sub_diag. }
    rewrite !Hreturned. split; [by apply prefix_app_r|]. split.
    + intros Hfr. destruct (Hpure Hfr) as (-> & -> & _). done.
    + intros Hfr Hdraws. by rewrite (Hdrawn Hfr Hdraws).
  - intros σ d Hd first second. subst first second.
    destruct (Hcalls σ σ d d Hd Hd)
      as (e & o1 & o1' & news1 & news1' & g1 & g1' & E1 & _ & Hpure1 & _).
    rewrite E1. cbn [fst snd].
    set (σ' := {| heap := heap σ ++ o1 :: news1; generator := g1 |}).
    assert (heap σ' !! d = Some o) as Hd'.
    { cbn. by rewrite lookup_app_l by (by eapply lookup_lt_Some). }
    destruct (Hcalls σ σ' d d Hd Hd')
      as (e' & o1'' & o2 & news1'' & news2 & g1'' & g2 & E1' & E2 & Hpure & Hdrawn).
    rewrite E1 in E1'. injection E1' as He Hheap Hg.
    apply app_inv_head in Hheap. injection Hheap as <- <-. subst g1''.
    rewrite E2. cbn [fst snd heap generator].
    pose proof (lookup_lt_Some _ _ _ Hd) as Hlt.
    pose proof (lookup_lt_Some _ _ _ Hd') as Hlt'.
    assert (e = e') as <-.
    { destruct e as [e|], e' as [e'|]; cbn in He; by simplify_eq. }
    assert (∀ x news g,
              returned (from_option Raise (Ok (length (heap σ))) e,
                        {| heap := heap σ' ++ x :: news; generator := g |})
              = from_option Raise (Ok o1) e) as Hfirst.
    { intros x news g. unfold returned. destruct e as [e|]; cbn; [done|].
      rewrite <- app_assoc. by rewrite lookup_app_r, Nat.sub_diag. }
    assert (∀ x news g,
              returned (from_option Raise (Ok (length (heap σ'))) e,
                        {| heap := heap σ' ++ x :: news; generator := g |})
              = from_option Raise (Ok x) e) as Hsecond.
    { intros x news g. unfold returned. destruct e as [e|]; cbn [fst snd heap]; [done|].
      cbn [from_option mbind result_bind Py.bind].
      by rewrite lookup_app_r, Nat.sub_diag. }
    rewrite Hfirst, Hsecond.
    split_and!.
    + by rewrite lookup_app_l.
    + intros r1 r2 Hr1 Hr2. destruct e as [e|]; [done|]. cbn in Hr1, Hr2.
      injection Hr1 as <-. injection Hr2 as <-.
      rewrite length_app. cbn [length]. split_and!; [lia..|].
      by rewrite lookup_app_l by (cbn; rewrite length_app; cbn; lia).
    + intros Hfr. destruct (Hpure Hfr) as (-> & _ & ->).
      by destruct (Hpure1 Hfr) as (_ & -> & _).
    + intros Hfr Hdraws. by rewrite (Hdrawn Hfr Hdraws).
  - intros σ d Hd. by apply calculate_refines.
Qed.

End CalculateTwice.

Lemma calculate_twice_witness :
  let self := {| Strategy.name := "Supertrend"; Strategy.is_active := true;
                 Strategy.impl := Strategy.Supertrend Examples.supertrend_1_1 |} in
  let σ := {| Store.heap := [Store.of_series Examples.fall_and_rise];
              Store.generator := Examples.alternating |} in
  let first := @Store.calculate Examples.sqrt_floor self 0 σ in
  let second := @Store.calculate Examples.sqrt_floor self 0 first.2 in
  first.1 = Ok 1 ∧ second.1 = Ok 4 ∧
  Store.heap second.2 !! 0 = Some (Store.of_series Examples.fall_and_rise) ∧
  Store.returned (first.1, second.2) = Store.returned second ∧
  Store.flags "in_uptrend" 4 second.2 = (Ok [true; false; true], second.2) ∧
  ∃ rows o',
    (@Strategy.calculate Examples.sqrt_floor self Examples.fall_and_rise
       Examples.alternating).1 = Ok (Strategy.SupertrendFrame rows) ∧
    SupertrendStrategy.in_uptrend <$> rows = [true; false; true] ∧
    Store.returned first = Ok o' ∧
    Runs.holds self (Strategy.SupertrendFrame rows) o'.
Proof.
  intros self σ first second.
  pose proof (@calculate_twice Examples.sqrt_floor self Examples.fall_and_rise)
    as (_ & Htwice & Hframe).
  destruct (Htwice σ 0 eq_refl) as (Hseries & _ & Hpure & _).
  destruct (Hpure eq_refl) as [_ Hsame].
  split; [vm_compute; reflexivity|]. split; [vm_compute; reflexivity|].
  split; [exact Hseries|]. split; [exact Hsame|].
  split; [vm_compute; reflexivity|].
  specialize (Hframe σ 0 eq_refl). cbv zeta in Hframe.
  destruct Hframe as [_ Hholds].
  assert (∃ rows,
            (@Strategy.calculate Examples.sqrt_floor self Examples.fall_and_rise
               (Store.generator σ)).1 = Ok (Strategy.SupertrendFrame rows) ∧
            SupertrendStrategy.in_uptrend <$> rows = [true; false; true])
    as (rows & Hcalc & Htrend).
  { eexists. split; [vm_compute; reflexivity|]. vm_compute. reflexivity. }
  rewrite Hcalc in Hholds. destruct Hholds as (o' & Hreturned & Hholds).
  exists rows, o'. by split_and!.
Defined.
